(** * GeoCoordinate Viewer: the tile caching core

    A shallow embedding of the tile projector and URL enumeration
    ([TileCache] in app.js, the helpers of service-worker.js and
    [MapManager.getVisibleTiles]), of the Cache API store they share, of the
    batch fetcher and of the service worker's request handlers and
    activation step, followed by the properties proved about them.

    JavaScript numbers are IEEE-754 binary64 values: they are Rocq's
    primitive floats here, so [+], [-], [*] and [/] below are the operations
    the script performs.  The value of [Math.floor] is kept as a [jsint]: an
    integer, [NaN] or an infinity.  Integers are held in [Z]; this agrees
    with the script's arithmetic on them ([x++], [-], [Math.abs], [*], the
    decimal [String(x)]) below 2^53, far above any tile index. *)

From Stdlib Require Import ZArith Ascii Floats.PrimFloat Floats.FloatOps Floats.SpecFloat.
From stdpp Require Import gmap strings list pretty sorting.

Local Open Scope Z_scope.
Set Warnings "-inexact-float,-clear-no-such-hyp".

(** ** JavaScript values *)

Module JS.

(** The errors of the specification's taxonomy; a JavaScript function either
    returns, throws, or does not come back. *)
Inductive error :=
  | InvalidCoordinate
  | NetworkUnavailable
  | FetchFailed
  | DownloadAlreadyInProgress
  | StoreUnavailable.

Inductive completion (A : Type) :=
  | Normal (a : A)
  | Throw (e : error)
  | Diverges.
Arguments Normal {A} a.
Arguments Throw {A} e.
Arguments Diverges {A}.

Definition bind {A B} (c : completion A) (k : A → completion B) : completion B :=
  match c with
  | Normal a => k a
  | Throw e => Throw e
  | Diverges => Diverges
  end.

(** What [Math.floor] can return. *)
Inductive jsint :=
  | JInt (n : Z)
  | JInf (negative : bool)
  | JNaN.

Definition Math_floor (f : float) : jsint :=
  match Prim2SF f with
  | S754_zero _ => JInt 0
  | S754_infinity s => JInf s
  | S754_nan => JNaN
  | S754_finite s m e => JInt (Z.shiftl (if s then Z.neg m else Z.pos m) e)
  end.

(** [Number(n)] for an integer [n], rounded to nearest. *)
Definition of_Z (n : Z) : float :=
  SF2Prim (binary_normalize prec emax n 0 false).

Definition Math_min (a b : jsint) : jsint :=
  match a, b with
  | JNaN, _ | _, JNaN => JNaN
  | JInf true, _ | _, JInf true => JInf true
  | JInf false, c | c, JInf false => c
  | JInt m, JInt n => JInt (Z.min m n)
  end.

Definition Math_max (a b : jsint) : jsint :=
  match a, b with
  | JNaN, _ | _, JNaN => JNaN
  | JInf false, _ | _, JInf false => JInf false
  | JInf true, c | c, JInf true => c
  | JInt m, JInt n => JInt (Z.max m n)
  end.

Definition Math_abs (a : jsint) : jsint :=
  match a with
  | JInt n => JInt (Z.abs n)
  | JInf _ => JInf false
  | JNaN => JNaN
  end.

Definition js_opp (a : jsint) : jsint :=
  match a with
  | JInt n => JInt (- n)
  | JInf s => JInf (negb s)
  | JNaN => JNaN
  end.

Definition js_add (a b : jsint) : jsint :=
  match a, b with
  | JNaN, _ | _, JNaN => JNaN
  | JInt m, JInt n => JInt (m + n)
  | JInf s, JInt _ | JInt _, JInf s => JInf s
  | JInf s, JInf t => if Bool.eqb s t then JInf s else JNaN
  end.

Definition js_sub (a b : jsint) : jsint := js_add a (js_opp b).

Definition js_mul (a b : jsint) : jsint :=
  match a, b with
  | JNaN, _ | _, JNaN => JNaN
  | JInt m, JInt n => JInt (m * n)
  | JInf s, JInt n | JInt n, JInf s =>
      if n =? 0 then JNaN else JInf (xorb s (n <? 0))
  | JInf s, JInf t => JInf (xorb s t)
  end.

(** [a <= b] *)
Definition js_le (a b : jsint) : bool :=
  match a, b with
  | JNaN, _ | _, JNaN => false
  | JInt m, JInt n => m <=? n
  | JInf true, _ | _, JInf false => true
  | JInf false, _ | _, JInf true => false
  end.

(** [for (let v = lo; v <= hi; v++)], turn by turn: the values the counter
    takes when the loop exits within the given number of tests. *)
Fixpoint loop_values (tests : nat) (v hi : jsint) : option (list jsint) :=
  match tests with
  | O => None
  | S tests' =>
      if js_le v hi
      then option_map (cons v) (loop_values tests' (js_add v (JInt 1)) hi)
      else Some []
  end.

(** The same loop in closed form (see [for_range_loop]): the values the
    counter takes, in order.  With an infinite bound that passes the test
    the loop never ends: [v++] leaves an infinity unchanged and never
    reaches one. *)
Definition for_range (lo hi : jsint) : completion (list Z) :=
  match lo, hi with
  | JInt a, JInt b => Normal (seqZ a (b - a + 1))
  | _, _ => if js_le lo hi then Diverges else Normal []
  end.

(** The statements of a loop body run for each value in turn, every run
    appending what it pushes. *)
Fixpoint for_each {A B} (body : A → completion (list B)) (l : list A)
  : completion (list B) :=
  match l with
  | [] => Normal []
  | v :: l' =>
      bind (body v) (λ out, bind (for_each body l') (λ rest, Normal (out ++ rest)))
  end.

(** [String(n)] for an integer. *)
Definition ToString (n : Z) : string := pretty n.

Fixpoint string_drop (n : nat) (s : string) : string :=
  match n, s with
  | O, _ => s
  | S n', String _ s' => string_drop n' s'
  | S _, EmptyString => EmptyString
  end.

(** [s.replace(pat, rep)] for a string pattern: the first occurrence only.
    The replacements used here are decimal numbers, which hold no [$]. *)
Fixpoint String_replace (pat rep s : string) : string :=
  if String.prefix pat s then rep +:+ string_drop (String.length pat) s
  else match s with
       | EmptyString => EmptyString
       | String c s' => String c (String_replace pat rep s')
       end.

(** The functions of [Math] that ECMAScript leaves implementation-approximated. *)
Record MathImpl := {
  Math_tan : float → float;
  Math_cos : float → float;
  Math_log : float → float;
  Math_pow : float → float → float;
}.

Definition Math_PI : float := 0x1.921fb54442d18p+1%float.

End JS.

Import JS.

Global Instance completion_ret : MRet completion := @Normal.
Global Instance completion_bind : MBind completion := λ A B k c, bind c k.

(** ** Tiles and boxes *)

(** [{ x, y }] as [latLngToTile] returns it. *)
Record TilePoint := { x : jsint; y : jsint }.

(** [{ north, south, east, west }], in degrees. *)
Record BoundingBox := { north : float; south : float; east : float; west : float }.

(** ** The browser: Cache API, network, console *)

(** A response: what the store keeps as an opaque blob. *)
Record Response := {
  status : Z;
  statusText : string;
  headers : list (string * string);
  body : string;
}.

(** [response.ok] *)
Definition ok (r : Response) : bool := (200 <=? status r) && (status r <=? 299).

(** [fetch(url)] settles: it resolves with a response of any status, or
    rejects when the network fails. *)
Inductive FetchResult :=
  | Resolved (r : Response)
  | Rejected.

(** The console lines the modelled functions write. *)
Inductive ConsoleEntry :=
  | ErrorCachingTile (url : option string)
  | LogDownloading (tiles : nat)
  | LogDownloaded (cached : nat)
  | LogCacheCleared
  | WarnCacheSize (count limit : nat)
  | LogDeletingOldCache (cacheName : string)
  | WarnFailedToCacheTile (url : string)
  | ErrorTileFetch
  | ErrorApiFetch.

(** [CacheStorage] maps a cache name to a cache, a cache maps a URL to the
    response stored under it.  The network is an oracle: what the n-th
    fetch of the session yields for a URL; [fetched] is the log of the
    fetches made, so its length is the network-call counter. *)
Record Browser := {
  caches : gmap string (gmap string Response);
  onLine : bool;
  network : nat → string → FetchResult;
  fetched : list string;
  console : list ConsoleEntry;
  cachedTilesEl : option string;
}.

Definition with_caches (cs : gmap string (gmap string Response)) (b : Browser) : Browser :=
  {| caches := cs; onLine := onLine b; network := network b; fetched := fetched b;
     console := console b; cachedTilesEl := cachedTilesEl b |}.

Definition console_write (e : ConsoleEntry) (b : Browser) : Browser :=
  {| caches := caches b; onLine := onLine b; network := network b; fetched := fetched b;
     console := console b ++ [e]; cachedTilesEl := cachedTilesEl b |}.

Definition set_textContent (text : string) (b : Browser) : Browser :=
  {| caches := caches b; onLine := onLine b; network := network b; fetched := fetched b;
     console := console b;
     cachedTilesEl := match cachedTilesEl b with Some _ => Some text | None => None end |}.

Definition fetch (url : string) (b : Browser) : FetchResult * Browser :=
  (network b (length (fetched b)) url,
   {| caches := caches b; onLine := onLine b; network := network b;
      fetched := fetched b ++ [url]; console := console b;
      cachedTilesEl := cachedTilesEl b |}).

(** The cache behind a name; a name never opened has no entries. *)
Definition cache_of (cs : gmap string (gmap string Response)) (name : string)
  : gmap string Response := default ∅ (cs !! name).

(** [caches.open(name)]: the named cache, created empty when absent. *)
Definition caches_open (name : string) (b : Browser) : Browser :=
  with_caches (<[name := cache_of (caches b) name]> (caches b)) b.

(** [cache.put(url, response)] on the cache opened as [name]: last write wins. *)
Definition cache_put (name url : string) (r : Response) (b : Browser) : Browser :=
  with_caches (<[name := <[url := r]> (cache_of (caches b) name)]> (caches b)) b.

(** [cache.match(url)]: the entry, or [undefined]. *)
Definition cache_match (name url : string) (b : Browser) : option Response :=
  cache_of (caches b) name !! url.

(** [(await cache.keys()).length] *)
Definition cache_count (name : string) (b : Browser) : nat :=
  size (cache_of (caches b) name).

(** [caches.delete(name)] *)
Definition caches_delete (name : string) (b : Browser) : Browser :=
  with_caches (delete name (caches b)) b.

(** [caches.keys()] *)
Definition caches_keys (b : Browser) : list string := (map_to_list (caches b)).*1.

(** ** TileCache (app.js): projector, URL enumeration, batch fetcher *)

Module TileCache.

(** The fields the constructor sets. *)
Record t := {
  cacheName : string;
  staticCacheName : string;
  maxCacheSize : nat;
  tileQueue : list string;
  isDownloading : bool;
}.

Definition set_isDownloading (v : bool) (this : t) : t :=
  {| cacheName := cacheName this; staticCacheName := staticCacheName this;
     maxCacheSize := maxCacheSize this; tileQueue := tileQueue this;
     isDownloading := v |}.

Definition updateCacheInfo (this : t) (b : Browser) : nat * Browser :=
  let b := caches_open (cacheName this) b in
  let count := cache_count (cacheName this) b in
  (count, set_textContent (pretty count +:+ " tiles in cache") b).

Definition init (this : t) (b : Browser) : Browser :=
  (updateCacheInfo this b).2.

Definition constructor (b : Browser) : t * Browser :=
  let this := {| cacheName := "geocoordinate-tiles-v1";
                 staticCacheName := "geocoordinate-static-v1";
                 maxCacheSize := 500;
                 tileQueue := [];
                 isDownloading := false |} in
  (this, init this b).

Definition cacheTile (this : t) (url : string) (b : Browser) : bool * Browser :=
  let b := caches_open (cacheName this) b in
  let '(response, b) := fetch url b in
  match response with
  | Resolved response =>
      if ok response then (true, cache_put (cacheName this) url response b)
      else (false, b)
  | Rejected => (false, console_write (ErrorCachingTile None) b)
  end.

(** The locals of a [cacheTiles] call: the counter, the calls made to
    [onProgress], and the browser as the loop leaves it. *)
Record BatchState := {
  completed : nat;
  progress : list (nat * nat);
  browser : Browser;
}.

(** One turn of [for (const url of urls)]. *)
Definition cacheTiles_iteration (this : t) (total : nat) (onProgress : bool)
    (st : BatchState) (url : string) : BatchState :=
  let '(response, b) := fetch url (browser st) in
  let b := match response with
           | Resolved response =>
               if ok response then cache_put (cacheName this) url response b else b
           | Rejected => console_write (ErrorCachingTile (Some url)) b
           end in
  let completed := S (completed st) in
  {| completed := completed;
     progress := if onProgress then progress st ++ [(completed, total)] else progress st;
     browser := b |}.

(** [onProgress] tells whether a callback was passed; the calls it receives
    are returned with the count. *)
Definition cacheTiles (this : t) (urls : list string) (onProgress : bool) (b : Browser)
  : nat * list (nat * nat) * Browser :=
  let b := caches_open (cacheName this) b in
  let total := length urls in
  let st := foldl (cacheTiles_iteration this total onProgress)
                  {| completed := 0; progress := []; browser := b |} urls in
  let b := (updateCacheInfo this (browser st)).2 in
  (completed st, progress st, b).

Section Projector.
Variable Math : MathImpl.

Definition baseUrl : string :=
  "https://server.arcgisonline.com/ArcGIS/rest/services/World_Imagery/MapServer/tile/{z}/{y}/{x}".

Definition latLngToTile (lat lng : float) (zoom : Z) : completion TilePoint :=
  let x := Math_floor ((lng + 180) / 360 * Math_pow Math 2 (of_Z zoom))%float in
  let y := Math_floor ((1 - Math_log Math (Math_tan Math (lat * Math_PI / 180) +
             1 / Math_cos Math (lat * Math_PI / 180)) / Math_PI) / 2
             * Math_pow Math 2 (of_Z zoom))%float in
  Normal {| x := x; y := y |}.

Definition generateTileUrls (bounds : BoundingBox) (minZoom maxZoom : Z)
  : completion (list string) :=
  zs ← for_range (JInt minZoom) (JInt maxZoom);
  for_each (λ z,
    nwTile ← latLngToTile (north bounds) (west bounds) z;
    seTile ← latLngToTile (south bounds) (east bounds) z;
    xs ← for_range (Math_min (x nwTile) (x seTile)) (Math_max (x nwTile) (x seTile));
    for_each (λ x,
      ys ← for_range (Math_min (y nwTile) (y seTile)) (Math_max (y nwTile) (y seTile));
      for_each (λ y,
        let url := String_replace "{y}" (ToString y)
                     (String_replace "{x}" (ToString x)
                        (String_replace "{z}" (ToString z) baseUrl)) in
        Normal [url]) ys) xs) zs.

Definition estimateTileCount (bounds : BoundingBox) (minZoom maxZoom : Z)
  : completion jsint :=
  zs ← for_range (JInt minZoom) (JInt maxZoom);
  foldl (λ acc z,
    count ← acc;
    nwTile ← latLngToTile (north bounds) (west bounds) z;
    seTile ← latLngToTile (south bounds) (east bounds) z;
    let width := js_add (Math_abs (js_sub (x seTile) (x nwTile))) (JInt 1) in
    let height := js_add (Math_abs (js_sub (y seTile) (y nwTile))) (JInt 1) in
    Normal (js_add count (js_mul width height))) (Normal (JInt 0)) zs.

Definition downloadArea (this : t) (bounds : BoundingBox)
    (minZoom maxZoom : Z) (onProgress : bool) (b : Browser)
  : completion (nat * list (nat * nat) * t * Browser) :=
  let this := set_isDownloading true this in
  urls ← generateTileUrls bounds minZoom maxZoom;
  let b := console_write (LogDownloading (length urls)) b in
  let '(cached, calls, b) := cacheTiles this urls onProgress b in
  let this := set_isDownloading false this in
  let b := console_write (LogDownloaded cached) b in
  Normal (cached, calls, this, b).
End Projector.

Definition clearCache (this : t) (b : Browser) : Browser :=
  let b := caches_delete (cacheName this) b in
  let b := console_write LogCacheCleared b in
  (updateCacheInfo this b).2.

Definition checkCacheSize (this : t) (b : Browser) : Browser :=
  let '(count, b) := updateCacheInfo this b in
  if (maxCacheSize this <? count)%nat
  then console_write (WarnCacheSize count (maxCacheSize this)) b
  else b.

End TileCache.

(** MapManager.getVisibleTiles, map-manager.js; the bounds and the zoom are
    the map widget's. *)
Module MapManager.
Section Visible.
Variable Math : MathImpl.

Definition tileUrl : string :=
  "https://server.arcgisonline.com/ArcGIS/rest/services/World_Imagery/MapServer/tile/{z}/{y}/{x}".

Definition latLngToTile (latLng : float * float) (zoom : Z) : completion TilePoint :=
  let lat := latLng.1 in
  let lng := latLng.2 in
  let x := Math_floor ((lng + 180) / 360 * Math_pow Math 2 (of_Z zoom))%float in
  let y := Math_floor ((1 - Math_log Math (Math_tan Math (lat * Math_PI / 180) +
             1 / Math_cos Math (lat * Math_PI / 180)) / Math_PI) / 2
             * Math_pow Math 2 (of_Z zoom))%float in
  Normal {| x := x; y := y |}.

Definition getVisibleTiles (bounds : BoundingBox) (zoom : Z) : completion (list string) :=
  nwTile ← latLngToTile (north bounds, west bounds) zoom;
  seTile ← latLngToTile (south bounds, east bounds) zoom;
  xs ← for_range (x nwTile) (x seTile);
  for_each (λ x,
    ys ← for_range (y nwTile) (y seTile);
    for_each (λ y,
      let url := String_replace "{y}" (ToString y)
                   (String_replace "{x}" (ToString x)
                      (String_replace "{z}" (ToString zoom) tileUrl)) in
      Normal [url]) ys) xs.
End Visible.
End MapManager.



(** ** The service worker (service-worker.js) *)

Module ServiceWorker.

(** A pre-cached facility: [{ name, lat, lon, radius }], the radius in km. *)
Record Facility := { name : string; lat : float; lon : float; radius : float }.

Definition ESA_FACILITIES : list Facility :=
  [ {| name := "ESRIN"; lat := 41.8273; lon := 12.6734; radius := 2 |};
    {| name := "ESTEC"; lat := 52.2167; lon := 4.4208; radius := 2 |};
    {| name := "ESOC"; lat := 49.8719; lon := 8.6228; radius := 2 |};
    {| name := "ESA HQ"; lat := 48.8467; lon := 2.3706; radius := 2 |};
    {| name := "ESAC"; lat := 40.4425; lon := -3.9528; radius := 2 |};
    {| name := "CSG"; lat := 5.2394; lon := -52.7683; radius := 3 |} ]%float.

Definition ESA_ZOOM_LEVELS : list Z := [10; 11; 12; 13; 14; 15; 16].

(** The messages the worker reacts to, by [event.data.type]. *)
Inductive Message := SKIP_WAITING | CLEAR_CACHE | RECACHE_ESA.

(** [new Response(text, { status, statusText })] *)
Definition text_response (text : string) (status : Z) (statusText : string) : Response :=
  {| status := status; statusText := statusText;
     headers := [("content-type", "text/plain;charset=UTF-8")]; body := text |}.

(** [JSON.stringify({ error: message })]; the quote is written by its code,
    the messages used hold no character that JSON escapes. *)
Definition JSON_stringify_error (message : string) : string :=
  let q := String (Ascii.ascii_of_nat 34) EmptyString in
  "{" +:+ q +:+ "error" +:+ q +:+ ":" +:+ q +:+ message +:+ q +:+ "}".

(** [new Response(JSON.stringify({ error }), { status, headers })] *)
Definition json_error_response (message : string) (status : Z) : Response :=
  {| status := status; statusText := "";
     headers := [("Content-Type", "application/json")];
     body := JSON_stringify_error message |}.

Section Generation.
(** The generation tag the script is built with; a release changes it. *)
Variable CACHE_VERSION : string.
Variable Math : MathImpl.

Definition STATIC_CACHE : string := "geocoordinate-static-" +:+ CACHE_VERSION.
Definition TILE_CACHE : string := "geocoordinate-tiles-" +:+ CACHE_VERSION.
Definition DYNAMIC_CACHE : string := "geocoordinate-dynamic-" +:+ CACHE_VERSION.

Definition latLngToTile (lat lng : float) (zoom : Z) : completion TilePoint :=
  let x := Math_floor ((lng + 180) / 360 * Math_pow Math 2 (of_Z zoom))%float in
  let y := Math_floor ((1 - Math_log Math (Math_tan Math (lat * Math_PI / 180) +
             1 / Math_cos Math (lat * Math_PI / 180)) / Math_PI) / 2
             * Math_pow Math 2 (of_Z zoom))%float in
  Normal {| x := x; y := y |}.

Definition generateTileURLsForLocation (lat lon radiusKm : float) (zoomLevels : list Z)
  : completion (list string) :=
  let baseUrl :=
    "https://server.arcgisonline.com/ArcGIS/rest/services/World_Imagery/MapServer/tile/{z}/{y}/{x}" in
  let latOffset := (radiusKm / 111)%float in
  let lonOffset := (radiusKm / (111 * Math_cos Math (lat * Math_PI / 180)))%float in
  let bounds := {| north := lat + latOffset; south := lat - latOffset;
                   east := lon + lonOffset; west := lon - lonOffset |}%float in
  for_each (λ z,
    nwTile ← latLngToTile (north bounds) (west bounds) z;
    seTile ← latLngToTile (south bounds) (east bounds) z;
    xs ← for_range (Math_min (x nwTile) (x seTile)) (Math_max (x nwTile) (x seTile));
    for_each (λ x,
      ys ← for_range (Math_min (y nwTile) (y seTile)) (Math_max (y nwTile) (y seTile));
      for_each (λ y,
        let url := String_replace "{y}" (ToString y)
                     (String_replace "{x}" (ToString x)
                        (String_replace "{z}" (ToString z) baseUrl)) in
        Normal [url]) ys) xs) zoomLevels.

(** One tile of a batch: fetched, stored when the response is ok. *)
Definition cacheESATile (b : Browser) (url : string) : Browser :=
  let '(response, b) := fetch url b in
  match response with
  | Resolved response => if ok response then cache_put TILE_CACHE url response b else b
  | Rejected => console_write (WarnFailedToCacheTile url) b
  end.

(** [urls.slice(i, i + batchSize)] for [i = 0, batchSize, ...]. *)
Fixpoint batches (turns : nat) (batchSize : nat) (urls : list string) : list (list string) :=
  match turns, urls with
  | S turns', _ :: _ => take batchSize urls :: batches turns' batchSize (drop batchSize urls)
  | _, _ => []
  end.

(** The facilities are taken one after the other, the tiles of each in
    batches of ten; the fetches of a batch are issued in list order. *)
Definition cacheESAFacilities (b : Browser) : completion Browser :=
  let b := caches_open TILE_CACHE b in
  foldl (λ acc facility,
    b ← acc;
    urls ← generateTileURLsForLocation (lat facility) (lon facility) (radius facility)
             ESA_ZOOM_LEVELS;
    let batchSize := 10%nat in
    Normal (foldl (λ b batch, foldl cacheESATile b batch) b
                  (batches (length urls) batchSize urls)))
    (Normal b) ESA_FACILITIES.

(** The function the [activate] listener maps over the cache names. *)
Definition deleteOldCache (b : Browser) (cacheName : string) : Browser :=
  if decide (cacheName ≠ STATIC_CACHE ∧ cacheName ≠ TILE_CACHE ∧ cacheName ≠ DYNAMIC_CACHE)
  then caches_delete cacheName (console_write (LogDeletingOldCache cacheName) b)
  else b.

(** The [activate] listener: every cache whose name is none of the three
    current ones is deleted. *)
Definition activate (b : Browser) : Browser :=
  foldl deleteOldCache b (caches_keys b).

(** Cache first, for a tile request; the request is its URL. *)
Definition handleTileRequest (request : string) (b : Browser) : Response * Browser :=
  let b := caches_open TILE_CACHE b in
  match cache_match TILE_CACHE request b with
  | Some cachedResponse => (cachedResponse, b)
  | None =>
      if onLine b then
        let '(networkResponse, b) := fetch request b in
        match networkResponse with
        | Resolved networkResponse =>
            (networkResponse,
             if ok networkResponse then cache_put TILE_CACHE request networkResponse b else b)
        | Rejected =>
            (text_response "Error loading tile" 500 "", console_write ErrorTileFetch b)
        end
      else (text_response "Tile not available offline" 404 "Tile not cached", b)
  end.

(** Network first, for a geocoding request. *)
Definition handleApiRequest (request : string) (b : Browser) : Response * Browser :=
  if onLine b then
    let '(networkResponse, b) := fetch request b in
    match networkResponse with
    | Resolved networkResponse =>
        (networkResponse,
         if ok networkResponse
         then cache_put DYNAMIC_CACHE request networkResponse (caches_open DYNAMIC_CACHE b)
         else b)
    | Rejected =>
        (json_error_response "Request failed" 500, console_write ErrorApiFetch b)
    end
  else
    let b := caches_open DYNAMIC_CACHE b in
    match cache_match DYNAMIC_CACHE request b with
    | Some cachedResponse => (cachedResponse, b)
    | None => (json_error_response "Offline - data not cached" 503, b)
    end.

(** The [message] listener. *)
Definition onmessage (m : Message) (b : Browser) : completion Browser :=
  match m with
  | SKIP_WAITING => Normal b
  | CLEAR_CACHE => Normal (foldl (λ b cacheName, caches_delete cacheName b) b (caches_keys b))
  | RECACHE_ESA => cacheESAFacilities b
  end.

End Generation.

(** The tag of the script under src. *)
Definition shipped_CACHE_VERSION : string := "v1".

End ServiceWorker.


(** ** Overlapping downloads

    [downloadArea] is an async function: a call runs to its first [await]
    and is resumed later, and other calls may run in between.  A [Page]
    holds the [TileCache] object, the browser, and the calls of
    [downloadArea] made so far with the locals of each.  [resume] runs one
    call from one suspension to the next: one turn of the loop of
    [cacheTiles], or the statements after the loop. *)

Module Async.

Record Call := {
  urls : list string;            (* the URLs the loop has not reached yet *)
  completed : nat;
  total : nat;
  progress : list (nat * nat);   (* the calls made to [onProgress] *)
  onProgress : bool;
  returned : option nat;         (* the value the call resolved with *)
}.

Record Page := {
  this : TileCache.t;
  window : Browser;
  calls : list Call;
}.

Section Calls.
Variable Math : MathImpl.

(** From the call to the first suspension inside [cacheTiles]. *)
Definition downloadArea (bounds : BoundingBox) (minZoom maxZoom : Z) (onProgress : bool)
    (p : Page) : completion Page :=
  let this := TileCache.set_isDownloading true (this p) in
  urls ← TileCache.generateTileUrls Math bounds minZoom maxZoom;
  let b := console_write (LogDownloading (length urls)) (window p) in
  let b := caches_open (TileCache.cacheName this) b in
  Normal {| this := this; window := b;
            calls := calls p ++ [ {| urls := urls; completed := 0; total := length urls;
                                     progress := []; onProgress := onProgress;
                                     returned := None |} ] |}.

Definition resume (i : nat) (p : Page) : Page :=
  match calls p !! i with
  | None => p
  | Some c =>
      match returned c, urls c with
      | Some _, _ => p
      | None, url :: rest =>
          let st := TileCache.cacheTiles_iteration (this p) (total c) (onProgress c)
                      {| TileCache.completed := completed c;
                         TileCache.progress := progress c;
                         TileCache.browser := window p |} url in
          {| this := this p; window := TileCache.browser st;
             calls := <[i := {| urls := rest; completed := TileCache.completed st;
                                total := total c; progress := TileCache.progress st;
                                onProgress := onProgress c; returned := None |}]> (calls p) |}
      | None, [] =>
          let b := (TileCache.updateCacheInfo (this p) (window p)).2 in
          {| this := TileCache.set_isDownloading false (this p);
             window := console_write (LogDownloaded (completed c)) b;
             calls := <[i := {| urls := []; completed := completed c; total := total c;
                                progress := progress c; onProgress := onProgress c;
                                returned := Some (completed c) |}]> (calls p) |}
      end
  end.

End Calls.
End Async.

(** ** A reference engine

    The four approximated functions of [Math], by argument reduction and
    truncated series over the doubles, accurate to a few units in the last
    place over the range of the projection.  The theorems hold for every
    [MathImpl]; this one runs the embedding on concrete inputs. *)

Module Engine.
Local Open Scope float_scope.

Definition pio2_hi : float := 0x1.921fb54442d18p+0.
Definition pio2_lo : float := 0x1.1a62633145c07p-54.
Definition ln2_hi : float := 0x1.62e42fefa39efp-1.
Definition ln2_lo : float := 0x1.abc9e3b39803fp-56.

Definition horner (coeffs : list float) (t : float) : float :=
  foldr (λ c acc, c + t * acc) 0 coeffs.

Definition kernel_sin (r : float) : float :=
  r + r * (r * r) * horner [-1/6; 1/120; -1/5040; 1/362880; -1/39916800;
                            1/6227020800; -1/1307674368000] (r * r).

Definition kernel_cos (r : float) : float :=
  1 + (r * r) * horner [-1/2; 1/24; -1/720; 1/40320; -1/3628800; 1/479001600;
                        -1/87178291200; 1/20922789888000] (r * r).

Definition sincos (x : float) : float * float :=
  match Math_floor (x / pio2_hi + 0.5) with
  | JInt k =>
      let r := (x - of_Z k * pio2_hi) - of_Z k * pio2_lo in
      let s := kernel_sin r in
      let c := kernel_cos r in
      match (k mod 4)%Z with
      | 0%Z => (s, c)
      | 1%Z => (c, - s)
      | 2%Z => (- s, - c)
      | _ => (- c, s)
      end
  | _ => (nan, nan)
  end.

Definition cos (x : float) : float := (sincos x).2.
Definition tan (x : float) : float := (sincos x).1 / (sincos x).2.

Definition log (x : float) : float :=
  if is_nan x || (x <? 0) then nan
  else if x =? 0 then neg_infinity
  else if is_infinity x then infinity
  else
    let (m, e) := Z.frexp x in
    let (m, e) := if m <? 0x1.6a09e667f3bcdp-1 then (2 * m, (e - 1)%Z) else (m, e) in
    let t := (m - 1) / (m + 1) in
    let lnm := 2 * t * horner [1; 1/3; 1/5; 1/7; 1/9; 1/11; 1/13; 1/15; 1/17; 1/19;
                               1/21; 1/23; 1/25; 1/27] (t * t) in
    of_Z e * ln2_hi + (lnm + of_Z e * ln2_lo).

Definition exp (x : float) : float :=
  match Math_floor (x / ln2_hi + 0.5) with
  | JInt k =>
      let r := (x - of_Z k * ln2_hi) - of_Z k * ln2_lo in
      Z.ldexp (horner [1; 1; 1/2; 1/6; 1/24; 1/120; 1/720; 1/5040; 1/40320;
                       1/362880; 1/3628800; 1/39916800; 1/479001600;
                       1/6227020800; 1/87178291200] r) k
  | JInf true => 0
  | JInf false => infinity
  | JNaN => nan
  end.

Definition pow (b e : float) : float :=
  match Math_floor e with
  | JInt k => if (of_Z k =? e) && (b =? 2) then Z.ldexp 1 k else exp (e * log b)
  | _ => exp (e * log b)
  end.

Definition Math : MathImpl :=
  {| Math_tan := tan; Math_cos := cos; Math_log := log; Math_pow := pow |}.

End Engine.


(** ** Vocabulary of the statements *)

(** The template of the imagery provider, [.../tile/{z}/{y}/{x}], filled in. *)
Definition imagery_tile_path : string :=
  "https://server.arcgisonline.com/ArcGIS/rest/services/World_Imagery/MapServer/tile/".

Definition TileRequest (z x y : Z) : string :=
  imagery_tile_path +:+ ToString z +:+ "/" +:+ ToString y +:+ "/" +:+ ToString x.


Definition request_of (t : Z * Z * Z) : string := TileRequest t.1.1 t.1.2 t.2.




(** The tile a projection returned ([NaN] coordinates stand in when there is
    none), and the two corner tiles of a box. *)
Definition corner (c : completion TilePoint) : TilePoint :=
  match c with Normal t => t | _ => {| x := JNaN; y := JNaN |} end.

Definition nw_corner (Math : MathImpl) (bounds : BoundingBox) (z : Z) : TilePoint :=
  corner (TileCache.latLngToTile Math (north bounds) (west bounds) z).

Definition se_corner (Math : MathImpl) (bounds : BoundingBox) (z : Z) : TilePoint :=
  corner (TileCache.latLngToTile Math (south bounds) (east bounds) z).

(** The number is an integer or [NaN], not an infinity. *)
Definition bounded (n : jsint) : Prop :=
  match n with JInf _ => False | _ => True end.



(** The tiles of a box in enumeration order: per zoom, the columns between
    the corner tiles, and in each column the rows between them. *)
Definition range_values (lo hi : jsint) : list Z :=
  match for_range lo hi with Normal l => l | _ => [] end.





(** The character does not occur in the string. *)
Fixpoint lacks (c : ascii) (s : string) : Prop :=
  match s with
  | EmptyString => True
  | String a s' => a ≠ c ∧ lacks c s'
  end.

(** One of the three cache names of a generation. *)
Definition current (version name : string) : Prop :=
  name = ServiceWorker.STATIC_CACHE version ∨
  name = ServiceWorker.TILE_CACHE version ∨
  name = ServiceWorker.DYNAMIC_CACHE version.

Global Instance current_dec version name : Decision (current version name).
Proof. unfold current. apply _. Defined.

(** The named cache holds an entry for the URL. *)
Definition cached (name url : string) (b : Browser) : Prop :=
  is_Some (cache_match name url b).

(** The calls a page can make on its [TileCache] that write tiles or check
    the size, run in sequence. *)
Inductive CacheCall :=
  | CallCacheTile (url : string)
  | CallCacheTiles (urls : list string) (onProgress : bool)
  | CallCheckCacheSize.

Definition run_call (this : TileCache.t) (b : Browser) (c : CacheCall) : Browser :=
  match c with
  | CallCacheTile url => (TileCache.cacheTile this url b).2
  | CallCacheTiles urls onProgress => (TileCache.cacheTiles this urls onProgress b).2
  | CallCheckCacheSize => TileCache.checkCacheSize this b
  end.

(** ** Sample data *)

Module Sample.

Definition tile_png : Response :=
  {| status := 200; statusText := "OK"; headers := [("content-type", "image/png")];
     body := "PNG" |}.

Definition not_found : Response :=
  {| status := 404; statusText := "Not Found"; headers := []; body := "" |}.

Definition address_json : Response :=
  {| status := 200; statusText := "OK"; headers := [("content-type", "application/json")];
     body := "{}" |}.

Definition always (r : FetchResult) : nat → string → FetchResult := λ _ _, r.

(** The first fetch succeeds, the second is answered 404, later ones fail. *)
Definition flaky : nat → string → FetchResult := λ n _,
  match n with
  | O => Resolved tile_png
  | S O => Resolved not_found
  | _ => Rejected
  end.

Definition browser (net : nat → string → FetchResult) (online : bool) : Browser :=
  {| caches := ∅; onLine := online; network := net; fetched := []; console := [];
     cachedTilesEl := Some "" |}.

(** A browser that still holds the stores of generation v1, one with a
    tile, next to those generation v2 has opened. *)
Definition after_upgrade : Browser :=
  {| caches := {[ "geocoordinate-static-v1" := ∅;
                  "geocoordinate-tiles-v1" := {[ TileRequest 12 2191 1522 := tile_png ]};
                  "geocoordinate-dynamic-v1" := ∅;
                  "geocoordinate-static-v2" := ∅;
                  "geocoordinate-tiles-v2" := ∅ ]};
     onLine := true; network := always Rejected; fetched := []; console := [];
     cachedTilesEl := None |}.

Definition nominatim : string :=
  "https://nominatim.openstreetmap.org/reverse?format=json&lat=41.8273&lon=12.6734".

(** A browser that holds an earlier answer of the geocoder; [online] is what
    [navigator.onLine] reports, and every fetch fails. *)
Definition unreachable (online : bool) : Browser :=
  {| caches := {[ "geocoordinate-dynamic-v1" := {[ nominatim := address_json ]} ]};
     onLine := online; network := always Rejected; fetched := []; console := [];
     cachedTilesEl := None |}.

Definition tileCache : TileCache.t := (TileCache.constructor (browser (always Rejected) true)).1.

(** A box around ESRIN. *)
Definition frascati : BoundingBox :=
  {| north := 41.85; south := 41.80; east := 12.70; west := 12.64 |}%float.

(** Its tiles at zoom 12, as [generateTileUrls] lists them. *)
Definition frascati_12 : list string :=
  [TileRequest 12 2191 1522; TileRequest 12 2191 1523;
   TileRequest 12 2192 1522; TileRequest 12 2192 1523].

(** As many distinct tile URLs as wanted. *)
Definition many_urls (n : nat) : list string :=
  (λ i : nat, TileRequest 0 (Z.of_nat i) 0) <$> seq 0 n.

Definition three_urls : list string :=
  [TileRequest 12 2191 1522; TileRequest 12 2191 1523; TileRequest 12 2192 1522].

(** A page in the middle of a download: [downloadArea] was called on the
    box and its call has been resumed twice. *)
Definition idle : Async.Page :=
  {| Async.this := tileCache; Async.window := browser flaky true; Async.calls := [] |}.

Definition downloading : Async.Page :=
  match Async.downloadArea Engine.Math frascati 12 12 true idle with
  | Normal p => Async.resume 0 (Async.resume 0 p)
  | _ => idle
  end.

End Sample.


(** ** Further definitions *)

(** The box with north and south exchanged, and with east and west exchanged. *)
Definition flip_vertical (bounds : BoundingBox) : BoundingBox :=
  {| north := south bounds; south := north bounds; east := east bounds; west := west bounds |}.

Definition flip_horizontal (bounds : BoundingBox) : BoundingBox :=
  {| north := north bounds; south := south bounds; east := west bounds; west := east bounds |}.

(** [navigator.onLine] as the browser's online and offline events leave it. *)
Definition set_onLine (v : bool) (b : Browser) : Browser :=
  {| caches := caches b; onLine := v; network := network b; fetched := fetched b;
     console := console b; cachedTilesEl := cachedTilesEl b |}.

(** Every entry of every store is a response that was ok. *)
Definition only_ok (b : Browser) : Prop :=
  ∀ name url r, cache_match name url b = Some r → ok r = true.

(** What the page and the worker of a generation do to the stores, one
    after the other in any order. *)
Inductive StoreEvent :=
  | PageCacheTile (url : string)
  | PageCacheTiles (urls : list string) (onProgress : bool)
  | PageCheckCacheSize
  | PageClearCache
  | WorkerActivate
  | WorkerTileRequest (request : string)
  | WorkerApiRequest (request : string)
  | WorkerCacheESATile (url : string)
  | NavigatorOnLine (v : bool).

Definition run_event (version : string) (this : TileCache.t) (b : Browser) (e : StoreEvent)
  : Browser :=
  match e with
  | PageCacheTile url => (TileCache.cacheTile this url b).2
  | PageCacheTiles urls onProgress => (TileCache.cacheTiles this urls onProgress b).2
  | PageCheckCacheSize => TileCache.checkCacheSize this b
  | PageClearCache => TileCache.clearCache this b
  | WorkerActivate => ServiceWorker.activate version b
  | WorkerTileRequest request => (ServiceWorker.handleTileRequest version request b).2
  | WorkerApiRequest request => (ServiceWorker.handleApiRequest version request b).2
  | WorkerCacheESATile url => ServiceWorker.cacheESATile version b url
  | NavigatorOnLine v => set_onLine v b
  end.

(** The box [generateTileURLsForLocation] builds around a location. *)
Definition bounds_around (Math : MathImpl) (lat lon radiusKm : float) : BoundingBox :=
  let latOffset := (radiusKm / 111)%float in
  let lonOffset := (radiusKm / (111 * Math_cos Math (lat * Math_PI / 180)))%float in
  {| north := lat + latOffset; south := lat - latOffset;
     east := lon + lonOffset; west := lon - lonOffset |}%float.

(** The tiles of the six facilities, as the reference engine lists them. *)
Definition precache_lists : list (list string) :=
  (λ facility,
     match ServiceWorker.generateTileURLsForLocation Engine.Math
             (ServiceWorker.lat facility) (ServiceWorker.lon facility)
             (ServiceWorker.radius facility) ServiceWorker.ESA_ZOOM_LEVELS with
     | Normal urls => urls
     | _ => []
     end) <$> ServiceWorker.ESA_FACILITIES.

(** Every entry of [b'] is an entry of [b] or a response that was ok. *)
Definition keeps_or_ok (b b' : Browser) : Prop :=
  ∀ name url r, cache_match name url b' = Some r →
    cache_match name url b = Some r ∨ ok r = true.

From Stdlib Require Import Floats.FloatAxioms.

(** ** Numbers as text (location-details.js, map-manager.js) *)

Module Number.

(** [!n] for a number: true for 0, -0 and NaN. *)
Definition falsy (n : float) : bool := is_zero n || is_nan n.

Fixpoint zeros (n : nat) : string :=
  match n with
  | O => EmptyString
  | S n' => String "0" (zeros n')
  end.

(** The digits of the integer [n ≥ 0] with a point before the last [f]. *)
Definition fixed (n : Z) (f : nat) : string :=
  let m := pretty n in
  match f with
  | O => m
  | S _ =>
      let k := String.length m in
      let m := if (k <=? f)%nat then zeros (f + 1 - k) +:+ m else m in
      let k := if (k <=? f)%nat then (f + 1)%nat else k in
      String.substring 0 (k - f) m +:+ "." +:+ String.substring (k - f) f m
  end.

Section Text.
(** [String(n)] for a number: ECMAScript leaves the last digit to the
    implementation. *)
Variable Number_toString : float → string.

(** [x.toFixed(fractionDigits)], for at most 100 digits: the integer [n] for
    which [n / 10^f - x] is closest to zero, the larger of two, written with
    [f] digits after the point. *)
Definition toFixed (x : float) (fractionDigits : nat) : string :=
  match Prim2SF x with
  | S754_nan | S754_infinity _ => Number_toString x
  | S754_zero _ => fixed 0 fractionDigits
  | S754_finite s m e =>
      let sign := if s then "-" else "" in
      if 10 ^ 21 <=? Z.shiftl (Z.pos m) e then sign +:+ Number_toString (abs x)
      else
        let num := Z.pos m * 10 ^ Z.of_nat fractionDigits in
        let n := if 0 <=? e then num * 2 ^ e
                 else (2 * num + 2 ^ (- e)) / (2 * 2 ^ (- e)) in
        sign +:+ fixed n fractionDigits
  end.

End Text.
End Number.

(** ** JSON values (location-details.js) *)

Set Warnings "-register-all".

Module Json.

(** What [JSON.parse] returns.  An object lists its own properties, one per
    key. *)
Inductive t :=
  | Null
  | Bool (b : bool)
  | Num (n : float)
  | Str (s : string)
  | Arr (items : list t)
  | Obj (fields : list (string * t)).

Fixpoint assoc (key : string) (fields : list (string * t)) : option t :=
  match fields with
  | [] => None
  | (k, v) :: rest => if String.eqb k key then Some v else assoc key rest
  end.

(** [v[key]] for a value that is not [null] and a key that names nothing
    the value inherits, no array index and not [length] (the keys of an
    address and the cache keys, which hold a comma, are such keys): the own
    property of an object, [undefined] otherwise. *)
Definition get (key : string) (v : t) : option t :=
  match v with
  | Obj fields => assoc key fields
  | _ => None
  end.

(** ToBoolean *)
Definition truthy (v : t) : bool :=
  match v with
  | Null => false
  | Bool b => b
  | Num n => negb (Number.falsy n)
  | Str s => negb (String.eqb s "")
  | Arr _ | Obj _ => true
  end.

(** ToBoolean of a value that may be [undefined]. *)
Definition defined_truthy (v : option t) : bool :=
  match v with
  | Some v => truthy v
  | None => false
  end.

(** [a || b] *)
Definition or (a b : option t) : option t := if defined_truthy a then a else b.

Fixpoint replace (key : string) (value : t) (fields : list (string * t))
  : list (string * t) :=
  match fields with
  | [] => [(key, value)]
  | (k, v) :: rest =>
      if String.eqb k key then (k, value) :: rest else (k, v) :: replace key value rest
  end.

(** [v[key] = value] in strict code, for such a key: a property of an
    object is set or added; one set on an array is no element, and
    [JSON.stringify] does not see it; on [null] and on a primitive value
    the assignment throws a TypeError ([None]). *)
Definition assign (key : string) (value : t) (v : t) : option t :=
  match v with
  | Obj fields => Some (Obj (replace key value fields))
  | Arr items => Some (Arr items)
  | _ => None
  end.

Section Text.
Variable Number_toString : float → string.

(** ToString; [None] when it throws a TypeError: an object that has a
    property [toString] of its own has no usable one. *)
Fixpoint ToString (v : t) : option string :=
  match v with
  | Null => Some "null"
  | Bool b => Some (if b then "true" else "false")
  | Num n => Some (Number_toString n)
  | Str s => Some s
  | Arr items =>
      option_map (String.concat ",")
        ((fix elements (l : list t) : option (list string) :=
            match l with
            | [] => Some []
            | item :: l' =>
                match (match item with Null => Some EmptyString | _ => ToString item end),
                      elements l' with
                | Some text, Some texts => Some (text :: texts)
                | _, _ => None
                end
            end) items)
  | Obj fields =>
      match assoc "toString" fields with
      | Some _ => None
      | None => Some "[object Object]"
      end
  end.

(** [parts.join(separator)]: the text of each part, nothing for [null]. *)
Fixpoint texts (parts : list t) : option (list string) :=
  match parts with
  | [] => Some []
  | part :: parts' =>
      match (match part with Null => Some EmptyString | _ => ToString part end),
            texts parts' with
      | Some text, Some rest => Some (text :: rest)
      | _, _ => None
      end
  end.

Definition join (separator : string) (parts : list t) : option string :=
  option_map (String.concat separator) (texts parts).

End Text.
End Json.

(** ** LocationDetails (location-details.js) *)

Module LocationDetails.

(** What an element shows: set through [textContent] or through
    [innerHTML]. *)
Inductive Content :=
  | Text (s : string)
  | Html (markup : string).

(** The element [detail-address]: its content, and whether its class list
    holds [loading]. *)
Record AddressEl := { content : Content; loading : bool }.

(** The console lines of the class. *)
Inductive LogEntry :=
  | LogInitialized
  | ErrorReverseGeocoding
  | ErrorSavingToLocalStorage
  | ErrorLoadingFromLocalStorage.

(** What the methods act on: the browser of the page (network,
    [navigator.onLine]), [localStorage] with what it accepts ([setItem]
    throws when the quota is exceeded), the address element, the console. *)
Record World := {
  window : Browser;
  localStorage : gmap string string;
  accepts : string → string → bool;
  addressEl : AddressEl;
  journal : list LogEntry;
}.

Definition with_window (b : Browser) (w : World) : World :=
  {| window := b; localStorage := localStorage w; accepts := accepts w;
     addressEl := addressEl w; journal := journal w |}.

Definition with_localStorage (items : gmap string string) (w : World) : World :=
  {| window := window w; localStorage := items; accepts := accepts w;
     addressEl := addressEl w; journal := journal w |}.

Definition with_addressEl (el : AddressEl) (w : World) : World :=
  {| window := window w; localStorage := localStorage w; accepts := accepts w;
     addressEl := el; journal := journal w |}.

Definition console_line (e : LogEntry) (w : World) : World :=
  {| window := window w; localStorage := localStorage w; accepts := accepts w;
     addressEl := addressEl w; journal := journal w ++ [e] |}.

(** [addressEl.textContent = text; addressEl.classList.remove('loading')] *)
Definition show (text : string) (w : World) : World :=
  with_addressEl {| content := Text text; loading := false |} w.

(** The object: [geocodeCache], a [Map] from cache key to address. *)
Record t := { geocodeCache : gmap string string }.

Definition init (this : t) (w : World) : World := console_line LogInitialized w.

Definition constructor (w : World) : t * World :=
  let this := {| geocodeCache := ∅ |} in
  (this, init this w).

(** The markup [<span class="spinner"></span> Loading...], its quotes written
    by their code. *)
Definition spinner_markup : string :=
  let q := String (Ascii.ascii_of_nat 34) EmptyString in
  "<span class=" +:+ q +:+ "spinner" +:+ q +:+ "></span> Loading...".

(** A call of [reverseGeocode] suspended at [await fetch]: its cache key
    and what the fetch settles to. *)
Record Suspended := { cacheKey : string; settles : FetchResult }.

(** [if (part) parts.push(part)] *)
Definition push (part : option Json.t) (parts : list Json.t) : list Json.t :=
  match part with
  | Some v => if Json.truthy v then parts ++ [v] else parts
  | None => parts
  end.

Section Platform.
Variable Number_toString : float → string.
(** [JSON.parse], [None] when it throws a SyntaxError, and
    [JSON.stringify]. *)
Variable JSON_parse : string → option Json.t.
Variable JSON_stringify : Json.t → string.

Definition formatAddress (data : Json.t) : option string :=
  if negb (Json.truthy data) || negb (Json.defined_truthy (Json.get "address" data))
  then Some "Indirizzo sconosciuto"
  else
    let addr := match Json.get "address" data with Some addr => addr | None => Json.Null end in
    let parts := [] in
    let parts := push (Json.get "road" addr) parts in
    let parts := push (Json.get "house_number" addr) parts in
    let parts := push (Json.or (Json.or (Json.get "village" addr) (Json.get "town" addr))
                               (Json.get "city" addr)) parts in
    let parts := push (Json.get "state" addr) parts in
    let parts := push (Json.get "country" addr) parts in
    if (0 <? length parts)%nat then Json.join Number_toString ", " parts
    else Some "Unknown address".

(** [localStorage.getItem('geocode-cache') || '{}'] *)
Definition stored_text (w : World) : string :=
  match localStorage w !! "geocode-cache" with
  | Some text => if String.eqb text "" then "{}" else text
  | None => "{}"
  end.

Definition saveToLocalStorage (key value : string) (w : World) : World :=
  match JSON_parse (stored_text w) with
  | Some geocodeData =>
      match Json.assign key (Json.Str value) geocodeData with
      | Some geocodeData =>
          let text := JSON_stringify geocodeData in
          if accepts w "geocode-cache" text
          then with_localStorage (<["geocode-cache" := text]> (localStorage w)) w
          else console_line ErrorSavingToLocalStorage w
      | None => console_line ErrorSavingToLocalStorage w
      end
  | None => console_line ErrorSavingToLocalStorage w
  end.

(** [null] is [None]. *)
Definition loadFromLocalStorage (key : string) (w : World) : option Json.t * World :=
  match JSON_parse (stored_text w) with
  | Some Json.Null | None => (None, console_line ErrorLoadingFromLocalStorage w)
  | Some geocodeData =>
      (if Json.defined_truthy (Json.get key geocodeData) then Json.get key geocodeData
       else None, w)
  end.

Definition cacheKey_of (lat lon : float) : string :=
  Number.toFixed Number_toString lat 4 +:+ "," +:+ Number.toFixed Number_toString lon 4.

Definition reverse_url (lat lon : float) : string :=
  "https://nominatim.openstreetmap.org/reverse?format=json&lat=" +:+ Number_toString lat +:+
  "&lon=" +:+ Number_toString lon +:+ "&zoom=18&addressdetails=1".

(** [reverseGeocode] up to its return or to [await fetch]. *)
Definition reverseGeocode_start (this : t) (lat lon : float) (w : World)
  : World * option Suspended :=
  let cacheKey := cacheKey_of lat lon in
  match geocodeCache this !! cacheKey with
  | Some address => (show address w, None)
  | None =>
      if negb (onLine (window w)) then (show "Not available offline" w, None)
      else
        let w := with_addressEl
                   {| content := Html spinner_markup; loading := true |} w in
        let '(response, b) := fetch (reverse_url lat lon) (window w) in
        (with_window b w, Some {| cacheKey := cacheKey; settles := response |})
  end.

(** The [catch] block; [None] when it throws in turn ([cached + ' (cache)']
    for a stored value that has no text). *)
Definition reverseGeocode_catch (cacheKey : string) (w : World) : option World :=
  let w := console_line ErrorReverseGeocoding w in
  let '(cached, w) := loadFromLocalStorage cacheKey w in
  match cached with
  | Some cached =>
      match Json.ToString Number_toString cached with
      | Some text => Some (show (text +:+ " (cache)") w)
      | None => None
      end
  | None => Some (show "Error retrieving address" w)
  end.

(** [reverseGeocode] from the settlement of its fetch to its end; [None]
    when the promise it returned is rejected. *)
Definition reverseGeocode_settle (this : t) (call : Suspended) (w : World)
  : option (t * World) :=
  match settles call with
  | Resolved response =>
      if ok response then
        match JSON_parse (body response) with
        | Some data =>
            match formatAddress data with
            | Some address =>
                let this := {| geocodeCache := <[cacheKey call := address]> (geocodeCache this) |} in
                let w := show address w in
                Some (this, saveToLocalStorage (cacheKey call) address w)
            | None => option_map (pair this) (reverseGeocode_catch (cacheKey call) w)
            end
        | None => option_map (pair this) (reverseGeocode_catch (cacheKey call) w)
        end
      else Some (this, show "Address not found" w)
  | Rejected => option_map (pair this) (reverseGeocode_catch (cacheKey call) w)
  end.

(** A call that nothing interleaves with. *)
Definition reverseGeocode (this : t) (lat lon : float) (w : World) : option (t * World) :=
  match reverseGeocode_start this lat lon w with
  | (w, Some call) => reverseGeocode_settle this call w
  | (w, None) => Some (this, w)
  end.

End Platform.
End LocationDetails.

(** ** MapManager: navigation (map-manager.js) *)

Module Navigation.

(** [Math.sin] and [Math.atan2], implementation-approximated as well;
    [Math.sqrt] is exact. *)
Record TrigImpl := {
  Math_sin : float → float;
  Math_atan2 : float → float → float;
}.

Record ESAFacility := {
  name : string;
  lat : float;
  lon : float;
  radius : float;
  desc : string;
  location : string;
  established : string;
  function : string;
  staff : string;
}.

Definition getESAFacilities : list ESAFacility :=
  [ {| name := "ESRIN"; lat := 41.8273; lon := 12.6734; radius := 2;
       desc := "ESA Centre for Earth Observation";
       location := "Frascati, Italy";
       established := "1966";
       function := "Earth observation data processing and distribution. Houses the ESA Climate Office and hosts mission control for several Earth observation satellites.";
       staff := "~370 employees" |};
    {| name := "ESTEC"; lat := 52.2167; lon := 4.4208; radius := 2;
       desc := "European Space Research and Technology Centre";
       location := "Noordwijk, Netherlands";
       established := "1968";
       function := "ESA's largest establishment. Design, development and testing of spacecraft and technology. Home to mission control for several satellites.";
       staff := "~2,700 employees" |};
    {| name := "ESOC"; lat := 49.8719; lon := 8.6228; radius := 2;
       desc := "European Space Operations Centre";
       location := "Darmstadt, Germany";
       established := "1967";
       function := "Mission control for ESA satellites. Operates spacecraft, plans missions, and maintains the ground station network.";
       staff := "~800 employees" |};
    {| name := "ESA HQ"; lat := 48.8467; lon := 2.3706; radius := 2;
       desc := "ESA Headquarters";
       location := "Paris, France";
       established := "1975";
       function := "Administrative headquarters of the European Space Agency. Manages overall agency policy and programs.";
       staff := "~280 employees" |};
    {| name := "ESAC"; lat := 40.4425; lon := -3.9528; radius := 2;
       desc := "European Space Astronomy Centre";
       location := "Villanueva de la Cañada (Madrid), Spain";
       established := "2008";
       function := "Houses science operations for ESA astronomy and planetary missions. Home to the ESA archive for space science missions.";
       staff := "~290 employees" |};
    {| name := "CSG"; lat := 5.2394; lon := -52.7683; radius := 3;
       desc := "Guiana Space Centre";
       location := "Kourou, French Guiana";
       established := "1968";
       function := "Europe's Spaceport. Launch site for Ariane rockets and provides launch services for ESA and commercial customers.";
       staff := "~1,700 employees" |} ]%float.

(** A Leaflet marker with the popup bound to it: its title line and its
    coordinates line. *)
Record Marker := {
  latlng : float * float;
  popup_title : string;
  popup_coordinates : string;
}.

(** The Leaflet map, as far as the class uses it: what [getZoom] and
    [getBounds] return, the marker layers (each marker is an object of its
    own: it has a number), the marker whose popup is open, and the target of
    the last [flyTo]. *)
Record LeafletMap := {
  zoom : Z;
  bounds : BoundingBox;
  markers : list (nat * Marker);
  popup_open : option nat;
  flight : option (float * float * Z);
  made : nat;
}.

(** [L.marker(latlng).addTo(map).bindPopup(...).openPopup()]: the new
    marker's number and the map. *)
Definition add_marker (m : Marker) (map : LeafletMap) : nat * LeafletMap :=
  (made map,
   {| zoom := zoom map; bounds := bounds map;
      markers := markers map ++ [(made map, m)];
      popup_open := Some (made map); flight := flight map; made := S (made map) |}).

(** [map.removeLayer(marker)] *)
Definition removeLayer (marker : nat) (map : LeafletMap) : LeafletMap :=
  {| zoom := zoom map; bounds := bounds map;
     markers := filter (λ layer, layer.1 ≠ marker) (markers map);
     popup_open := if decide (popup_open map = Some marker) then None else popup_open map;
     flight := flight map; made := made map |}.

(** [map.flyTo(latlng, zoom, ...)] starts an animation. *)
Definition flyTo (latlng : float * float) (target : Z) (map : LeafletMap) : LeafletMap :=
  {| zoom := zoom map; bounds := bounds map; markers := markers map;
     popup_open := popup_open map; flight := Some (latlng.1, latlng.2, target);
     made := made map |}.

(** The fields of a [MapManager]. *)
Record t := {
  map : LeafletMap;
  currentMarker : option nat;
  currentLocation : option (float * float);
  currentESAFacility : option ESAFacility;
}.

(** The elements of the details panel. *)
Record Document := {
  details_panel_hidden : bool;
  detail_coords : string;
  detail_lat : string;
  detail_lon : string;
  detail_zoom : string;
  esa_info_hidden : bool;
  esa_name : string;
  esa_desc : string;
  esa_location : string;
  esa_established : string;
  esa_staff : string;
  esa_function : string;
}.

(** The console lines of the class and of app.js. *)
Inductive LogEntry :=
  | ErrorInvalidCoordinates
  | LogNavigateToESA (name : string)
  | LogNavigateTo (lat lon : float)
  | LogAutoCaching (tiles : nat).

(** The page: the world of [LocationDetails], [window.locationDetails], the
    calls of [reverseGeocode] that wait for their fetch, the details panel,
    the console, and the alerts shown. *)
Record Page := {
  world : LocationDetails.World;
  locationDetails : option LocationDetails.t;
  suspended : list LocationDetails.Suspended;
  document : Document;
  console : list LogEntry;
  alerts : list string;
}.

Definition with_world (w : LocationDetails.World) (calls : list LocationDetails.Suspended)
    (p : Page) : Page :=
  {| world := w; locationDetails := locationDetails p; suspended := calls;
     document := document p; console := console p; alerts := alerts p |}.

Definition with_document (d : Document) (p : Page) : Page :=
  {| world := world p; locationDetails := locationDetails p; suspended := suspended p;
     document := d; console := console p; alerts := alerts p |}.

Definition console_line (e : LogEntry) (p : Page) : Page :=
  {| world := world p; locationDetails := locationDetails p; suspended := suspended p;
     document := document p; console := console p ++ [e]; alerts := alerts p |}.

Definition alert (message : string) (p : Page) : Page :=
  {| world := world p; locationDetails := locationDetails p; suspended := suspended p;
     document := document p; console := console p; alerts := alerts p ++ [message] |}.

Definition set_details_panel_hidden (v : bool) (d : Document) : Document :=
  {| details_panel_hidden := v; detail_coords := detail_coords d;
     detail_lat := detail_lat d; detail_lon := detail_lon d; detail_zoom := detail_zoom d;
     esa_info_hidden := esa_info_hidden d; esa_name := esa_name d; esa_desc := esa_desc d;
     esa_location := esa_location d; esa_established := esa_established d;
     esa_staff := esa_staff d; esa_function := esa_function d |}.

(** The object as the constructor leaves it: [init] creates the map at zoom
    4, and [view] is what the map then shows (the tile layers, the icon and
    the log line of [init] are not part of the state). *)
Definition init (view : BoundingBox) : t :=
  {| map := {| zoom := 4; bounds := view; markers := []; popup_open := None;
               flight := None; made := 0 |};
     currentMarker := None; currentLocation := None; currentESAFacility := None |}.

Section Methods.
Variable Math : MathImpl.
Variable Trig : TrigImpl.
Variable Number_toString : float → string.

Definition deg2rad (deg : float) : float := (deg * (Math_PI / 180))%float.

Definition calculateDistance (lat1 lon1 lat2 lon2 : float) : float :=
  let R := 6371%float in
  let dLat := deg2rad (lat2 - lat1) in
  let dLon := deg2rad (lon2 - lon1) in
  let a := (Math_sin Trig (dLat / 2) * Math_sin Trig (dLat / 2) +
            Math_cos Math (deg2rad lat1) * Math_cos Math (deg2rad lat2) *
            Math_sin Trig (dLon / 2) * Math_sin Trig (dLon / 2))%float in
  let c := (2 * Math_atan2 Trig (sqrt a) (sqrt (1 - a)))%float in
  (R * c)%float.

(** The first facility within 2 km, or [null]. *)
Definition getNearbyESA (lat lon : float) : option ESAFacility :=
  List.find (λ facility,
    (calculateDistance lat lon (Navigation.lat facility) (Navigation.lon facility) <=? 2)%float)
    getESAFacilities.

Definition updateLocationDetails (this : t) (esaFacility : option ESAFacility) (p : Page)
  : Page :=
  match currentLocation this with
  | None => p
  | Some (lat, lon) =>
      let zoom := zoom (map this) in
      let fixed := Number.toFixed Number_toString in
      let d := document p in
      let d := {| details_panel_hidden := details_panel_hidden d;
                  detail_coords := fixed lat 6%nat +:+ ", " +:+ fixed lon 6%nat;
                  detail_lat := fixed lat 6%nat +:+ "°";
                  detail_lon := fixed lon 6%nat +:+ "°";
                  detail_zoom := ToString zoom;
                  esa_info_hidden := match esaFacility with Some _ => false | None => true end;
                  esa_name := match esaFacility with Some f => name f | None => esa_name d end;
                  esa_desc := match esaFacility with Some f => desc f | None => esa_desc d end;
                  esa_location :=
                    match esaFacility with Some f => location f | None => esa_location d end;
                  esa_established :=
                    match esaFacility with Some f => established f | None => esa_established d end;
                  esa_staff := match esaFacility with Some f => staff f | None => esa_staff d end;
                  esa_function :=
                    match esaFacility with Some f => function f | None => esa_function d end |} in
      let p := with_document d p in
      match locationDetails p with
      | Some details =>
          let '(w, call) :=
            LocationDetails.reverseGeocode_start Number_toString details lat lon (world p) in
          with_world w (suspended p ++ match call with Some c => [c] | None => [] end) p
      | None => p
      end
  end.

(** [zoom] is 16 when the caller gives none. *)
Definition goToLocation (lat lon : float) (zoom : Z) (this : t) (p : Page) : t * Page :=
  if Number.falsy lat || Number.falsy lon then (this, console_line ErrorInvalidCoordinates p)
  else
    let esaFacility := getNearbyESA lat lon in
    let targetZoom := match esaFacility with Some _ => 18 | None => zoom end in
    let map := match currentMarker this with
               | Some marker => removeLayer marker (map this)
               | None => map this
               end in
    let fixed := Number.toFixed Number_toString in
    let '(marker, map) :=
      add_marker {| latlng := (lat, lon);
                    popup_title := match esaFacility with
                                   | Some f => "ESA: " +:+ name f
                                   | None => "📍 Location"
                                   end;
                    popup_coordinates := fixed lat 6%nat +:+ ", " +:+ fixed lon 6%nat |} map in
    let map := flyTo (lat, lon) targetZoom map in
    let this := {| map := map; currentMarker := Some marker;
                   currentLocation := Some (lat, lon);
                   currentESAFacility := esaFacility |} in
    let p := updateLocationDetails this esaFacility p in
    match esaFacility with
    | Some f =>
        (this, console_line (LogNavigateToESA (name f))
                 (with_document (set_details_panel_hidden false (document p)) p))
    | None =>
        (this, console_line (LogNavigateTo lat lon)
                 (with_document (set_details_panel_hidden true (document p)) p))
    end.



(** app.js, [handleGoToLocation]: [lat] and [lon] are what [parseFloat]
    made of the two input fields. *)
Definition handleGoToLocation (lat lon : float) (mapManager : t) (p : Page) : t * Page :=
  if is_nan lat || is_nan lon
  then (mapManager, alert "⚠️ Please enter valid coordinates" p)
  else if (lat <? -90)%float || (90 <? lat)%float
  then (mapManager, alert "⚠️ Latitude must be between -90 and 90" p)
  else if (lon <? -180)%float || (180 <? lon)%float
  then (mapManager, alert "⚠️ Longitude must be between -180 and 180" p)
  else goToLocation lat lon 16 mapManager p.


End Methods.
End Navigation.

(** ** A reference engine, continued: numbers to text, sine, arc tangent *)

Module Engine2.

(** [v < 10^n], for [v = num / den]. *)
Definition below_power (num den n : Z) : bool :=
  if 0 <=? n then num <? den * 10 ^ n else num * 10 ^ (- n) <? den.

(** The least [n] from [n0] on with [v < 10^n]. *)
Fixpoint magnitude (fuel : nat) (num den n0 : Z) : Z :=
  match fuel with
  | O => n0
  | S fuel' => if below_power num den n0 then n0 else magnitude fuel' num den (n0 + 1)
  end.

(** The shortest decimal [s * 10^(n - k)], [s] of [k] digits, that rounds to
    the double [m * 2^e], the closest to it among those of its length:
    [(s, k, n)]. *)
Fixpoint shortest (fuel : nat) (k : Z) (m : positive) (e n : Z) : Z * Z * Z :=
  match fuel with
  | O => (Z.pos m, k, n)
  | S fuel' =>
      (* in units of 2^(e-2): the value, and the bounds of what rounds to it *)
      let unit_num := if 2 <=? e then 2 ^ (e - 2) else 1 in
      let unit_den := if 2 <=? e then 1 else 2 ^ (2 - e) in
      let value := 4 * Z.pos m in
      let high := value + 2 in
      let low := if (Z.pos m =? 2 ^ 52) && (-1074 <? e) then value - 1 else value - 2 in
      let closed := Z.even (Z.pos m) in
      (* the candidates of k digits, times 10^(n - k) *)
      let p := n - k in
      let pow_num := if 0 <=? p then 10 ^ p else 1 in
      let pow_den := if 0 <=? p then 1 else 10 ^ (- p) in
      let q_num := value * unit_num * pow_den in
      let q_den := unit_den * pow_num in
      let s_lo := q_num / q_den in
      let s_hi := s_lo + 1 in
      let inside (s : Z) :=
        let d := s * pow_num * unit_den in
        let lo := low * unit_num * pow_den in
        let hi := high * unit_num * pow_den in
        if closed then (lo <=? d) && (d <=? hi) else (lo <? d) && (d <? hi) in
      let r := q_num mod q_den in
      let nearer_lo := (2 * r <? q_den) || ((2 * r =? q_den) && Z.even s_lo) in
      match inside s_lo, inside s_hi with
      | true, true => if nearer_lo then (s_lo, k, n) else (s_hi, k, n)
      | true, false => (s_lo, k, n)
      | false, true => if s_hi =? 10 ^ k then (10 ^ (k - 1), k, n + 1) else (s_hi, k, n)
      | false, false => shortest fuel' (k + 1) m e n
      end
  end.

Definition exponent_text (e : Z) : string :=
  (if e <? 0 then "-" else "+") +:+ pretty (Z.abs e).

(** The text of a positive finite double. *)
Definition positive_text (m : positive) (e : Z) : string :=
  let num := if 0 <=? e then Z.pos m * 2 ^ e else Z.pos m in
  let den := if 0 <=? e then 1 else 2 ^ (- e) in
  let n0 := magnitude 8 num den ((e + Z.log2 (Z.pos m)) * 30103 / 100000 - 1) in
  let '(s, k, n) := shortest 17 1 m e n0 in
  let digits := pretty s in
  let k := Z.to_nat k in
  if (-6 <? n) && (n <=? 21) then
    if Z.of_nat k <=? n then digits +:+ Number.zeros (Z.to_nat n - k)
    else if 0 <? n then
      String.substring 0 (Z.to_nat n) digits +:+ "." +:+
      String.substring (Z.to_nat n) (k - Z.to_nat n) digits
    else "0." +:+ Number.zeros (Z.to_nat (- n)) +:+ digits
  else
    if (k =? 1)%nat then digits +:+ "e" +:+ exponent_text (n - 1)
    else String.substring 0 1 digits +:+ "." +:+ String.substring 1 (k - 1) digits +:+
         "e" +:+ exponent_text (n - 1).

Definition Number_toString (x : float) : string :=
  match Prim2SF x with
  | S754_nan => "NaN"
  | S754_zero _ => "0"
  | S754_infinity s => if s then "-Infinity" else "Infinity"
  | S754_finite s m e => (if s then "-" else "") +:+ positive_text m e
  end.

Local Open Scope float_scope.

Definition sin (x : float) : float := (Engine.sincos x).1.

(** The arc tangent of [t] in [0, 1]: the argument is halved three times,
    [atan t = 2 atan (t / (1 + sqrt (1 + t^2)))], then the series. *)
Definition halve (t : float) : float := t / (1 + sqrt (1 + t * t)).

Definition atan_unit (t : float) : float :=
  let r := halve (halve (halve t)) in
  8 * (r * Engine.horner [1; -1/3; 1/5; -1/7; 1/9; -1/11; 1/13; -1/15; 1/17; -1/19] (r * r)).

Definition sign_bit (x : float) : bool :=
  match Prim2SF x with
  | S754_zero s | S754_infinity s | S754_finite s _ _ => s
  | S754_nan => false
  end.

Definition atan2 (y x : float) : float :=
  if is_nan y || is_nan x then nan
  else
    let ay := abs y in
    let ax := abs x in
    let first_quadrant :=
      if is_infinity ay then (if is_infinity ax then Math_PI / 4 else Math_PI / 2)
      else if is_infinity ax then 0
      else if is_zero ax then (if is_zero ay then 0 else Math_PI / 2)
      else if ax <? ay then Math_PI / 2 - atan_unit (ax / ay)
      else atan_unit (ay / ax) in
    let angle := if sign_bit x then Math_PI - first_quadrant else first_quadrant in
    if sign_bit y then - angle else angle.

Definition Trig : Navigation.TrigImpl :=
  {| Navigation.Math_sin := sin; Navigation.Math_atan2 := atan2 |}.

Local Close Scope float_scope.

(** [JSON.stringify] and [JSON.parse] for texts without spaces between
    the tokens, strings that hold neither a quote, a backslash nor a
    control character, and no numbers on the way in. *)
Definition quote : string := String (Ascii.ascii_of_nat 34) EmptyString.

Fixpoint JSON_stringify (v : Json.t) : string :=
  match v with
  | Json.Null => "null"
  | Json.Bool b => if b then "true" else "false"
  | Json.Num n => if is_nan n || is_infinity n then "null" else Number_toString n
  | Json.Str s => quote +:+ s +:+ quote
  | Json.Arr items =>
      "[" +:+
      String.concat ","
        ((fix elements (l : list Json.t) : list string :=
            match l with
            | [] => []
            | item :: l' => JSON_stringify item :: elements l'
            end) items) +:+
      "]"
  | Json.Obj fields =>
      "{" +:+
      String.concat ","
        ((fix members (l : list (string * Json.t)) : list string :=
            match l with
            | [] => []
            | (key, value) :: l' =>
                (quote +:+ key +:+ quote +:+ ":" +:+ JSON_stringify value) :: members l'
            end) fields) +:+
      "}"
  end.

(** The text up to the next quote, and what follows that quote. *)
Fixpoint quoted (s : string) : option (string * string) :=
  match s with
  | EmptyString => None
  | String c rest =>
      if Ascii.eqb c (Ascii.ascii_of_nat 34) then Some (EmptyString, rest)
      else if Ascii.eqb c (Ascii.ascii_of_nat 92) then None
      else match quoted rest with
           | Some (text, rest') => Some (String c text, rest')
           | None => None
           end
  end.

(** A value at the head of the text, and the rest of the text. *)
Fixpoint value (fuel : nat) (s : string) : option (Json.t * string) :=
  match fuel with
  | O => None
  | S fuel' =>
      if String.prefix "null" s then Some (Json.Null, string_drop 4 s)
      else if String.prefix "true" s then Some (Json.Bool true, string_drop 4 s)
      else if String.prefix "false" s then Some (Json.Bool false, string_drop 5 s)
      else match s with
           | String c rest =>
               if Ascii.eqb c (Ascii.ascii_of_nat 34) then
                 match quoted rest with
                 | Some (text, rest') => Some (Json.Str text, rest')
                 | None => None
                 end
               else if Ascii.eqb c "[" then
                 match rest with
                 | String "]" rest' => Some (Json.Arr [], rest')
                 | _ => match elements fuel' rest with
                        | Some (items, rest') => Some (Json.Arr items, rest')
                        | None => None
                        end
                 end
               else if Ascii.eqb c "{" then
                 match rest with
                 | String "}" rest' => Some (Json.Obj [], rest')
                 | _ => match members fuel' rest with
                        | Some (fields, rest') => Some (Json.Obj fields, rest')
                        | None => None
                        end
                 end
               else None
           | EmptyString => None
           end
  end
with elements (fuel : nat) (s : string) : option (list Json.t * string) :=
  match fuel with
  | O => None
  | S fuel' =>
      match value fuel' s with
      | Some (item, String c rest) =>
          if Ascii.eqb c "]" then Some ([item], rest)
          else if Ascii.eqb c "," then
            match elements fuel' rest with
            | Some (items, rest') => Some (item :: items, rest')
            | None => None
            end
          else None
      | _ => None
      end
  end
with members (fuel : nat) (s : string) : option (list (string * Json.t) * string) :=
  match fuel with
  | O => None
  | S fuel' =>
      match s with
      | String q s1 =>
          if Ascii.eqb q (Ascii.ascii_of_nat 34) then
            match quoted s1 with
            | Some (key, String colon s2) =>
                if Ascii.eqb colon ":" then
                  match value fuel' s2 with
                  | Some (v, String c rest) =>
                      if Ascii.eqb c "}" then Some ([(key, v)], rest)
                      else if Ascii.eqb c "," then
                        match members fuel' rest with
                        | Some (fields, rest') => Some ((key, v) :: fields, rest')
                        | None => None
                        end
                      else None
                  | _ => None
                  end
                else None
            | _ => None
            end
          else None
      | EmptyString => None
      end
  end.

Definition JSON_parse (s : string) : option Json.t :=
  match value (2 * String.length s + 2) s with
  | Some (v, EmptyString) => Some v
  | _ => None
  end.

End Engine2.

(** ** The service worker's handler of other requests (service-worker.js) *)

Module StaticRequests.

(** A request: its URL and its method. *)
Record Request := { url : string; method : string }.

Inductive LogEntry := ErrorStaticFetch.

(** What the handler resolves with, the browser it leaves, and its console
    lines. *)
Record Handled := { response : Response; browser : Browser; logged : list LogEntry }.

(** [cache.match(request)]: a request that is no GET matches nothing. *)
Definition cache_match_request (name : string) (request : Request) (b : Browser)
  : option Response :=
  if String.eqb (method request) "GET" then cache_match name (url request) b else None.

Section Generation.
Variable CACHE_VERSION : string.

(** Cache first, for what is neither a tile nor a geocoding request. *)
Definition handleStaticRequest (request : Request) (b : Browser) : Handled :=
  let b := caches_open (ServiceWorker.STATIC_CACHE CACHE_VERSION) b in
  match cache_match_request (ServiceWorker.STATIC_CACHE CACHE_VERSION) request b with
  | Some cachedResponse => {| response := cachedResponse; browser := b; logged := [] |}
  | None =>
      if onLine b then
        let '(networkResponse, b) := fetch (url request) b in
        match networkResponse with
        | Resolved networkResponse =>
            {| response := networkResponse;
               browser :=
                 if ok networkResponse && String.eqb (method request) "GET"
                 then cache_put (ServiceWorker.STATIC_CACHE CACHE_VERSION) (url request)
                        networkResponse b
                 else b;
               logged := [] |}
        | Rejected =>
            {| response := ServiceWorker.text_response "Error loading resource" 500 "";
               browser := b; logged := [ErrorStaticFetch] |}
        end
      else {| response := ServiceWorker.text_response "Resource not available offline" 404
                            "Offline";
              browser := b; logged := [] |}
  end.

End Generation.
End StaticRequests.

(** ** Vocabulary of the further statements *)

(** The parts of an address that [formatAddress] reads. *)
Definition address_keys : list string :=
  ["road"; "house_number"; "village"; "town"; "city"; "state"; "country"].

(** A property that is a string, or is not there. *)
Definition string_or_absent (v : option Json.t) : Prop :=
  match v with
  | None | Some (Json.Str _) => True
  | Some _ => False
  end.

(** The value is a string that is not empty. *)
Definition filled (v : Json.t) : Prop := ∃ s, v = Json.Str s ∧ s ≠ "".

(** A geocoder answer of string parts. *)
Definition frascati_answer : Json.t :=
  Json.Obj [("display_name", Json.Str "ESRIN, Via Galileo Galilei, Frascati");
            ("address", Json.Obj [("road", Json.Str "Via Galileo Galilei");
                                  ("town", Json.Str "Frascati");
                                  ("city", Json.Str "Roma");
                                  ("state", Json.Str "");
                                  ("country", Json.Str "Italia")])].

(** The geocoder's answer as a response. *)
Definition geocoder_ok : Response :=
  {| status := 200; statusText := "OK"; headers := [("content-type", "application/json")];
     body := Engine2.JSON_stringify frascati_answer |}.

(** A page that has stored nothing yet, in a browser with the given network. *)
Definition new_world (net : nat → string → FetchResult) (online : bool)
  : LocationDetails.World :=
  {| LocationDetails.window := Sample.browser net online;
     LocationDetails.localStorage := ∅;
     LocationDetails.accepts := λ _ _, true;
     LocationDetails.addressEl :=
       {| LocationDetails.content := LocationDetails.Text ""; LocationDetails.loading := false |};
     LocationDetails.journal := [] |}.

(** The object a new page constructs. *)
Definition new_details : LocationDetails.t := {| LocationDetails.geocodeCache := ∅ |}.

(** What [JSON.parse] made of the stored text is nothing an address can be
    added to: the text does not parse, or it is [null] or a primitive
    value. *)
Definition unusable (parsed : option Json.t) : Prop :=
  match parsed with
  | Some (Json.Obj _) | Some (Json.Arr _) => False
  | _ => True
  end.

(** A key as [reverseGeocode] makes them: two texts and a comma between. *)
Definition cache_key (key : string) : Prop := ∃ lat lon : string, key = lat +:+ "," +:+ lon.

(** What the form of the page lets through: two numbers, the latitude
    within 90 degrees and the longitude within 180. *)
Definition accepted (lat lon : float) : bool :=
  negb (is_nan lat || is_nan lon) &&
  negb ((lat <? -90)%float || (90 <? lat)%float) &&
  negb ((lon <? -180)%float || (180 <? lon)%float).




(** Neither [NaN] nor an infinity. *)
Definition finite (x : float) : Prop := (abs x <? infinity)%float = true.

(** A page with an empty details panel. *)
Definition new_page (w : LocationDetails.World) : Navigation.Page :=
  {| Navigation.world := w;
     Navigation.locationDetails := Some new_details;
     Navigation.suspended := [];
     Navigation.document :=
       {| Navigation.details_panel_hidden := true; Navigation.detail_coords := "";
          Navigation.detail_lat := ""; Navigation.detail_lon := "";
          Navigation.detail_zoom := ""; Navigation.esa_info_hidden := true;
          Navigation.esa_name := ""; Navigation.esa_desc := "";
          Navigation.esa_location := ""; Navigation.esa_established := "";
          Navigation.esa_staff := ""; Navigation.esa_function := "" |};
     Navigation.console := [];
     Navigation.alerts := [] |}.


(** * Properties *)

(** ** Strings: decimal numbers and [replace] *)

Section Strings.
Implicit Types (s t pat rep : string) (c : ascii).







(** Cancelling up to a separator that neither side holds. *)
Lemma split_at_separator c s s' t t' :
  lacks c s → lacks c s' →
  s +:+ String c t = s' +:+ String c t' → s = s' ∧ t = t'.
Proof.
  revert s'. induction s as [|a s IH]; intros [|a' s']; simpl.
  - intros _ _ [= ->]. done.
  - intros _ [Hne _] [= -> _]. done.
  - intros [Hne _] _ [= -> _]. done.
  - intros [_ Hs] [_ Hs'] [= -> Heq]. destruct (IH _ Hs Hs' Heq) as [-> ->]. done.
Qed.

End Strings.

Section Decimal.
Variable c : ascii.
Hypothesis not_digit : ∀ d, pretty_N_char d ≠ c.
Hypothesis not_minus : "-"%char ≠ c.

Lemma pretty_N_go_lacks (n : N) (s : string) : lacks c s → lacks c (pretty_N_go n s).
Proof using not_digit.
  revert s. induction (N.lt_wf_0 n) as [n _ IH]; intros s Hs.
  destruct (decide (n = 0)%N) as [->|Hn]; [by rewrite pretty_N_go_0|].
  rewrite pretty_N_go_step by lia. apply IH; [apply N.div_lt; lia|].
  simpl. split; [apply not_digit|done].
Qed.

Lemma pretty_N_lacks (n : N) : lacks c (pretty n).
Proof using not_digit.
  unfold pretty, pretty_N. case_decide.
  - split; [apply (not_digit 0)|done].
  - by apply pretty_N_go_lacks.
Qed.

Lemma ToString_lacks (n : Z) : lacks c (ToString n).
Proof using not_digit not_minus.
  destruct n as [|p|p]; unfold ToString, pretty, pretty_Z.
  - split; [apply (not_digit 0)|done].
  - apply pretty_N_lacks.
  - split; [done|]. apply pretty_N_lacks.
Qed.
End Decimal.


Lemma ToString_no_slash (n : Z) : lacks "/" (ToString n).
Proof. apply ToString_lacks; [|done]. intros d. unfold pretty_N_char. repeat case_match; discriminate. Qed.

Lemma ToString_inj (m n : Z) : ToString m = ToString n → m = n.
Proof. apply pretty_Z_inj. Qed.






Lemma TileRequest_inj (z col row z' col' row' : Z) :
  TileRequest z col row = TileRequest z' col' row' → z = z' ∧ col = col' ∧ row = row'.
Proof.
  unfold TileRequest. intros H. apply String.app_inj in H.
  change ("/" +:+ ?s) with (String "/" s) in H.
  apply split_at_separator in H as [Hz H]; [|apply ToString_no_slash..].
  change ("/" +:+ ?s) with (String "/" s) in H.
  apply split_at_separator in H as [Hy Hx]; [|apply ToString_no_slash..].
  by rewrite (ToString_inj _ _ Hz), (ToString_inj _ _ Hy), (ToString_inj _ _ Hx).
Qed.

(** ** Loops *)

Lemma for_each_Normal {A B} (body : A → completion (list B)) (f : A → list B) (l : list A) :
  (∀ v, v ∈ l → body v = Normal (f v)) → for_each body l = Normal (l ≫= f).
Proof.
  induction l as [|v l IH]; intros Hbody; [done|].
  simpl. rewrite Hbody by left. simpl.
  rewrite IH by (intros; apply Hbody; by right). done.
Qed.

Lemma loop_values_step (tests : nat) (v hi : jsint) :
  loop_values (S tests) v hi =
  if js_le v hi then option_map (cons v) (loop_values tests (js_add v (JInt 1)) hi)
  else Some [].
Proof. reflexivity. Qed.

Lemma loop_values_integers (n : nat) (a b : Z) :
  Z.to_nat (b - a + 1) = n →
  loop_values (S n) (JInt a) (JInt b) = Some (JInt <$> seqZ a (b - a + 1)).
Proof.
  revert a. induction n as [|n IH]; intros a Hn; rewrite loop_values_step; cbn [js_le js_add].
  - rewrite (proj2 (Z.leb_gt _ _)) by lia. by rewrite seqZ_nil by lia.
  - rewrite (proj2 (Z.leb_le _ _)) by lia.
    rewrite (IH (a + 1)) by lia. rewrite (seqZ_cons a) by lia.
    replace (Z.succ a) with (a + 1) by lia.
    by replace (Z.pred (b - a + 1)) with (b - (a + 1) + 1) by lia.
Qed.

Lemma loop_values_forever (tests : nat) (v hi : jsint) :
  v = JInf true ∧ hi ≠ JNaN ∨ hi = JInf false ∧ v ≠ JNaN →
  loop_values tests v hi = None.
Proof.
  revert v. induction tests as [|tests IH]; intros v Hv; [done|].
  rewrite loop_values_step.
  assert (Hle : js_le v hi = true).
  { destruct Hv as [[-> H]|[-> H]]; [by destruct hi as [?|[]|]|by destruct v as [?|[]|]]. }
  rewrite Hle, IH; [done|].
  destruct Hv as [[-> H]|[-> H]]; [by left|right]. split; [done|]. by destruct v as [?|[]|].
Qed.

(** [for_range] is the loop: when it gives a list, the loop exits having
    taken these values; when it diverges, no number of tests is enough. *)
Lemma for_range_loop (lo hi : jsint) :
  match for_range lo hi with
  | Normal l => ∃ tests, loop_values tests lo hi = Some (JInt <$> l)
  | Throw _ => False
  | Diverges => ∀ tests, loop_values tests lo hi = None
  end.
Proof.
  destruct lo as [a|[]|], hi as [b|[]|]; cbn [for_range js_le].
  all: try (exists 1%nat; reflexivity).
  all: try (intros tests; apply loop_values_forever; by auto).
  eexists. by apply loop_values_integers.
Qed.



(** ** The enumeration of a box *)



(** Between bounds that are not infinite the loop ends. *)
Lemma for_range_bounded (lo hi : jsint) :
  bounded lo → bounded hi → for_range lo hi = Normal (range_values lo hi).
Proof. by destruct lo as [?|[]|], hi as [?|[]|]. Qed.










Lemma request_of_inj (s t : Z * Z * Z) : request_of s = request_of t → s = t.
Proof.
  destruct s as [[z col] row], t as [[z' col'] row']. unfold request_of; simpl.
  intros (-> & -> & ->)%TileRequest_inj. done.
Qed.

Global Instance request_of_Inj : Inj (=) (=) request_of.
Proof. intros s t. apply request_of_inj. Qed.











(** ** The order of the path segments *)







Example generateTileUrls_frascati_12 :
  TileCache.generateTileUrls Engine.Math Sample.frascati 12 12 = Normal Sample.frascati_12.
Proof. vm_compute. reflexivity. Qed.

Example estimateTileCount_frascati_12_13 :
  TileCache.estimateTileCount Engine.Math Sample.frascati 12 13 = Normal (JInt 10).
Proof. vm_compute. reflexivity. Qed.

(** ** The projection at the poles *)

Lemma latLngToTile_at_north_pole :
  TileCache.latLngToTile Engine.Math 90 0 0 = Normal {| x := JInt 0; y := JInt (-6) |} ∧
  TileCache.latLngToTile Engine.Math 90 0 0 ≠ Throw InvalidCoordinate.
Proof. split; [vm_compute; reflexivity|discriminate]. Qed.

Example latLngToTile_at_south_pole :
  ServiceWorker.latLngToTile Engine.Math (-90) 0 0
  = Normal {| x := JInt 0; y := JInf false |}.
Proof. vm_compute. reflexivity. Qed.

Example latLngToTile_origin :
  TileCache.latLngToTile Engine.Math 0 0 0 = Normal {| x := JInt 0; y := JInt 0 |}.
Proof. vm_compute. reflexivity. Qed.

Example latLngToTile_ESRIN :
  TileCache.latLngToTile Engine.Math 41.8273 12.6734 10
  = Normal {| x := JInt 548; y := JInt 380 |}.
Proof. vm_compute. reflexivity. Qed.

(** The row of the south pole is infinite, and the enumeration of a box
    that touches it does not end. *)
Example generateTileUrls_to_south_pole :
  TileCache.generateTileUrls Engine.Math
    {| north := 0; south := -90; east := 0; west := 0 |} 0 0 = Diverges.
Proof. vm_compute. reflexivity. Qed.

(** Latitudes beyond the poles project to [NaN] rows: the enumeration is
    empty, and the estimate is [NaN]. *)
Example generateTileUrls_beyond_the_poles :
  TileCache.generateTileUrls Engine.Math
    {| north := 100; south := 95; east := 1; west := 0 |} 3 3 = Normal [] ∧
  TileCache.estimateTileCount Engine.Math
    {| north := 100; south := 95; east := 1; west := 0 |} 3 3 = Normal JNaN.
Proof. split; vm_compute; reflexivity. Qed.

(** C3, as the code has it. For every zoom level and every latitude, +90 and
    -90 included, the three copies of [latLngToTile] check nothing: they
    return the same tile record, whose coordinates are whatever the floors
    of the formula give, and never fail. *)
Theorem latLngToTile_never_fails Math (lat lng : float) (zoom : Z) :
  ∃ tile : TilePoint,
    TileCache.latLngToTile Math lat lng zoom = Normal tile ∧
    ServiceWorker.latLngToTile Math lat lng zoom = Normal tile ∧
    MapManager.latLngToTile Math (lat, lng) zoom = Normal tile.
Proof. eexists. repeat split. Qed.

(** ** Activation of a generation *)

Lemma deleteOldCache_lookup (version : string) (b : Browser) (n name : string) :
  caches (ServiceWorker.deleteOldCache version b n) !! name =
  if decide (n = name ∧ ¬ current version n) then None else caches b !! name.
Proof.
  unfold ServiceWorker.deleteOldCache, current.
  destruct (decide (n ≠ _ ∧ n ≠ _ ∧ n ≠ _)) as [Hold|Hcur]; simpl.
  - rewrite lookup_delete. destruct (decide (n = name)) as [->|Hne].
    + by rewrite decide_True by tauto.
    + by rewrite decide_False by tauto.
  - case_decide as H; [|done]. destruct H as [_ H]. exfalso. apply Hcur.
    repeat split; intros ->; apply H; auto.
Qed.

Lemma deleteOldCaches_lookup (version : string) (names : list string) (b : Browser)
    (name : string) :
  caches (foldl (ServiceWorker.deleteOldCache version) b names) !! name =
  if decide (name ∈ names ∧ ¬ current version name) then None else caches b !! name.
Proof.
  revert b. induction names as [|n names IH]; intros b; cbn [foldl].
  - rewrite decide_False; [done|]. by intros [?%not_elem_of_nil _].
  - rewrite IH, deleteOldCache_lookup.
    destruct (decide (name ∈ names ∧ ¬ current version name)) as [[Hin Hcur]|Hnot].
    + rewrite decide_True; [done|]. split; [by right|done].
    + destruct (decide (n = name ∧ ¬ current version n)) as [[-> Hcur]|Hnot'].
      * rewrite decide_True; [done|]. split; [by left|done].
      * rewrite decide_False; [done|].
        intros [[->|Hin]%elem_of_cons Hcur]; tauto.
Qed.

Lemma elem_of_caches_keys (b : Browser) (name : string) :
  name ∈ caches_keys b ↔ is_Some (caches b !! name).
Proof.
  unfold caches_keys. rewrite list_elem_of_fmap. split.
  - intros ([n c] & -> & H). apply elem_of_map_to_list in H. by exists c.
  - intros [c H]. exists (name, c). split; [done|]. by apply elem_of_map_to_list.
Qed.

Lemma activate_lookup (version : string) (b : Browser) (name : string) :
  caches (ServiceWorker.activate version b) !! name =
  if decide (current version name) then caches b !! name else None.
Proof.
  unfold ServiceWorker.activate. rewrite deleteOldCaches_lookup.
  destruct (decide (current version name)) as [Hc|Hc].
  - rewrite decide_False; [done|tauto].
  - destruct (decide (_ ∧ _)) as [_|Hn]; [done|].
    apply eq_None_not_Some. intros H. apply Hn. split; [|done].
    by apply elem_of_caches_keys.
Qed.

Lemma STATIC_CACHE_inj (v w : string) :
  ServiceWorker.STATIC_CACHE v = ServiceWorker.STATIC_CACHE w → v = w.
Proof. apply String.app_inj. Qed.

Lemma TILE_CACHE_inj (v w : string) :
  ServiceWorker.TILE_CACHE v = ServiceWorker.TILE_CACHE w → v = w.
Proof. apply String.app_inj. Qed.

Lemma DYNAMIC_CACHE_inj (v w : string) :
  ServiceWorker.DYNAMIC_CACHE v = ServiceWorker.DYNAMIC_CACHE w → v = w.
Proof. apply String.app_inj. Qed.

(** A name of another generation is none of the current ones. *)
Lemma other_generation_not_current (version old : string) :
  old ≠ version →
  ¬ current version (ServiceWorker.STATIC_CACHE old) ∧
  ¬ current version (ServiceWorker.TILE_CACHE old) ∧
  ¬ current version (ServiceWorker.DYNAMIC_CACHE old).
Proof.
  intros Hne. unfold current. split_and!; intros [H|[H|H]].
  all: try (by apply Hne; (apply STATIC_CACHE_inj in H || apply TILE_CACHE_inj in H
                           || apply DYNAMIC_CACHE_inj in H)).
  all: by vm_compute in H.
Qed.

(** C9. After the activation step of a generation, every store that remains
    has one of the generation's three names; the stores named with any
    other generation tag are gone, and those of the generation are as they
    were. *)
Theorem activate_purges_other_generations (version old : string) (b : Browser) :
  old ≠ version →
  (∀ name, name ∈ caches_keys (ServiceWorker.activate version b) → current version name) ∧
  caches (ServiceWorker.activate version b) !! ServiceWorker.STATIC_CACHE old = None ∧
  caches (ServiceWorker.activate version b) !! ServiceWorker.TILE_CACHE old = None ∧
  caches (ServiceWorker.activate version b) !! ServiceWorker.DYNAMIC_CACHE old = None ∧
  (∀ name, current version name →
     caches (ServiceWorker.activate version b) !! name = caches b !! name).
Proof.
  intros Hne. destruct (other_generation_not_current version old Hne) as (Hs & Ht & Hd).
  split_and!.
  - intros name [c Hc]%elem_of_caches_keys. rewrite activate_lookup in Hc.
    by destruct (decide (current version name)).
  - by rewrite activate_lookup, decide_False.
  - by rewrite activate_lookup, decide_False.
  - by rewrite activate_lookup, decide_False.
  - intros name Hc. by rewrite activate_lookup, decide_True.
Qed.

Lemma activate_witness :
  "v1" ≠ "v2" ∧
  (∀ name, name ∈ caches_keys (ServiceWorker.activate "v2" Sample.after_upgrade) →
     current "v2" name) ∧
  caches (ServiceWorker.activate "v2" Sample.after_upgrade)
    !! ServiceWorker.STATIC_CACHE "v1" = None ∧
  caches (ServiceWorker.activate "v2" Sample.after_upgrade)
    !! ServiceWorker.TILE_CACHE "v1" = None ∧
  caches (ServiceWorker.activate "v2" Sample.after_upgrade)
    !! ServiceWorker.DYNAMIC_CACHE "v1" = None ∧
  (∀ name, current "v2" name →
     caches (ServiceWorker.activate "v2" Sample.after_upgrade) !! name
     = caches Sample.after_upgrade !! name).
Proof.
  assert (H : "v1" ≠ "v2") by discriminate.
  split; [exact H|].
  exact (activate_purges_other_generations "v2" "v1" Sample.after_upgrade H).
Defined.

Example activate_after_upgrade :
  caches_keys Sample.after_upgrade
  = ["geocoordinate-static-v1"; "geocoordinate-static-v2"; "geocoordinate-tiles-v1";
     "geocoordinate-tiles-v2"; "geocoordinate-dynamic-v1"] ∧
  caches_keys (ServiceWorker.activate "v2" Sample.after_upgrade)
  = ["geocoordinate-static-v2"; "geocoordinate-tiles-v2"].
Proof. split; vm_compute; reflexivity. Qed.

(** ** The store *)

Section Store.
Implicit Types (b : Browser) (name url : string) (r : Response).

Lemma cache_of_insert (cs : gmap string (gmap string Response)) name name'
    (c : gmap string Response) :
  cache_of (<[name' := c]> cs) name = if decide (name' = name) then c else cache_of cs name.
Proof.
  unfold cache_of. case_decide as H.
  - subst. by rewrite lookup_insert_eq.
  - by rewrite lookup_insert_ne.
Qed.

Lemma cache_match_open name name' url b :
  cache_match name url (caches_open name' b) = cache_match name url b.
Proof.
  unfold cache_match, caches_open; simpl. rewrite cache_of_insert.
  case_decide; by subst.
Qed.

Lemma cache_match_put name name' url url' r b :
  cache_match name url (cache_put name' url' r b) =
  if decide (name' = name ∧ url' = url) then Some r else cache_match name url b.
Proof.
  unfold cache_match, cache_put; simpl. rewrite cache_of_insert.
  destruct (decide (name' = name)) as [->|Hn].
  - destruct (decide (url' = url)) as [->|Hu].
    + by rewrite lookup_insert_eq, decide_True.
    + rewrite lookup_insert_ne by done. by rewrite decide_False by tauto.
  - by rewrite decide_False by tauto.
Qed.

Lemma cache_match_fetch name url url' b : cache_match name url (fetch url' b).2 = cache_match name url b.
Proof. done. Qed.

Lemma cache_match_console name url e b :
  cache_match name url (console_write e b) = cache_match name url b.
Proof. done. Qed.

End Store.

(** ** Round trip through the tile store *)

(** C5. After [cacheTile(url)] has succeeded on the [TileCache] object the
    page constructs, the worker's [handleTileRequest] for the same URL
    returns the response that was fetched and stored, and makes no fetch:
    the log of network calls is as [cacheTile] left it. *)
Theorem cached_tile_is_served_from_store (b0 b b1 : Browser) (url : string) :
  TileCache.cacheTile (TileCache.constructor b0).1 url b = (true, b1) →
  ∃ blob : Response,
    network b (length (fetched b)) url = Resolved blob ∧
    ok blob = true ∧
    cache_match (ServiceWorker.TILE_CACHE ServiceWorker.shipped_CACHE_VERSION) url b1
      = Some blob ∧
    (ServiceWorker.handleTileRequest ServiceWorker.shipped_CACHE_VERSION url b1).1 = blob ∧
    fetched (ServiceWorker.handleTileRequest ServiceWorker.shipped_CACHE_VERSION url b1).2
      = fetched b1.
Proof.
  unfold TileCache.cacheTile. cbn [TileCache.constructor fst TileCache.cacheName].
  change (fetch url ?b') with (network b (length (fetched b)) url, (fetch url b').2).
  cbv beta iota.
  destruct (network b (length (fetched b)) url) as [blob|]; [|done].
  destruct (ok blob) eqn:Hok; [|done]. intros [= <-].
  exists blob. split; [done|]. split; [done|].
  assert (Hhit : ∀ b', cache_match "geocoordinate-tiles-v1" url
            (caches_open "geocoordinate-tiles-v1"
               (cache_put "geocoordinate-tiles-v1" url blob b')) = Some blob).
  { intros b'. by rewrite cache_match_open, cache_match_put, decide_True. }
  split; [by rewrite cache_match_put, decide_True|].
  unfold ServiceWorker.handleTileRequest.
  change (ServiceWorker.TILE_CACHE ServiceWorker.shipped_CACHE_VERSION)
    with "geocoordinate-tiles-v1".
  rewrite Hhit. done.
Qed.

Lemma cached_tile_witness :
  TileCache.cacheTile (TileCache.constructor (Sample.browser (Sample.always Rejected) true)).1
    (TileRequest 12 2191 1522) (Sample.browser Sample.flaky false)
  = (true, (TileCache.cacheTile Sample.tileCache (TileRequest 12 2191 1522)
              (Sample.browser Sample.flaky false)).2) ∧
  ∃ blob : Response,
    network (Sample.browser Sample.flaky false)
      (length (fetched (Sample.browser Sample.flaky false))) (TileRequest 12 2191 1522)
      = Resolved blob ∧
    ok blob = true ∧
    cache_match (ServiceWorker.TILE_CACHE ServiceWorker.shipped_CACHE_VERSION)
      (TileRequest 12 2191 1522)
      (TileCache.cacheTile Sample.tileCache (TileRequest 12 2191 1522)
         (Sample.browser Sample.flaky false)).2 = Some blob ∧
    (ServiceWorker.handleTileRequest ServiceWorker.shipped_CACHE_VERSION
       (TileRequest 12 2191 1522)
       (TileCache.cacheTile Sample.tileCache (TileRequest 12 2191 1522)
          (Sample.browser Sample.flaky false)).2).1 = blob ∧
    fetched (ServiceWorker.handleTileRequest ServiceWorker.shipped_CACHE_VERSION
       (TileRequest 12 2191 1522)
       (TileCache.cacheTile Sample.tileCache (TileRequest 12 2191 1522)
          (Sample.browser Sample.flaky false)).2).2
    = fetched (TileCache.cacheTile Sample.tileCache (TileRequest 12 2191 1522)
                 (Sample.browser Sample.flaky false)).2.
Proof.
  assert (H : TileCache.cacheTile
                (TileCache.constructor (Sample.browser (Sample.always Rejected) true)).1
                (TileRequest 12 2191 1522) (Sample.browser Sample.flaky false)
              = (true, (TileCache.cacheTile Sample.tileCache (TileRequest 12 2191 1522)
                          (Sample.browser Sample.flaky false)).2)).
  { reflexivity. }
  split; [exact H|].
  exact (cached_tile_is_served_from_store _ _ _ _ H).
Defined.

(** ** The geocoding handler *)

Lemma handleApiRequest_failed_fetch_skips_store :
  onLine (Sample.unreachable true) = true ∧
  network (Sample.unreachable true) 0 Sample.nominatim = Rejected ∧
  cache_match (ServiceWorker.DYNAMIC_CACHE "v1") Sample.nominatim (Sample.unreachable true)
    = Some Sample.address_json ∧
  (ServiceWorker.handleApiRequest "v1" Sample.nominatim (Sample.unreachable true)).1
    = ServiceWorker.json_error_response "Request failed" 500 ∧
  (ServiceWorker.handleApiRequest "v1" Sample.nominatim (Sample.unreachable true)).1
    ≠ Sample.address_json ∧
  status (ServiceWorker.handleApiRequest "v1" Sample.nominatim (Sample.unreachable true)).1
    ≠ 503.
Proof.
  split; [reflexivity|]. split; [reflexivity|].
  split; [vm_compute; reflexivity|]. split; [vm_compute; reflexivity|].
  split; vm_compute; intros [=].
Qed.

(** C4, as the code has it. For every geocoding request: when
    [navigator.onLine] is false the handler makes no fetch and looks the
    request up in the dynamic store, and only when that misses returns the
    503 response with the JSON error body; when it is true and the fetch is
    rejected, the handler returns a 500 response with a JSON error body and
    leaves the store alone; a response that does arrive is returned as it
    is, and stored when it is ok. *)
Theorem handleApiRequest_fallback (version request : string) (b : Browser) :
  (onLine b = false →
     fetched (ServiceWorker.handleApiRequest version request b).2 = fetched b ∧
     (ServiceWorker.handleApiRequest version request b).1 =
       match cache_match (ServiceWorker.DYNAMIC_CACHE version) request b with
       | Some cachedResponse => cachedResponse
       | None => ServiceWorker.json_error_response "Offline - data not cached" 503
       end) ∧
  (onLine b = true → network b (length (fetched b)) request = Rejected →
     (ServiceWorker.handleApiRequest version request b).1
       = ServiceWorker.json_error_response "Request failed" 500 ∧
     caches (ServiceWorker.handleApiRequest version request b).2 = caches b) ∧
  (onLine b = true → ∀ r, network b (length (fetched b)) request = Resolved r →
     (ServiceWorker.handleApiRequest version request b).1 = r ∧
     (ok r = true →
        cache_match (ServiceWorker.DYNAMIC_CACHE version) request
          (ServiceWorker.handleApiRequest version request b).2 = Some r)).
Proof.
  unfold ServiceWorker.handleApiRequest. split_and!.
  - intros ->. rewrite cache_match_open.
    by destruct (cache_match _ request b).
  - intros -> Hnet.
    change (fetch request b) with (network b (length (fetched b)) request, (fetch request b).2).
    by rewrite Hnet.
  - intros -> r Hnet.
    change (fetch request b) with (network b (length (fetched b)) request, (fetch request b).2).
    rewrite Hnet. cbn [fst snd]. split; [done|]. intros ->.
    by rewrite cache_match_put, decide_True.
Qed.

Lemma handleApiRequest_witness :
  (onLine (Sample.unreachable false) = false ∧
   (ServiceWorker.handleApiRequest "v1" Sample.nominatim (Sample.unreachable false)).1
     = Sample.address_json) ∧
  (onLine (Sample.browser (Sample.always Rejected) false) = false ∧
   (ServiceWorker.handleApiRequest "v1" Sample.nominatim
      (Sample.browser (Sample.always Rejected) false)).1
     = ServiceWorker.json_error_response "Offline - data not cached" 503) ∧
  (onLine (Sample.unreachable true) = true ∧
   network (Sample.unreachable true) (length (fetched (Sample.unreachable true)))
     Sample.nominatim = Rejected ∧
   (ServiceWorker.handleApiRequest "v1" Sample.nominatim (Sample.unreachable true)).1
     = ServiceWorker.json_error_response "Request failed" 500).
Proof.
  split; [split; [reflexivity|]|split; [split; [reflexivity|]|split; [reflexivity|split; [reflexivity|]]]].
  - exact (proj2 (proj1 (handleApiRequest_fallback "v1" Sample.nominatim
                           (Sample.unreachable false)) eq_refl)).
  - exact (proj2 (proj1 (handleApiRequest_fallback "v1" Sample.nominatim
                           (Sample.browser (Sample.always Rejected) false)) eq_refl)).
  - exact (proj1 (proj1 (proj2 (handleApiRequest_fallback "v1" Sample.nominatim
                                  (Sample.unreachable true))) eq_refl eq_refl)).
Defined.

(** ** The count [cacheTiles] returns *)

Lemma cacheTiles_iterations_completed (this : TileCache.t) (total : nat) (onProgress : bool)
    (urls : list string) (st : TileCache.BatchState) :
  TileCache.completed (foldl (TileCache.cacheTiles_iteration this total onProgress) st urls)
  = (TileCache.completed st + length urls)%nat.
Proof.
  revert st. induction urls as [|url urls IH]; intros st; simpl; [lia|].
  rewrite IH. unfold TileCache.cacheTiles_iteration.
  destruct (fetch url (TileCache.browser st)) as [response b]. simpl. lia.
Qed.

(** Whatever the fetches do, the count returned is the number of URLs. *)
Lemma cacheTiles_returns_length (this : TileCache.t) (urls : list string) (onProgress : bool)
    (b : Browser) :
  (TileCache.cacheTiles this urls onProgress b).1.1 = length urls.
Proof. unfold TileCache.cacheTiles. simpl. by rewrite cacheTiles_iterations_completed. Qed.

(** C1, the code at a list of three URLs of which one is fetched, one is
    answered 404 and one fails: [cacheTiles] returns 3 and [downloadArea],
    over the four tiles of a box, returns 4, while the store holds the one
    tile that was fetched. *)
Theorem cacheTiles_counts_failed_fetches :
  (TileCache.cacheTiles Sample.tileCache Sample.three_urls false
     (Sample.browser Sample.flaky true)).1.1 = 3%nat ∧
  cache_count "geocoordinate-tiles-v1"
    (TileCache.cacheTiles Sample.tileCache Sample.three_urls false
       (Sample.browser Sample.flaky true)).2 = 1%nat ∧
  match TileCache.downloadArea Engine.Math Sample.tileCache Sample.frascati 12 12 false
          (Sample.browser Sample.flaky true) with
  | Normal (cached, _, _, b) =>
      cached = 4%nat ∧ cache_count "geocoordinate-tiles-v1" b = 1%nat
  | _ => False
  end.
Proof. split; [|split]; vm_compute; try split; reflexivity. Qed.

(** ** No eviction *)

Section Eviction.
Variable this : TileCache.t.
Implicit Types (b : Browser) (name url : string).

Lemma cache_count_open name name' b : cache_count name (caches_open name' b) = cache_count name b.
Proof.
  unfold cache_count, caches_open; simpl. rewrite cache_of_insert. case_decide; by subst.
Qed.

Lemma updateCacheInfo_match name url b :
  cache_match name url (TileCache.updateCacheInfo this b).2 = cache_match name url b.
Proof. unfold TileCache.updateCacheInfo. simpl. apply cache_match_open. Qed.

Lemma updateCacheInfo_count b :
  (TileCache.updateCacheInfo this b).1 = cache_count (TileCache.cacheName this) b.
Proof. unfold TileCache.updateCacheInfo. simpl. apply cache_count_open. Qed.

Lemma updateCacheInfo_cache_count name b :
  cache_count name (TileCache.updateCacheInfo this b).2 = cache_count name b.
Proof. unfold TileCache.updateCacheInfo. cbn [snd]. apply cache_count_open. Qed.

Lemma cached_put name name' url url' r b :
  cached name url b → cached name url (cache_put name' url' r b).
Proof. unfold cached. rewrite cache_match_put. by case_decide. Qed.

Lemma cacheTiles_iteration_keeps name url total onProgress st u :
  cached name url (TileCache.browser st) →
  cached name url (TileCache.browser (TileCache.cacheTiles_iteration this total onProgress st u)).
Proof.
  intros H. unfold TileCache.cacheTiles_iteration.
  change (fetch u (TileCache.browser st))
    with (network (TileCache.browser st) (length (fetched (TileCache.browser st))) u,
          (fetch u (TileCache.browser st)).2).
  cbv beta iota. cbn [TileCache.browser].
  destruct (network _ _ u) as [r|]; [destruct (ok r)|]; try done.
  by apply cached_put.
Qed.

Lemma cacheTiles_keeps name url urls onProgress b :
  cached name url b → cached name url (TileCache.cacheTiles this urls onProgress b).2.
Proof.
  intros H. unfold TileCache.cacheTiles. cbn [snd]. unfold cached.
  rewrite updateCacheInfo_match.
  assert (Hst : cached name url (TileCache.browser
           {| TileCache.completed := 0; TileCache.progress := [];
              TileCache.browser := caches_open (TileCache.cacheName this) b |})).
  { unfold cached. cbn [TileCache.browser]. by rewrite cache_match_open. }
  revert Hst. generalize ({| TileCache.completed := 0; TileCache.progress := [];
              TileCache.browser := caches_open (TileCache.cacheName this) b |}).
  generalize (length urls). intros total.
  induction urls as [|u urls IH]; intros st Hst; [done|].
  cbn [foldl]. by apply IH, cacheTiles_iteration_keeps.
Qed.

Lemma cacheTile_keeps name url u b :
  cached name url b → cached name url (TileCache.cacheTile this u b).2.
Proof.
  intros H. unfold TileCache.cacheTile.
  change (fetch u ?b') with (network b (length (fetched b)) u, (fetch u b').2).
  cbv beta iota.
  assert (H' : cached name url (fetch u (caches_open (TileCache.cacheName this) b)).2).
  { unfold cached. by rewrite cache_match_fetch, cache_match_open. }
  destruct (network _ _ u) as [r|]; [destruct (ok r)|]; cbn [snd]; try done.
  by apply cached_put.
Qed.

Lemma checkCacheSize_match name url b :
  cache_match name url (TileCache.checkCacheSize this b) = cache_match name url b.
Proof.
  unfold TileCache.checkCacheSize.
  rewrite (surjective_pairing (TileCache.updateCacheInfo this b)).
  case_match; [rewrite cache_match_console|]; apply updateCacheInfo_match.
Qed.

Lemma checkCacheSize_console b :
  console (TileCache.checkCacheSize this b) =
  console b ++
    if (TileCache.maxCacheSize this <? cache_count (TileCache.cacheName this) b)%nat
    then [WarnCacheSize (cache_count (TileCache.cacheName this) b) (TileCache.maxCacheSize this)]
    else [].
Proof.
  unfold TileCache.checkCacheSize.
  rewrite (surjective_pairing (TileCache.updateCacheInfo this b)), updateCacheInfo_count.
  case_match; simpl; [done|by rewrite app_nil_r].
Qed.

Lemma run_calls_keep name url (calls : list CacheCall) b :
  cached name url b → cached name url (foldl (run_call this) b calls).
Proof.
  revert b. induction calls as [|c calls IH]; intros b H; [done|].
  cbn [foldl]. apply IH. destruct c; simpl.
  - by apply cacheTile_keeps.
  - by apply cacheTiles_keeps.
  - unfold cached. by rewrite checkCacheSize_match.
Qed.

End Eviction.

(** Growth: with a network that answers every fetch, each URL of a batch
    becomes an entry. *)
Lemma cacheTiles_iterations_store (this : TileCache.t) (r : Response) (total : nat)
    (onProgress : bool) (urls : list string) (st : TileCache.BatchState) :
  ok r = true →
  network (TileCache.browser st) = Sample.always (Resolved r) →
  dom (cache_of (caches (TileCache.browser
         (foldl (TileCache.cacheTiles_iteration this total onProgress) st urls)))
         (TileCache.cacheName this))
  = dom (cache_of (caches (TileCache.browser st)) (TileCache.cacheName this))
    ∪ list_to_set urls.
Proof.
  intros Hok. revert st. induction urls as [|u urls IH]; intros st Hnet.
  - simpl. set_solver.
  - cbn [foldl]. rewrite IH.
    + unfold TileCache.cacheTiles_iteration. simpl. rewrite Hnet. simpl. rewrite Hok.
      simpl. rewrite cache_of_insert, decide_True by done. rewrite dom_insert_L. set_solver.
    + unfold TileCache.cacheTiles_iteration. simpl. rewrite Hnet. simpl. by rewrite Hok.
Qed.

Lemma many_urls_NoDup (n : nat) : NoDup (Sample.many_urls n).
Proof.
  unfold Sample.many_urls. apply NoDup_fmap_2; [|apply NoDup_seq].
  intros i j H. apply TileRequest_inj in H as (_ & H & _). lia.
Qed.

Lemma cacheTiles_fills_store (this : TileCache.t) (n : nat) :
  cache_count (TileCache.cacheName this)
    (TileCache.cacheTiles this (Sample.many_urls n) false
       (Sample.browser (Sample.always (Resolved Sample.tile_png)) true)).2 = n.
Proof.
  unfold TileCache.cacheTiles. cbn [snd].
  rewrite updateCacheInfo_cache_count. unfold cache_count.
  rewrite <-size_dom, (cacheTiles_iterations_store _ Sample.tile_png) by done.
  cbn [TileCache.browser]. unfold caches_open. simpl.
  rewrite cache_of_insert, decide_True by done. unfold cache_of at 1.
  rewrite lookup_empty. simpl. rewrite dom_empty_L, (left_id_L ∅ (∪)).
  rewrite size_list_to_set by apply many_urls_NoDup.
  unfold Sample.many_urls. by rewrite length_fmap, length_seq.
Qed.

Lemma clearCache_count (this : TileCache.t) (b : Browser) :
  cache_count (TileCache.cacheName this) (TileCache.clearCache this b) = 0%nat.
Proof.
  unfold TileCache.clearCache. rewrite updateCacheInfo_cache_count.
  unfold cache_count, cache_of. simpl. by rewrite lookup_delete_eq.
Qed.

Lemma clear_all_caches (names : list string) (b : Browser) (name : string) :
  caches (foldl (λ b cacheName, caches_delete cacheName b) b names) !! name =
  if decide (name ∈ names) then None else caches b !! name.
Proof.
  revert b. induction names as [|n names IH]; intros b; cbn [foldl].
  - rewrite decide_False; [done|apply not_elem_of_nil].
  - rewrite IH. simpl. rewrite lookup_delete.
    destruct (decide (name ∈ names)) as [Hin|Hin].
    + rewrite decide_True; [done|by right].
    + destruct (decide (n = name)) as [->|Hne].
      * rewrite decide_True; [done|by left].
      * rewrite decide_False; [done|]. by intros [->|?]%elem_of_cons.
Qed.

Lemma CLEAR_CACHE_empties (version : string) Math (b : Browser) :
  ∃ b', ServiceWorker.onmessage version Math ServiceWorker.CLEAR_CACHE b = Normal b' ∧
        caches b' = ∅.
Proof.
  eexists. split; [reflexivity|]. apply map_eq. intros name.
  rewrite clear_all_caches, lookup_empty. case_decide as H; [done|].
  apply eq_None_not_Some. intros Hs. by apply H, elem_of_caches_keys.
Qed.

(** C10. No call evicts: an entry of the tile store is still there after any
    sequence of [cacheTile], [cacheTiles] and [checkCacheSize] calls;
    [checkCacheSize] changes no entry of any store and at most writes a
    warning; [maxCacheSize] bounds nothing: a batch of n distinct URLs that
    are all fetched leaves n entries, for every n; the store is emptied by
    [clearCache], and all stores by the worker's clear-all command. *)
Theorem tile_store_is_never_evicted (this : TileCache.t) :
  (∀ (calls : list CacheCall) (b : Browser) (url : string),
     cached (TileCache.cacheName this) url b →
     cached (TileCache.cacheName this) url (foldl (run_call this) b calls)) ∧
  (∀ (b : Browser) (name url : string),
     cache_match name url (TileCache.checkCacheSize this b) = cache_match name url b) ∧
  (∀ b : Browser,
     console (TileCache.checkCacheSize this b) =
     console b ++
       if (TileCache.maxCacheSize this <? cache_count (TileCache.cacheName this) b)%nat
       then [WarnCacheSize (cache_count (TileCache.cacheName this) b)
               (TileCache.maxCacheSize this)]
       else []) ∧
  (∀ n : nat,
     cache_count (TileCache.cacheName this)
       (TileCache.cacheTiles this (Sample.many_urls n) false
          (Sample.browser (Sample.always (Resolved Sample.tile_png)) true)).2 = n) ∧
  (∀ b : Browser, cache_count (TileCache.cacheName this) (TileCache.clearCache this b) = 0%nat) ∧
  (∀ (version : string) Math (b : Browser),
     ∃ b', ServiceWorker.onmessage version Math ServiceWorker.CLEAR_CACHE b = Normal b' ∧
           caches b' = ∅).
Proof.
  split; [intros calls b url; apply run_calls_keep|].
  split; [intros b name url; apply checkCacheSize_match|].
  split; [apply checkCacheSize_console|].
  split; [apply cacheTiles_fills_store|].
  split; [apply clearCache_count|apply CLEAR_CACHE_empties].
Qed.

(** The worker of the same generation removes nothing from the tile store
    either: its handlers only add entries, and its activation keeps the
    stores of its generation. *)
Lemma worker_keeps_tile_store (version name url request : string) (b : Browser) :
  cached name url b →
  cached name url (ServiceWorker.handleTileRequest version request b).2 ∧
  cached name url (ServiceWorker.handleApiRequest version request b).2 ∧
  (current version name → cached name url (ServiceWorker.activate version b)).
Proof.
  intros H. split; [|split].
  - unfold ServiceWorker.handleTileRequest.
    assert (H' : cached name url (caches_open (ServiceWorker.TILE_CACHE version) b)).
    { unfold cached. by rewrite cache_match_open. }
    destruct (cache_match _ request _); [done|].
    destruct (onLine _); [|done].
    change (fetch request ?b') with (network b' (length (fetched b')) request, (fetch request b').2).
    cbv beta iota. destruct (network _ _ request) as [r|]; [|done].
    cbn [snd]. destruct (ok r); [by apply cached_put|done].
  - unfold ServiceWorker.handleApiRequest. destruct (onLine b).
    + change (fetch request b) with (network b (length (fetched b)) request, (fetch request b).2).
      cbv beta iota. destruct (network _ _ request) as [r|]; [|done].
      cbn [snd]. destruct (ok r); [|done].
      apply cached_put. unfold cached. by rewrite cache_match_open.
    + assert (H' : cached name url (caches_open (ServiceWorker.DYNAMIC_CACHE version) b)).
      { unfold cached. by rewrite cache_match_open. }
      by destruct (cache_match _ request _).
  - intros Hcur. unfold cached, cache_match, cache_of.
    by rewrite activate_lookup, decide_True.
Qed.

(** ** Overlapping calls of [downloadArea] *)

Lemma resume_other (i j : nat) (p : Async.Page) :
  i ≠ j → Async.calls (Async.resume j p) !! i = Async.calls p !! i.
Proof.
  intros Hne. unfold Async.resume.
  destruct (Async.calls p !! j) as [c|]; [|done].
  destruct (Async.returned c); [done|].
  destruct (Async.urls c); cbn [Async.calls]; by rewrite list_lookup_insert_ne.
Qed.

Lemma resumes_other (k i j : nat) (p : Async.Page) :
  i ≠ j → Async.calls (Nat.iter k (Async.resume j) p) !! i = Async.calls p !! i.
Proof.
  intros Hne. induction k as [|k IH]; [done|].
  by rewrite Nat.iter_succ, resume_other.
Qed.

(** A call that is resumed often enough returns, with the number of URLs it
    was given. *)
Lemma resumes_return (j : nat) (p : Async.Page) (c : Async.Call) :
  Async.calls p !! j = Some c → Async.returned c = None →
  ∃ c', Async.calls (Nat.iter (S (length (Async.urls c))) (Async.resume j) p) !! j = Some c' ∧
        Async.returned c' = Some (Async.completed c + length (Async.urls c))%nat.
Proof.
  destruct c as [us done_ total progress onProgress returned]. cbn [Async.urls Async.returned
    Async.completed]. intros Hc ->.
  revert p done_ progress Hc. induction us as [|u us IH]; intros p done_ progress Hc.
  - change (Nat.iter (S (length [])) (Async.resume j) p) with (Async.resume j p).
    unfold Async.resume. rewrite Hc. cbn.
    rewrite list_lookup_insert_eq by (by eapply lookup_lt_Some).
    eexists. split; [done|]. cbn. f_equal. lia.
  - rewrite Nat.iter_succ_r.
    destruct (IH (Async.resume j p) (S done_)
                (if onProgress then progress ++ [(S done_, total)] else progress))
      as (c' & Hc' & Hret).
    + unfold Async.resume. rewrite Hc. cbn [Async.returned Async.urls Async.calls].
      rewrite list_lookup_insert_eq by (by eapply lookup_lt_Some).
      unfold TileCache.cacheTiles_iteration.
      destruct (fetch u (Async.window p)) as [response b]. done.
    + exists c'. split; [exact Hc'|]. rewrite Hret. cbn [length]. f_equal. lia.
Qed.

(** Nothing in the enumeration throws. *)
Lemma bind_no_throw {A B} (c : completion A) (k : A → completion B) (e : error) :
  c ≠ Throw e → (∀ a, k a ≠ Throw e) → c ≫= k ≠ Throw e.
Proof.
  intros Hc Hk. destruct c as [a|e'|]; unfold mbind, completion_bind, bind;
    [apply Hk|intros [= ->]; by apply Hc|done].
Qed.

Lemma for_range_no_throw (lo hi : jsint) (e : error) : for_range lo hi ≠ Throw e.
Proof. unfold for_range. by repeat case_match. Qed.

Lemma for_each_no_throw {A B} (body : A → completion (list B)) (l : list A) (e : error) :
  (∀ v, body v ≠ Throw e) → for_each body l ≠ Throw e.
Proof.
  intros Hbody. induction l as [|v l IH]; [done|]. cbn [for_each].
  apply (bind_no_throw (body v)); [done|]. intros out.
  by apply (bind_no_throw (for_each body l)).
Qed.

Lemma generateTileUrls_no_throw Math bounds (minZoom maxZoom : Z) (e : error) :
  TileCache.generateTileUrls Math bounds minZoom maxZoom ≠ Throw e.
Proof.
  unfold TileCache.generateTileUrls, TileCache.latLngToTile.
  apply bind_no_throw; [apply for_range_no_throw|]. intros zs.
  apply for_each_no_throw. intros z. cbn [mbind completion_bind bind].
  apply (bind_no_throw (for_range _ _)); [apply for_range_no_throw|]. intros xs.
  apply for_each_no_throw. intros col.
  apply (bind_no_throw (for_range _ _)); [apply for_range_no_throw|]. intros ys.
  by apply for_each_no_throw.
Qed.

(** No call of [downloadArea] is rejected. *)
Lemma downloadArea_never_throws Math bounds (minZoom maxZoom : Z) (onProgress : bool)
    (p : Async.Page) (e : error) :
  Async.downloadArea Math bounds minZoom maxZoom onProgress p ≠ Throw e.
Proof.
  unfold Async.downloadArea.
  apply (bind_no_throw (TileCache.generateTileUrls _ _ _ _));
    [apply generateTileUrls_no_throw|done].
Qed.

(** C2, as the code has it. [downloadArea] sets the flag and clears it at the
    end but never reads it: a call made while the flag is set is accepted
    whenever the enumeration of its box returns. It starts a download of
    its own next to the calls already there, whose counters neither the
    call nor any number of resumptions of the new download changes, and
    when resumed to its end the new download returns its count. *)
Theorem second_downloadArea_is_accepted Math bounds (minZoom maxZoom : Z)
    (onProgress : bool) (urls : list string) (p : Async.Page) :
  TileCache.isDownloading (Async.this p) = true →
  TileCache.generateTileUrls Math bounds minZoom maxZoom = Normal urls →
  ∃ p' : Async.Page,
    Async.downloadArea Math bounds minZoom maxZoom onProgress p = Normal p' ∧
    TileCache.isDownloading (Async.this p') = true ∧
    Async.calls p' =
      Async.calls p ++ [ {| Async.urls := urls; Async.completed := 0;
                            Async.total := length urls; Async.progress := [];
                            Async.onProgress := onProgress; Async.returned := None |} ] ∧
    (∀ k i : nat, (i < length (Async.calls p))%nat →
       Async.calls (Nat.iter k (Async.resume (length (Async.calls p))) p') !! i
       = Async.calls p !! i) ∧
    (∃ c, Async.calls (Nat.iter (S (length urls)) (Async.resume (length (Async.calls p))) p')
            !! length (Async.calls p) = Some c ∧
          Async.returned c = Some (length urls)).
Proof.
  intros Hflag Hurls. unfold Async.downloadArea. rewrite Hurls.
  cbn [mbind completion_bind bind]. eexists. split; [reflexivity|].
  cbn [Async.this Async.calls]. split; [done|]. split; [done|]. split.
  - intros k i Hi. rewrite resumes_other by lia. cbn [Async.calls].
    by rewrite lookup_app_l.
  - match goal with |- context [Nat.iter _ _ ?q] => set (p' := q) end.
    destruct (resumes_return (length (Async.calls p)) p'
                {| Async.urls := urls; Async.completed := 0;
                   Async.total := length urls; Async.progress := [];
                   Async.onProgress := onProgress; Async.returned := None |})
      as (c' & Hc' & Hret); [|done|].
    + unfold p'. cbn [Async.calls]. by rewrite list_lookup_middle.
    + exists c'. split; [exact Hc'|]. by rewrite Hret.
Qed.

Lemma second_downloadArea_witness :
  TileCache.isDownloading (Async.this Sample.downloading) = true ∧
  TileCache.generateTileUrls Engine.Math Sample.frascati 12 12 = Normal Sample.frascati_12 ∧
  ∃ p' : Async.Page,
    Async.downloadArea Engine.Math Sample.frascati 12 12 false Sample.downloading
      = Normal p' ∧
    TileCache.isDownloading (Async.this p') = true ∧
    Async.calls p' =
      Async.calls Sample.downloading ++
        [ {| Async.urls := Sample.frascati_12; Async.completed := 0;
             Async.total := length Sample.frascati_12; Async.progress := [];
             Async.onProgress := false; Async.returned := None |} ] ∧
    (∀ k i : nat, (i < length (Async.calls Sample.downloading))%nat →
       Async.calls (Nat.iter k (Async.resume (length (Async.calls Sample.downloading))) p')
         !! i
       = Async.calls Sample.downloading !! i) ∧
    (∃ c, Async.calls (Nat.iter (S (length Sample.frascati_12))
                         (Async.resume (length (Async.calls Sample.downloading))) p')
            !! length (Async.calls Sample.downloading) = Some c ∧
          Async.returned c = Some (length Sample.frascati_12)).
Proof.
  assert (Hflag : TileCache.isDownloading (Async.this Sample.downloading) = true).
  { vm_compute. reflexivity. }
  assert (Hurls : TileCache.generateTileUrls Engine.Math Sample.frascati 12 12
                  = Normal Sample.frascati_12).
  { vm_compute. reflexivity. }
  split; [exact Hflag|]. split; [exact Hurls|].
  exact (second_downloadArea_is_accepted Engine.Math Sample.frascati 12 12 false
           Sample.frascati_12 Sample.downloading Hflag Hurls).
Defined.

Lemma second_downloadArea_not_rejected :
  TileCache.isDownloading (Async.this Sample.downloading) = true ∧
  (λ c, (Async.completed c, Async.total c)) <$> Async.calls Sample.downloading
    = [(2, 4)%nat] ∧
  Async.downloadArea Engine.Math Sample.frascati 12 12 false Sample.downloading
    ≠ Throw DownloadAlreadyInProgress ∧
  match Async.downloadArea Engine.Math Sample.frascati 12 12 false Sample.downloading with
  | Normal p' =>
      (λ c, (Async.completed c, Async.total c)) <$> Async.calls p' = [(2, 4); (0, 4)]%nat
  | _ => False
  end.
Proof.
  split; [vm_compute; reflexivity|]. split; [vm_compute; reflexivity|].
  split; [apply downloadArea_never_throws|]. vm_compute. reflexivity.
Qed.

(** A call resumed to its end, with no other call in between, does what the
    loop of [cacheTiles] and the statements after it do in one go. *)
Lemma resumes_run_batch (j : nat) (us : list string) (p : Async.Page) (c : Async.Call) :
  Async.calls p !! j = Some c → Async.returned c = None → Async.urls c = us →
  let st := foldl (TileCache.cacheTiles_iteration (Async.this p) (Async.total c)
                     (Async.onProgress c))
              {| TileCache.completed := Async.completed c;
                 TileCache.progress := Async.progress c;
                 TileCache.browser := Async.window p |} us in
  let q := Nat.iter (S (length us)) (Async.resume j) p in
  Async.this q = TileCache.set_isDownloading false (Async.this p) ∧
  Async.window q = console_write (LogDownloaded (TileCache.completed st))
                     (TileCache.updateCacheInfo (Async.this p) (TileCache.browser st)).2 ∧
  Async.calls q !! j =
    Some {| Async.urls := []; Async.completed := TileCache.completed st;
            Async.total := Async.total c; Async.progress := TileCache.progress st;
            Async.onProgress := Async.onProgress c;
            Async.returned := Some (TileCache.completed st) |}.
Proof.
  revert p c. induction us as [|u us IH]; intros p c Hc Hret Hus.
  - cbn [foldl length]. change (Nat.iter 1 (Async.resume j) p) with (Async.resume j p).
    unfold Async.resume. rewrite Hc, Hret, Hus. cbn.
    rewrite list_lookup_insert_eq by (by eapply lookup_lt_Some). done.
  - cbn [foldl length]. rewrite Nat.iter_succ_r.
    set (st1 := TileCache.cacheTiles_iteration (Async.this p) (Async.total c)
                  (Async.onProgress c)
                  {| TileCache.completed := Async.completed c;
                     TileCache.progress := Async.progress c;
                     TileCache.browser := Async.window p |} u).
    assert (Hres : Async.resume j p =
      {| Async.this := Async.this p; Async.window := TileCache.browser st1;
         Async.calls := <[j := {| Async.urls := us; Async.completed := TileCache.completed st1;
                                  Async.total := Async.total c;
                                  Async.progress := TileCache.progress st1;
                                  Async.onProgress := Async.onProgress c;
                                  Async.returned := None |}]> (Async.calls p) |}).
    { unfold Async.resume. by rewrite Hc, Hret, Hus. }
    rewrite Hres. clearbody st1. destruct st1 as [d pr b1].
    cbn [TileCache.completed TileCache.progress TileCache.browser].
    apply (IH {| Async.this := Async.this p; Async.window := b1;
                 Async.calls := <[j := _]> (Async.calls p) |}
              {| Async.urls := us; Async.completed := d; Async.total := Async.total c;
                 Async.progress := pr; Async.onProgress := Async.onProgress c;
                 Async.returned := None |}); [|done..].
    apply list_lookup_insert_eq. by eapply lookup_lt_Some.
Qed.

(** [TileCache.downloadArea], the whole call at once, is the call started on
    a page with no other call and resumed to its end. *)
Lemma downloadArea_alone Math (this : TileCache.t) bounds (minZoom maxZoom : Z)
    (onProgress : bool) (b : Browser) (urls : list string) :
  TileCache.generateTileUrls Math bounds minZoom maxZoom = Normal urls →
  ∃ p' c,
    Async.downloadArea Math bounds minZoom maxZoom onProgress
      {| Async.this := this; Async.window := b; Async.calls := [] |} = Normal p' ∧
    Async.calls (Nat.iter (S (length urls)) (Async.resume 0) p') !! 0%nat = Some c ∧
    TileCache.downloadArea Math this bounds minZoom maxZoom onProgress b =
      Normal (Async.completed c, Async.progress c,
              Async.this (Nat.iter (S (length urls)) (Async.resume 0) p'),
              Async.window (Nat.iter (S (length urls)) (Async.resume 0) p')).
Proof.
  intros Hurls. unfold Async.downloadArea, TileCache.downloadArea. rewrite Hurls.
  cbn [mbind completion_bind bind Async.this Async.window Async.calls app].
  eexists _, _. split; [reflexivity|].
  match goal with |- context [Nat.iter _ _ ?q] => set (p' := q) end.
  destruct (resumes_run_batch 0 urls p'
              {| Async.urls := urls; Async.completed := 0; Async.total := length urls;
                 Async.progress := []; Async.onProgress := onProgress;
                 Async.returned := None |}) as (Hthis & Hwin & Hcall); [done..|].
  split; [exact Hcall|]. rewrite Hthis, Hwin. reflexivity.
Qed.

Lemma tile_store_witness :
  cached "geocoordinate-tiles-v1" (TileRequest 12 2191 1522)
    (TileCache.cacheTile Sample.tileCache (TileRequest 12 2191 1522)
       (Sample.browser Sample.flaky true)).2 ∧
  cached "geocoordinate-tiles-v1" (TileRequest 12 2191 1522)
    (foldl (run_call Sample.tileCache)
       (TileCache.cacheTile Sample.tileCache (TileRequest 12 2191 1522)
          (Sample.browser Sample.flaky true)).2
       [CallCacheTiles (Sample.many_urls 3) true; CallCheckCacheSize;
        CallCacheTile (TileRequest 12 2191 1523)]).
Proof.
  assert (H : cached "geocoordinate-tiles-v1" (TileRequest 12 2191 1522)
                (TileCache.cacheTile Sample.tileCache (TileRequest 12 2191 1522)
                   (Sample.browser Sample.flaky true)).2).
  { exists Sample.tile_png. vm_compute. reflexivity. }
  split; [exact H|].
  exact (proj1 (tile_store_is_never_evicted Sample.tileCache) _ _ _ H).
Defined.

(** The limit of 500 entries is passed like any other count. *)
Example cacheTiles_beyond_maxCacheSize :
  TileCache.maxCacheSize Sample.tileCache = 500%nat ∧
  cache_count "geocoordinate-tiles-v1"
    (TileCache.cacheTiles Sample.tileCache (Sample.many_urls 501) false
       (Sample.browser (Sample.always (Resolved Sample.tile_png)) true)).2 = 501%nat.
Proof. split; [reflexivity|]. apply (cacheTiles_fills_store Sample.tileCache 501). Qed.


(** * Further properties *)





(** ** The orientation of a box *)

Lemma Math_min_comm (a c : jsint) : Math_min a c = Math_min c a.
Proof. destruct a as [m|[]|], c as [n|[]|]; simpl; try done. by rewrite Z.min_comm. Qed.

Lemma Math_max_comm (a c : jsint) : Math_max a c = Math_max c a.
Proof. destruct a as [m|[]|], c as [n|[]|]; simpl; try done. by rewrite Z.max_comm. Qed.

Lemma Math_abs_sub_comm (a c : jsint) : Math_abs (js_sub a c) = Math_abs (js_sub c a).
Proof.
  destruct a as [m|[]|], c as [n|[]|]; simpl; try done. f_equal. lia.
Qed.

Lemma for_each_ext {A B} (f g : A → completion (list B)) (l : list A) :
  (∀ v, f v = g v) → for_each f l = for_each g l.
Proof. intros H. induction l as [|v l IH]; simpl; [done|]. by rewrite H, IH. Qed.

Lemma foldl_ext_all {A B} (f g : A → B → A) (a : A) (l : list B) :
  (∀ a b, f a b = g a b) → foldl f a l = foldl g a l.
Proof. intros H. revert a. induction l as [|b l IH]; intros a; simpl; [done|]. by rewrite H, IH. Qed.

(** X2. The list [generateTileUrls] returns and the count
    [estimateTileCount] returns do not depend on the orientation of the
    box: with north and south exchanged, or east and west exchanged, both
    give what they give for the box itself. *)
Theorem generateTileUrls_ignores_orientation Math bounds (minZoom maxZoom : Z) :
  TileCache.generateTileUrls Math (flip_vertical bounds) minZoom maxZoom
    = TileCache.generateTileUrls Math bounds minZoom maxZoom ∧
  TileCache.generateTileUrls Math (flip_horizontal bounds) minZoom maxZoom
    = TileCache.generateTileUrls Math bounds minZoom maxZoom ∧
  TileCache.estimateTileCount Math (flip_vertical bounds) minZoom maxZoom
    = TileCache.estimateTileCount Math bounds minZoom maxZoom ∧
  TileCache.estimateTileCount Math (flip_horizontal bounds) minZoom maxZoom
    = TileCache.estimateTileCount Math bounds minZoom maxZoom.
Proof.
  unfold TileCache.generateTileUrls, TileCache.estimateTileCount.
  change (for_range (JInt minZoom) (JInt maxZoom))
    with (Normal (seqZ minZoom (maxZoom - minZoom + 1))).
  cbn [mbind completion_bind bind flip_vertical flip_horizontal north south east west].
  set (tile := λ lat lng z, corner (TileCache.latLngToTile Math lat lng z)) in *.
  assert (Htile : ∀ lat lng z, TileCache.latLngToTile Math lat lng z = Normal (tile lat lng z))
    by done.
  assert (Hx : ∀ lat lat' lng z, x (tile lat lng z) = x (tile lat' lng z)) by done.
  assert (Hy : ∀ lat lng lng' z, y (tile lat lng z) = y (tile lat lng' z)) by done.
  clearbody tile.
  split; [|split; [|split]].
  - apply for_each_ext. intros z. rewrite !Htile. cbn [mbind completion_bind bind].
    rewrite (Hx (south bounds) (north bounds) (west bounds)),
            (Hx (north bounds) (south bounds) (east bounds)).
    rewrite (Hy (south bounds) (west bounds) (east bounds)),
            (Hy (north bounds) (east bounds) (west bounds)).
    by rewrite (Math_min_comm (y _)), (Math_max_comm (y _)).
  - apply for_each_ext. intros z. rewrite !Htile. cbn [mbind completion_bind bind].
    rewrite (Hy (north bounds) (east bounds) (west bounds)),
            (Hy (south bounds) (west bounds) (east bounds)).
    rewrite (Hx (north bounds) (south bounds) (east bounds)),
            (Hx (south bounds) (north bounds) (west bounds)).
    by rewrite (Math_min_comm (x _)), (Math_max_comm (x _)).
  - apply foldl_ext_all. intros acc z. destruct acc as [count| |]; [|done..].
    rewrite !Htile. cbn [mbind completion_bind bind].
    rewrite (Hx (south bounds) (north bounds) (west bounds)),
            (Hx (north bounds) (south bounds) (east bounds)).
    rewrite (Hy (south bounds) (west bounds) (east bounds)),
            (Hy (north bounds) (east bounds) (west bounds)).
    by rewrite (Math_abs_sub_comm (y _)).
  - apply foldl_ext_all. intros acc z. destruct acc as [count| |]; [|done..].
    rewrite !Htile. cbn [mbind completion_bind bind].
    rewrite (Hy (north bounds) (east bounds) (west bounds)),
            (Hy (south bounds) (west bounds) (east bounds)).
    rewrite (Hx (north bounds) (south bounds) (east bounds)),
            (Hx (south bounds) (north bounds) (west bounds)).
    by rewrite (Math_abs_sub_comm (x _)).
Qed.

(** ** The visible tiles *)

Lemma js_le_min_max (a c : jsint) : js_le a c = true → Math_min a c = a ∧ Math_max a c = c.
Proof.
  destruct a as [m|[]|], c as [n|[]|]; simpl; try done.
  intros H%Z.leb_le. split; f_equal; lia.
Qed.

Lemma for_each_singleton {A B} (body : A → completion (list B)) (v : A) :
  for_each body [v] = body v.
Proof. simpl. destruct (body v); simpl; [by rewrite app_nil_r|done..]. Qed.

Lemma for_range_inverted (lo hi : jsint) : js_le lo hi = false → for_range lo hi = Normal [].
Proof.
  destruct lo as [a|[]|], hi as [b|[]|]; simpl; try done.
  intros H%Z.leb_gt. by rewrite seqZ_nil by lia.
Qed.

Lemma one_level (zoom : Z) : for_range (JInt zoom) (JInt zoom) = Normal [zoom].
Proof.
  cbn [for_range]. replace (zoom - zoom + 1) with 1 by lia.
  by rewrite seqZ_cons, seqZ_nil by lia.
Qed.

(** X3. When the tile of the north-west corner is not to the right of nor
    below the tile of the south-east corner, [MapManager.getVisibleTiles]
    returns for a box and zoom what [TileCache.generateTileUrls] returns
    for the box at that single level: the same URLs in the same order (or
    neither returns). *)
Theorem getVisibleTiles_is_one_level Math bounds (zoom : Z) :
  js_le (x (nw_corner Math bounds zoom)) (x (se_corner Math bounds zoom)) = true →
  js_le (y (nw_corner Math bounds zoom)) (y (se_corner Math bounds zoom)) = true →
  MapManager.getVisibleTiles Math bounds zoom
  = TileCache.generateTileUrls Math bounds zoom zoom.
Proof.
  intros [Hxmin Hxmax]%js_le_min_max [Hymin Hymax]%js_le_min_max.
  unfold MapManager.getVisibleTiles, TileCache.generateTileUrls.
  rewrite one_level. cbn [mbind completion_bind bind]. rewrite for_each_singleton.
  change (MapManager.latLngToTile Math (north bounds, west bounds) zoom)
    with (Normal (nw_corner Math bounds zoom)).
  change (MapManager.latLngToTile Math (south bounds, east bounds) zoom)
    with (Normal (se_corner Math bounds zoom)).
  change (TileCache.latLngToTile Math (north bounds) (west bounds) zoom)
    with (Normal (nw_corner Math bounds zoom)).
  change (TileCache.latLngToTile Math (south bounds) (east bounds) zoom)
    with (Normal (se_corner Math bounds zoom)).
  cbn [mbind completion_bind bind]. by rewrite Hxmin, Hxmax, Hymin, Hymax.
Qed.

Lemma getVisibleTiles_witness :
  js_le (x (nw_corner Engine.Math Sample.frascati 12))
        (x (se_corner Engine.Math Sample.frascati 12)) = true ∧
  js_le (y (nw_corner Engine.Math Sample.frascati 12))
        (y (se_corner Engine.Math Sample.frascati 12)) = true ∧
  MapManager.getVisibleTiles Engine.Math Sample.frascati 12
  = TileCache.generateTileUrls Engine.Math Sample.frascati 12 12.
Proof.
  assert (Hx : js_le (x (nw_corner Engine.Math Sample.frascati 12))
                     (x (se_corner Engine.Math Sample.frascati 12)) = true)
    by (vm_compute; reflexivity).
  assert (Hy : js_le (y (nw_corner Engine.Math Sample.frascati 12))
                     (y (se_corner Engine.Math Sample.frascati 12)) = true)
    by (vm_compute; reflexivity).
  split; [exact Hx|]. split; [exact Hy|].
  exact (getVisibleTiles_is_one_level Engine.Math Sample.frascati 12 Hx Hy).
Defined.

(** X4. [MapManager.getVisibleTiles] takes the corners as they come: when
    the north-west tile is to the right of the south-east tile, or below it
    (the columns being finite), or a coordinate of either is [NaN], the
    list it returns is empty. *)
Theorem getVisibleTiles_of_inverted_box Math bounds (zoom : Z) :
  js_le (x (nw_corner Math bounds zoom)) (x (se_corner Math bounds zoom)) = false ∨
  (bounded (x (nw_corner Math bounds zoom)) ∧ bounded (x (se_corner Math bounds zoom)) ∧
   js_le (y (nw_corner Math bounds zoom)) (y (se_corner Math bounds zoom)) = false) →
  MapManager.getVisibleTiles Math bounds zoom = Normal [].
Proof.
  intros H. unfold MapManager.getVisibleTiles.
  change (MapManager.latLngToTile Math (north bounds, west bounds) zoom)
    with (Normal (nw_corner Math bounds zoom)).
  change (MapManager.latLngToTile Math (south bounds, east bounds) zoom)
    with (Normal (se_corner Math bounds zoom)).
  cbn [mbind completion_bind bind].
  destruct H as [Hx|(Hnw & Hse & Hy)].
  - by rewrite (for_range_inverted _ _ Hx).
  - rewrite (for_range_bounded (x (nw_corner Math bounds zoom))) by done. cbn [mbind completion_bind bind].
    rewrite (for_each_Normal _ (λ _, [])).
    + f_equal. generalize (range_values (x (nw_corner Math bounds zoom))
                                        (x (se_corner Math bounds zoom))).
      intros l. by induction l.
    + intros col _. by rewrite (for_range_inverted _ _ Hy).
Qed.

Lemma getVisibleTiles_inverted_witness :
  (js_le (x (nw_corner Engine.Math (flip_vertical Sample.frascati) 12))
         (x (se_corner Engine.Math (flip_vertical Sample.frascati) 12)) = false ∨
   (bounded (x (nw_corner Engine.Math (flip_vertical Sample.frascati) 12)) ∧
    bounded (x (se_corner Engine.Math (flip_vertical Sample.frascati) 12)) ∧
    js_le (y (nw_corner Engine.Math (flip_vertical Sample.frascati) 12))
          (y (se_corner Engine.Math (flip_vertical Sample.frascati) 12)) = false)) ∧
  MapManager.getVisibleTiles Engine.Math (flip_vertical Sample.frascati) 12 = Normal [].
Proof.
  assert (H : js_le (x (nw_corner Engine.Math (flip_vertical Sample.frascati) 12))
         (x (se_corner Engine.Math (flip_vertical Sample.frascati) 12)) = false ∨
   (bounded (x (nw_corner Engine.Math (flip_vertical Sample.frascati) 12)) ∧
    bounded (x (se_corner Engine.Math (flip_vertical Sample.frascati) 12)) ∧
    js_le (y (nw_corner Engine.Math (flip_vertical Sample.frascati) 12))
          (y (se_corner Engine.Math (flip_vertical Sample.frascati) 12)) = false)).
  { right. vm_compute. tauto. }
  split; [exact H|].
  exact (getVisibleTiles_of_inverted_box Engine.Math (flip_vertical Sample.frascati) 12 H).
Defined.

(** ** An empty zoom range *)

(** X5. With [maxZoom] below [minZoom] there is no level: [generateTileUrls]
    returns the empty list, [estimateTileCount] returns 0, and
    [downloadArea] returns 0 with the flag cleared, having made no fetch and
    changed no entry of any store; it still writes its two log lines. *)
Theorem downloadArea_of_empty_zoom_range Math (this : TileCache.t) bounds
    (minZoom maxZoom : Z) (onProgress : bool) (b : Browser) :
  maxZoom < minZoom →
  TileCache.generateTileUrls Math bounds minZoom maxZoom = Normal [] ∧
  TileCache.estimateTileCount Math bounds minZoom maxZoom = Normal (JInt 0) ∧
  ∃ b', TileCache.downloadArea Math this bounds minZoom maxZoom onProgress b
          = Normal (0%nat, [], TileCache.set_isDownloading false this, b') ∧
        fetched b' = fetched b ∧
        (∀ name url, cache_match name url b' = cache_match name url b) ∧
        console b' = console b ++ [LogDownloading 0; LogDownloaded 0].
Proof.
  intros Hlt.
  assert (Hurls : TileCache.generateTileUrls Math bounds minZoom maxZoom = Normal []).
  { unfold TileCache.generateTileUrls. cbn [for_range]. by rewrite seqZ_nil by lia. }
  split; [exact Hurls|]. split.
  { unfold TileCache.estimateTileCount. cbn [for_range]. by rewrite seqZ_nil by lia. }
  unfold TileCache.downloadArea. rewrite Hurls. cbn [mbind completion_bind bind].
  eexists. split; [reflexivity|]. split; [done|]. split.
  - intros name url. cbn [TileCache.cacheTiles foldl TileCache.browser snd].
    rewrite cache_match_console, updateCacheInfo_match, cache_match_open.
    by rewrite cache_match_console.
  - simpl. by rewrite <-app_assoc.
Qed.

Lemma downloadArea_empty_range_witness :
  13 < 14 ∧
  TileCache.generateTileUrls Engine.Math Sample.frascati 14 13 = Normal [] ∧
  TileCache.estimateTileCount Engine.Math Sample.frascati 14 13 = Normal (JInt 0) ∧
  ∃ b', TileCache.downloadArea Engine.Math Sample.tileCache Sample.frascati 14 13 true
          (Sample.browser Sample.flaky true)
          = Normal (0%nat, [], TileCache.set_isDownloading false Sample.tileCache, b') ∧
        fetched b' = fetched (Sample.browser Sample.flaky true) ∧
        (∀ name url, cache_match name url b'
                     = cache_match name url (Sample.browser Sample.flaky true)) ∧
        console b' = console (Sample.browser Sample.flaky true)
                     ++ [LogDownloading 0; LogDownloaded 0].
Proof.
  assert (H : 13 < 14) by lia.
  split; [exact H|].
  exact (downloadArea_of_empty_zoom_range Engine.Math Sample.tileCache Sample.frascati 14 13
           true (Sample.browser Sample.flaky true) H).
Defined.

(** ** What a batch does *)

Lemma cacheTiles_iteration_fetch (this : TileCache.t) (total : nat) (onProgress : bool)
    (st : TileCache.BatchState) (url : string) :
  TileCache.cacheTiles_iteration this total onProgress st url =
  let b := (fetch url (TileCache.browser st)).2 in
  {| TileCache.completed := S (TileCache.completed st);
     TileCache.progress :=
       if onProgress then TileCache.progress st ++ [(S (TileCache.completed st), total)]
       else TileCache.progress st;
     TileCache.browser :=
       match network (TileCache.browser st) (length (fetched (TileCache.browser st))) url with
       | Resolved response =>
           if ok response then cache_put (TileCache.cacheName this) url response b else b
       | Rejected => console_write (ErrorCachingTile (Some url)) b
       end |}.
Proof. reflexivity. Qed.

Lemma cacheTiles_iterations_progress (this : TileCache.t) (total : nat) (onProgress : bool)
    (urls : list string) (st : TileCache.BatchState) :
  TileCache.progress (foldl (TileCache.cacheTiles_iteration this total onProgress) st urls)
  = TileCache.progress st ++
    if onProgress
    then (λ i, ((TileCache.completed st + i)%nat, total)) <$> seq 1 (length urls)
    else [].
Proof.
  revert st. induction urls as [|url urls IH]; intros st.
  - simpl. destruct onProgress; by rewrite app_nil_r.
  - cbn [foldl]. rewrite IH, cacheTiles_iteration_fetch.
    cbn [TileCache.progress TileCache.completed length seq fmap list_fmap].
    destruct onProgress; [|done].
    rewrite <-app_assoc. cbn [app]. do 2 f_equal; [f_equal; lia|].
    rewrite <-(fmap_S_seq 1), <-list_fmap_compose. apply list_fmap_ext.
    intros _ i _. simpl. f_equal. lia.
Qed.

(** X6. A batch reports its progress once per URL, in step with the loop:
    the callback passed to [cacheTiles] is called with (1, n), (2, n), ...,
    (n, n) for a list of n URLs, whatever the fetches do; without a
    callback nothing is reported. *)
Theorem cacheTiles_reports_every_tile (this : TileCache.t) (urls : list string) (b : Browser) :
  (TileCache.cacheTiles this urls true b).1.2
    = (λ i, (i, length urls)) <$> seq 1 (length urls) ∧
  (TileCache.cacheTiles this urls false b).1.2 = [].
Proof.
  unfold TileCache.cacheTiles. cbn [fst snd].
  by rewrite !cacheTiles_iterations_progress.
Qed.

Lemma cacheTiles_iterations_fetched (this : TileCache.t) (total : nat) (onProgress : bool)
    (urls : list string) (st : TileCache.BatchState) :
  fetched (TileCache.browser (foldl (TileCache.cacheTiles_iteration this total onProgress) st urls))
  = fetched (TileCache.browser st) ++ urls ∧
  network (TileCache.browser (foldl (TileCache.cacheTiles_iteration this total onProgress) st urls))
  = network (TileCache.browser st).
Proof.
  revert st. induction urls as [|url urls IH]; intros st.
  - simpl. by rewrite app_nil_r.
  - cbn [foldl]. destruct (IH (TileCache.cacheTiles_iteration this total onProgress st url))
      as [-> ->].
    rewrite cacheTiles_iteration_fetch. cbn [TileCache.browser].
    destruct (network _ _ url) as [r|]; [destruct (ok r)|]; simpl; by rewrite <-app_assoc.
Qed.

(** X7. A batch goes on after a failure: whatever the network answers,
    [cacheTiles] makes exactly one fetch per URL of its list, in list
    order. *)
Theorem cacheTiles_fetches_each_url_once (this : TileCache.t) (urls : list string)
    (onProgress : bool) (b : Browser) :
  fetched (TileCache.cacheTiles this urls onProgress b).2 = fetched b ++ urls.
Proof.
  unfold TileCache.cacheTiles. cbn [snd].
  unfold TileCache.updateCacheInfo. cbn [snd].
  change (fetched (set_textContent ?t (caches_open ?n ?b'))) with (fetched b').
  by rewrite (proj1 (cacheTiles_iterations_fetched _ _ _ _ _)).
Qed.

Lemma cacheTiles_iteration_cached (this : TileCache.t) (total : nat) (onProgress : bool)
    (st : TileCache.BatchState) (u name url : string) :
  let b := TileCache.browser st in
  let b1 := TileCache.browser (TileCache.cacheTiles_iteration this total onProgress st u) in
  network b1 = network b ∧
  fetched b1 = fetched b ++ [u] ∧
  (cached name url b1 ↔
   cached name url b ∨
   (name = TileCache.cacheName this ∧ u = url ∧
    ∃ r, network b (length (fetched b)) u = Resolved r ∧ ok r = true)).
Proof.
  intros b b1. subst b1. rewrite cacheTiles_iteration_fetch. cbn [TileCache.browser].
  fold b. destruct (network b (length (fetched b)) u) as [r|] eqn:Hu;
    [destruct (ok r) eqn:Hok|].
  - split; [done|]. split; [done|]. unfold cached at 1. rewrite cache_match_put.
    change (cache_match name url (fetch u b).2) with (cache_match name url b).
    split.
    + case_decide as Hd; [|by left]. destruct Hd as [<- <-]. right. eauto.
    + intros [H|(-> & -> & _)]; [by case_decide|by rewrite decide_True].
  - split; [done|]. split; [done|].
    change (cached name url (fetch u b).2) with (cached name url b).
    split; [by left|]. intros [H|(_ & _ & r' & [= <-] & Hok')]; [done|congruence].
  - split; [done|]. split; [done|].
    change (cached name url (console_write (ErrorCachingTile (Some u)) (fetch u b).2))
      with (cached name url b).
    split; [by left|]. by intros [H|(_ & _ & r' & [=] & _)].
Qed.

Lemma cacheTiles_iterations_cached (this : TileCache.t) (total : nat) (onProgress : bool)
    (urls : list string) (st : TileCache.BatchState) (name url : string) :
  cached name url
    (TileCache.browser (foldl (TileCache.cacheTiles_iteration this total onProgress) st urls)) ↔
  cached name url (TileCache.browser st) ∨
  (name = TileCache.cacheName this ∧
   ∃ (i : nat) (r : Response),
     urls !! i = Some url ∧
     network (TileCache.browser st) (length (fetched (TileCache.browser st)) + i) url
       = Resolved r ∧
     ok r = true).
Proof.
  revert st. induction urls as [|u urls IH]; intros st.
  - simpl. split; [by left|]. intros [H|(_ & i & r & H & _)]; [done|by destruct i].
  - cbn [foldl]. rewrite IH.
    destruct (cacheTiles_iteration_cached this total onProgress st u name url)
      as (Hn & Hf & ->).
    rewrite Hn, Hf, length_app. cbn [length]. split.
    + intros [[H|(-> & -> & r & Hr & Hok)]|(Hname & i & r & Hi & Hr & Hok)].
      * by left.
      * right. split; [done|]. exists 0%nat, r. by rewrite Nat.add_0_r.
      * right. split; [done|]. exists (S i), r. split; [done|]. split; [|done].
        by replace (length (fetched (TileCache.browser st)) + S i)%nat
          with (length (fetched (TileCache.browser st)) + 1 + i)%nat by lia.
    + intros [H|(-> & [|i] & r & Hi & Hr & Hok)].
      * by left; left.
      * injection Hi as ->. rewrite Nat.add_0_r in Hr. left. right. eauto.
      * right. split; [done|]. exists i, r. split; [done|]. split; [|done].
        by replace (length (fetched (TileCache.browser st)) + 1 + i)%nat
          with (length (fetched (TileCache.browser st)) + S i)%nat by lia.
Qed.

(** X8. What a batch leaves in the stores: after [cacheTiles], a URL has an
    entry in the tile store exactly when it had one before or one of the
    batch's fetches for it was answered with an ok response (the i-th URL
    of the list is the i-th fetch the batch makes); no other store gains an
    entry. *)
Theorem cacheTiles_stores_the_ok_responses (this : TileCache.t) (urls : list string)
    (onProgress : bool) (b : Browser) (name url : string) :
  cached name url (TileCache.cacheTiles this urls onProgress b).2 ↔
  cached name url b ∨
  (name = TileCache.cacheName this ∧
   ∃ (i : nat) (r : Response),
     urls !! i = Some url ∧
     network b (length (fetched b) + i) url = Resolved r ∧
     ok r = true).
Proof.
  unfold TileCache.cacheTiles. cbn [snd]. unfold cached at 1.
  rewrite updateCacheInfo_match. fold (cached name url
    (TileCache.browser (foldl (TileCache.cacheTiles_iteration this (length urls) onProgress)
       {| TileCache.completed := 0; TileCache.progress := [];
          TileCache.browser := caches_open (TileCache.cacheName this) b |} urls))).
  rewrite cacheTiles_iterations_cached. cbn [TileCache.browser].
  unfold cached at 1. by rewrite cache_match_open.
Qed.


(** ** The worker's tile handler *)

Lemma fetch_unfold (url : string) (b : Browser) :
  fetch url b = (network b (length (fetched b)) url, (fetch url b).2).
Proof. reflexivity. Qed.

(** X9. Read-through: when the tile store has no entry for a request, the
    browser is online and the network answers with an ok response,
    [handleTileRequest] returns that response after one fetch, and a second
    request for the same URL is answered with the same response and no
    fetch, online or not. *)
Theorem handleTileRequest_reads_through (version request : string) (b : Browser)
    (r : Response) (online : bool) :
  cache_match (ServiceWorker.TILE_CACHE version) request b = None →
  onLine b = true →
  network b (length (fetched b)) request = Resolved r →
  ok r = true →
  let first := ServiceWorker.handleTileRequest version request b in
  let second := ServiceWorker.handleTileRequest version request (set_onLine online first.2) in
  first.1 = r ∧
  fetched first.2 = fetched b ++ [request] ∧
  second.1 = r ∧
  fetched second.2 = fetched first.2.
Proof.
  intros Hmiss Hon Hnet Hok first second.
  assert (Hfirst : first = (r, cache_put (ServiceWorker.TILE_CACHE version) request r
                                (fetch request (caches_open (ServiceWorker.TILE_CACHE version) b)).2)).
  { unfold first, ServiceWorker.handleTileRequest.
    rewrite cache_match_open, Hmiss. cbn [onLine caches_open with_caches]. rewrite Hon.
    rewrite fetch_unfold. cbn [network fetched caches_open with_caches]. by rewrite Hnet, Hok. }
  assert (Hsecond : second = (r, caches_open (ServiceWorker.TILE_CACHE version)
                                   (set_onLine online first.2))).
  { unfold second, ServiceWorker.handleTileRequest.
    rewrite cache_match_open.
    change (cache_match ?n ?u (set_onLine online ?b')) with (cache_match n u b').
    rewrite Hfirst. cbn [snd]. by rewrite cache_match_put, decide_True. }
  rewrite Hsecond. by rewrite Hfirst.
Qed.

Lemma handleTileRequest_reads_through_witness :
  cache_match (ServiceWorker.TILE_CACHE "v1") (TileRequest 12 2191 1522)
    (Sample.browser Sample.flaky true) = None ∧
  onLine (Sample.browser Sample.flaky true) = true ∧
  network (Sample.browser Sample.flaky true)
    (length (fetched (Sample.browser Sample.flaky true))) (TileRequest 12 2191 1522)
    = Resolved Sample.tile_png ∧
  ok Sample.tile_png = true ∧
  let first := ServiceWorker.handleTileRequest "v1" (TileRequest 12 2191 1522)
                 (Sample.browser Sample.flaky true) in
  let second := ServiceWorker.handleTileRequest "v1" (TileRequest 12 2191 1522)
                  (set_onLine false first.2) in
  first.1 = Sample.tile_png ∧
  fetched first.2 = fetched (Sample.browser Sample.flaky true) ++ [TileRequest 12 2191 1522] ∧
  second.1 = Sample.tile_png ∧
  fetched second.2 = fetched first.2.
Proof.
  assert (H1 : cache_match (ServiceWorker.TILE_CACHE "v1") (TileRequest 12 2191 1522)
                 (Sample.browser Sample.flaky true) = None) by reflexivity.
  assert (H2 : onLine (Sample.browser Sample.flaky true) = true) by reflexivity.
  assert (H3 : network (Sample.browser Sample.flaky true)
                 (length (fetched (Sample.browser Sample.flaky true)))
                 (TileRequest 12 2191 1522) = Resolved Sample.tile_png) by reflexivity.
  assert (H4 : ok Sample.tile_png = true) by reflexivity.
  split; [exact H1|]. split; [exact H2|]. split; [exact H3|]. split; [exact H4|].
  exact (handleTileRequest_reads_through "v1" (TileRequest 12 2191 1522)
           (Sample.browser Sample.flaky true) Sample.tile_png false H1 H2 H3 H4).
Defined.

(** X10. A tile request the store cannot answer: offline, the worker
    returns the 404 placeholder [Tile not cached] and makes no fetch; online
    with the fetch rejected, it returns the 500 response; online with an
    answer that is not ok, it passes the answer on.  In none of the three
    does an entry of any store change, so the next request for the tile
    goes the same way. *)
Theorem handleTileRequest_without_the_tile (version request : string) (b : Browser) :
  cache_match (ServiceWorker.TILE_CACHE version) request b = None →
  let out := ServiceWorker.handleTileRequest version request b in
  (onLine b = false →
     out.1 = ServiceWorker.text_response "Tile not available offline" 404 "Tile not cached" ∧
     fetched out.2 = fetched b ∧
     ∀ name url, cache_match name url out.2 = cache_match name url b) ∧
  (onLine b = true → network b (length (fetched b)) request = Rejected →
     out.1 = ServiceWorker.text_response "Error loading tile" 500 "" ∧
     ∀ name url, cache_match name url out.2 = cache_match name url b) ∧
  (onLine b = true → ∀ r, network b (length (fetched b)) request = Resolved r →
     ok r = false →
     out.1 = r ∧
     ∀ name url, cache_match name url out.2 = cache_match name url b).
Proof.
  intros Hmiss out. unfold out, ServiceWorker.handleTileRequest.
  rewrite cache_match_open, Hmiss. cbn [onLine caches_open with_caches].
  split; [|split].
  - intros ->. split; [done|]. split; [done|]. intros name url. apply cache_match_open.
  - intros -> Hnet. rewrite fetch_unfold. cbn [network fetched caches_open with_caches].
    rewrite Hnet. split; [done|]. intros name url. cbn [snd].
    by rewrite cache_match_console, cache_match_fetch, cache_match_open.
  - intros -> r Hnet Hok. rewrite fetch_unfold. cbn [network fetched caches_open with_caches].
    rewrite Hnet, Hok. split; [done|]. intros name url. cbn [snd].
    by rewrite cache_match_fetch, cache_match_open.
Qed.

Lemma handleTileRequest_without_the_tile_witness :
  cache_match (ServiceWorker.TILE_CACHE "v1") (TileRequest 12 2191 1522)
    (Sample.browser Sample.flaky false) = None ∧
  onLine (Sample.browser Sample.flaky false) = false ∧
  (ServiceWorker.handleTileRequest "v1" (TileRequest 12 2191 1522)
     (Sample.browser Sample.flaky false)).1
  = ServiceWorker.text_response "Tile not available offline" 404 "Tile not cached" ∧
  fetched (ServiceWorker.handleTileRequest "v1" (TileRequest 12 2191 1522)
             (Sample.browser Sample.flaky false)).2 = [].
Proof.
  assert (H1 : cache_match (ServiceWorker.TILE_CACHE "v1") (TileRequest 12 2191 1522)
                 (Sample.browser Sample.flaky false) = None) by reflexivity.
  assert (H2 : onLine (Sample.browser Sample.flaky false) = false) by reflexivity.
  split; [exact H1|]. split; [exact H2|].
  pose proof (proj1 (handleTileRequest_without_the_tile "v1" (TileRequest 12 2191 1522)
                       (Sample.browser Sample.flaky false) H1) H2) as (Hr & Hf & _).
  split; [exact Hr|exact Hf].
Defined.

(** ** The geocoding handler, online then offline *)

(** X11. An answer of the geocoder that was ok is replayed offline: after
    [handleApiRequest] has fetched a request online and the response was
    ok, the same request made when [navigator.onLine] is false is answered
    with that response, without a fetch. *)
Theorem handleApiRequest_replays_offline (version request : string) (b : Browser)
    (r : Response) :
  onLine b = true →
  network b (length (fetched b)) request = Resolved r →
  ok r = true →
  let first := ServiceWorker.handleApiRequest version request b in
  let second := ServiceWorker.handleApiRequest version request (set_onLine false first.2) in
  first.1 = r ∧
  second.1 = r ∧
  fetched second.2 = fetched b ++ [request].
Proof.
  intros Hon Hnet Hok first second.
  assert (Hfirst : first = (r, cache_put (ServiceWorker.DYNAMIC_CACHE version) request r
                                (caches_open (ServiceWorker.DYNAMIC_CACHE version)
                                   (fetch request b).2))).
  { unfold first, ServiceWorker.handleApiRequest. rewrite Hon, fetch_unfold.
    by rewrite Hnet, Hok. }
  unfold second, ServiceWorker.handleApiRequest. cbn [onLine set_onLine].
  rewrite cache_match_open.
  change (cache_match ?n ?u (set_onLine false ?b')) with (cache_match n u b').
  rewrite Hfirst. cbn [fst snd]. by rewrite cache_match_put, decide_True.
Qed.

Lemma handleApiRequest_replays_offline_witness :
  onLine (Sample.browser (Sample.always (Resolved Sample.address_json)) true) = true ∧
  network (Sample.browser (Sample.always (Resolved Sample.address_json)) true)
    (length (fetched (Sample.browser (Sample.always (Resolved Sample.address_json)) true)))
    Sample.nominatim = Resolved Sample.address_json ∧
  ok Sample.address_json = true ∧
  let first := ServiceWorker.handleApiRequest "v1" Sample.nominatim
                 (Sample.browser (Sample.always (Resolved Sample.address_json)) true) in
  let second := ServiceWorker.handleApiRequest "v1" Sample.nominatim
                  (set_onLine false first.2) in
  first.1 = Sample.address_json ∧
  second.1 = Sample.address_json ∧
  fetched second.2
  = fetched (Sample.browser (Sample.always (Resolved Sample.address_json)) true)
    ++ [Sample.nominatim].
Proof.
  assert (H1 : onLine (Sample.browser (Sample.always (Resolved Sample.address_json)) true)
               = true) by reflexivity.
  assert (H2 : network (Sample.browser (Sample.always (Resolved Sample.address_json)) true)
                 (length (fetched (Sample.browser
                                     (Sample.always (Resolved Sample.address_json)) true)))
                 Sample.nominatim = Resolved Sample.address_json) by reflexivity.
  assert (H3 : ok Sample.address_json = true) by reflexivity.
  split; [exact H1|]. split; [exact H2|]. split; [exact H3|].
  exact (handleApiRequest_replays_offline "v1" Sample.nominatim
           (Sample.browser (Sample.always (Resolved Sample.address_json)) true)
           Sample.address_json H1 H2 H3).
Defined.

(** ** Activation, again *)




(** ** The pre-cache of the facilities *)

Lemma batches_concat (turns batchSize : nat) (urls : list string) :
  (0 < batchSize)%nat → (length urls ≤ turns)%nat →
  concat (ServiceWorker.batches turns batchSize urls) = urls.
Proof.
  intros Hpos. revert urls. induction turns as [|turns IH]; intros urls Hlen.
  - destruct urls; [done|simpl in Hlen; lia].
  - destruct urls as [|u urls]; [done|].
    cbn [ServiceWorker.batches concat]. rewrite IH.
    + apply take_drop.
    + rewrite length_drop. simpl in *. lia.
Qed.

Lemma batches_sizes (turns batchSize : nat) (urls : list string) :
  (0 < batchSize)%nat →
  Forall (λ batch, (0 < length batch ≤ batchSize)%nat)
         (ServiceWorker.batches turns batchSize urls).
Proof.
  intros Hpos. revert urls. induction turns as [|turns IH]; intros urls; [constructor|].
  destruct urls as [|u urls]; [constructor|].
  cbn [ServiceWorker.batches]. constructor; [|apply IH].
  rewrite length_take. simpl. lia.
Qed.

Lemma foldl_batches {A} (f : A → string → A) (a : A) (bs : list (list string)) :
  foldl (λ a batch, foldl f a batch) a bs = foldl f a (concat bs).
Proof.
  revert a. induction bs as [|batch bs IH]; intros a; [done|].
  cbn [foldl concat]. by rewrite foldl_app, IH.
Qed.

Lemma cacheESATile_fetch (version : string) (b : Browser) (url : string) :
  ServiceWorker.cacheESATile version b url =
  match network b (length (fetched b)) url with
  | Resolved response =>
      if ok response
      then cache_put (ServiceWorker.TILE_CACHE version) url response (fetch url b).2
      else (fetch url b).2
  | Rejected => console_write (WarnFailedToCacheTile url) (fetch url b).2
  end.
Proof. reflexivity. Qed.

Lemma cacheESATile_effect (version : string) (u : string) (b : Browser) :
  fetched (ServiceWorker.cacheESATile version b u) = fetched b ++ [u] ∧
  (∀ name url, name ≠ ServiceWorker.TILE_CACHE version →
     cache_match name url (ServiceWorker.cacheESATile version b u) = cache_match name url b) ∧
  (∀ name url, cached name url b → cached name url (ServiceWorker.cacheESATile version b u)).
Proof.
  rewrite cacheESATile_fetch.
  destruct (network b (length (fetched b)) u) as [r|]; [destruct (ok r)|].
  - split; [done|]. split.
    + intros name url Hne. rewrite cache_match_put.
      by rewrite decide_False by (intros [? _]; congruence).
    + intros name url H. by apply cached_put.
  - done.
  - done.
Qed.

Lemma cacheESATiles_effect (version : string) (urls : list string) (b : Browser) :
  fetched (foldl (ServiceWorker.cacheESATile version) b urls) = fetched b ++ urls ∧
  (∀ name url, name ≠ ServiceWorker.TILE_CACHE version →
     cache_match name url (foldl (ServiceWorker.cacheESATile version) b urls)
     = cache_match name url b) ∧
  (∀ name url, cached name url b →
     cached name url (foldl (ServiceWorker.cacheESATile version) b urls)).
Proof.
  revert b. induction urls as [|u urls IH]; intros b.
  - simpl. by rewrite app_nil_r.
  - cbn [foldl]. destruct (IH (ServiceWorker.cacheESATile version b u)) as (Hf & Hm & Hk).
    destruct (cacheESATile_effect version u b) as (Hf1 & Hm1 & Hk1).
    split; [by rewrite Hf, Hf1, <-app_assoc|]. split.
    + intros name url Hne. by rewrite Hm, Hm1.
    + intros name url H. by apply Hk, Hk1.
Qed.

(** The pre-cache as one pass over the tiles of all facilities. *)
Lemma cacheESAFacilities_fold (version : string) Math (facilities : list ServiceWorker.Facility)
    (lists : list (list string)) (b : Browser) :
  Forall2 (λ facility urls,
     ServiceWorker.generateTileURLsForLocation Math (ServiceWorker.lat facility)
       (ServiceWorker.lon facility) (ServiceWorker.radius facility)
       ServiceWorker.ESA_ZOOM_LEVELS = Normal urls) facilities lists →
  foldl (λ acc facility,
    b ← acc;
    urls ← ServiceWorker.generateTileURLsForLocation Math (ServiceWorker.lat facility)
             (ServiceWorker.lon facility) (ServiceWorker.radius facility)
             ServiceWorker.ESA_ZOOM_LEVELS;
    let batchSize := 10%nat in
    Normal (foldl (λ b batch, foldl (ServiceWorker.cacheESATile version) b batch) b
                  (ServiceWorker.batches (length urls) batchSize urls)))
    (Normal b) facilities
  = Normal (foldl (ServiceWorker.cacheESATile version) b (concat lists)).
Proof.
  intros H. revert b. induction H as [|facility urls facilities lists Hurls _ IH]; intros b.
  - done.
  - cbn [foldl concat]. cbn [mbind completion_bind bind]. rewrite Hurls.
    cbn [mbind completion_bind bind].
    rewrite foldl_batches, batches_concat by lia. rewrite foldl_app. apply IH.
Qed.

(** X13. The pre-cache fetches every tile once: when the enumeration of each
    facility's tiles returns, [cacheESAFacilities] returns, and it has made
    one fetch per tile in the order of the facilities and of each list (the
    batches of ten neither skip nor repeat a tile), whatever the answers
    and whether or not the browser is online; it removes no entry and
    changes no store but the tile store. *)
Theorem cacheESAFacilities_fetches_every_tile_once (version : string) Math
    (lists : list (list string)) (b : Browser) :
  Forall2 (λ facility urls,
     ServiceWorker.generateTileURLsForLocation Math (ServiceWorker.lat facility)
       (ServiceWorker.lon facility) (ServiceWorker.radius facility)
       ServiceWorker.ESA_ZOOM_LEVELS = Normal urls) ServiceWorker.ESA_FACILITIES lists →
  ∃ b', ServiceWorker.cacheESAFacilities version Math b = Normal b' ∧
        fetched b' = fetched b ++ concat lists ∧
        (∀ name url, name ≠ ServiceWorker.TILE_CACHE version →
           cache_match name url b' = cache_match name url b) ∧
        (∀ name url, cached name url b → cached name url b').
Proof.
  intros H. eexists. split.
  - unfold ServiceWorker.cacheESAFacilities. by apply cacheESAFacilities_fold.
  - destruct (cacheESATiles_effect version (concat lists)
                (caches_open (ServiceWorker.TILE_CACHE version) b)) as (Hf & Hm & Hk).
    split; [exact Hf|]. split.
    + intros name url Hne. by rewrite Hm, cache_match_open.
    + intros name url Hc. apply Hk. unfold cached. by rewrite cache_match_open.
Qed.

Lemma cacheESAFacilities_witness :
  Forall2 (λ facility urls,
     ServiceWorker.generateTileURLsForLocation Engine.Math (ServiceWorker.lat facility)
       (ServiceWorker.lon facility) (ServiceWorker.radius facility)
       ServiceWorker.ESA_ZOOM_LEVELS = Normal urls)
    ServiceWorker.ESA_FACILITIES precache_lists ∧
  ∃ b', ServiceWorker.cacheESAFacilities "v1" Engine.Math (Sample.browser Sample.flaky false)
          = Normal b' ∧
        fetched b' = fetched (Sample.browser Sample.flaky false) ++ concat precache_lists ∧
        (∀ name url, name ≠ ServiceWorker.TILE_CACHE "v1" →
           cache_match name url b'
           = cache_match name url (Sample.browser Sample.flaky false)) ∧
        (∀ name url, cached name url (Sample.browser Sample.flaky false) →
                     cached name url b').
Proof.
  assert (H : Forall2 (λ facility urls,
     ServiceWorker.generateTileURLsForLocation Engine.Math (ServiceWorker.lat facility)
       (ServiceWorker.lon facility) (ServiceWorker.radius facility)
       ServiceWorker.ESA_ZOOM_LEVELS = Normal urls)
    ServiceWorker.ESA_FACILITIES precache_lists).
  { repeat constructor; vm_compute; reflexivity. }
  split; [exact H|].
  exact (cacheESAFacilities_fetches_every_tile_once "v1" Engine.Math precache_lists
           (Sample.browser Sample.flaky false) H).
Defined.

(** ** The two enumerations *)

(** X14. For consecutive zoom levels the worker's
    [generateTileURLsForLocation] returns the list that
    [TileCache.generateTileUrls] returns for the box it builds around the
    location: for the levels 10 to 16 it pre-caches, the tiles of a
    facility are those a download of that box at zooms 10 to 16 fetches, in
    the same order. *)
Theorem precache_list_is_download_list Math (lat lon radiusKm : float) (first levels : Z) :
  ServiceWorker.generateTileURLsForLocation Math lat lon radiusKm (seqZ first levels)
    = TileCache.generateTileUrls Math (bounds_around Math lat lon radiusKm)
        first (first + levels - 1) ∧
  ServiceWorker.generateTileURLsForLocation Math lat lon radiusKm ServiceWorker.ESA_ZOOM_LEVELS
    = TileCache.generateTileUrls Math (bounds_around Math lat lon radiusKm) 10 16.
Proof.
  assert (H : ∀ first levels,
    ServiceWorker.generateTileURLsForLocation Math lat lon radiusKm (seqZ first levels)
    = TileCache.generateTileUrls Math (bounds_around Math lat lon radiusKm)
        first (first + levels - 1)).
  { intros f l. unfold TileCache.generateTileUrls. cbn [for_range].
    by replace (f + l - 1 - f + 1) with l by lia. }
  split; [apply H|apply (H 10 7)].
Qed.


(** ** Only ok responses are stored *)

Lemma keeps_or_ok_same (b b' : Browser) :
  (∀ name url, cache_match name url b' = cache_match name url b) → keeps_or_ok b b'.
Proof. intros H name url r Hr. left. by rewrite <-H. Qed.

Lemma keeps_or_ok_trans (b1 b2 b3 : Browser) :
  keeps_or_ok b1 b2 → keeps_or_ok b2 b3 → keeps_or_ok b1 b3.
Proof.
  intros H12 H23 name url r Hr. destruct (H23 _ _ _ Hr) as [H|H]; [|by right].
  by apply H12.
Qed.

Lemma keeps_or_ok_put (b b' : Browser) (name url : string) (r : Response) :
  ok r = true → keeps_or_ok b b' → keeps_or_ok b (cache_put name url r b').
Proof.
  intros Hok H name' url' r'. rewrite cache_match_put.
  case_decide; [intros [= <-]; by right|apply H].
Qed.

Lemma cacheTile_keeps_or_ok (this : TileCache.t) (url : string) (b : Browser) :
  keeps_or_ok b (TileCache.cacheTile this url b).2.
Proof.
  unfold TileCache.cacheTile. rewrite fetch_unfold.
  cbn [network fetched caches_open with_caches].
  destruct (network b (length (fetched b)) url) as [r|]; [destruct (ok r) eqn:Hok|]; cbn [snd].
  - apply keeps_or_ok_put; [done|]. apply keeps_or_ok_same. intros name u.
    by rewrite cache_match_fetch, cache_match_open.
  - apply keeps_or_ok_same. intros name u. by rewrite cache_match_fetch, cache_match_open.
  - apply keeps_or_ok_same. intros name u.
    by rewrite cache_match_console, cache_match_fetch, cache_match_open.
Qed.

Lemma cacheTiles_keeps_or_ok (this : TileCache.t) (urls : list string) (onProgress : bool)
    (b : Browser) :
  keeps_or_ok b (TileCache.cacheTiles this urls onProgress b).2.
Proof.
  unfold TileCache.cacheTiles. cbn [snd].
  apply (keeps_or_ok_trans _ (TileCache.browser
    (foldl (TileCache.cacheTiles_iteration this (length urls) onProgress)
       {| TileCache.completed := 0; TileCache.progress := [];
          TileCache.browser := caches_open (TileCache.cacheName this) b |} urls)));
    [|apply keeps_or_ok_same; intros; apply updateCacheInfo_match].
  assert (H0 : keeps_or_ok b (TileCache.browser
            {| TileCache.completed := 0; TileCache.progress := [];
               TileCache.browser := caches_open (TileCache.cacheName this) b |})).
  { apply keeps_or_ok_same. intros. apply cache_match_open. }
  revert H0. generalize ({| TileCache.completed := 0; TileCache.progress := [];
               TileCache.browser := caches_open (TileCache.cacheName this) b |}).
  generalize (length urls). intros total.
  induction urls as [|u urls IH]; intros st Hst; [done|].
  cbn [foldl]. apply IH. rewrite cacheTiles_iteration_fetch. cbn [TileCache.browser].
  destruct (network _ _ u) as [r|]; [destruct (ok r) eqn:Hok|]; [by apply keeps_or_ok_put|..];
    apply (keeps_or_ok_trans _ _ _ Hst), keeps_or_ok_same; done.
Qed.

Lemma clearCache_keeps_or_ok (this : TileCache.t) (b : Browser) :
  keeps_or_ok b (TileCache.clearCache this b).
Proof.
  intros name url r. unfold TileCache.clearCache.
  rewrite updateCacheInfo_match, cache_match_console.
  unfold cache_match, caches_delete, cache_of. simpl. rewrite lookup_delete.
  case_decide; simpl; [by rewrite lookup_empty|by left].
Qed.

Lemma activate_keeps_or_ok (version : string) (b : Browser) :
  keeps_or_ok b (ServiceWorker.activate version b).
Proof.
  intros name url r. unfold cache_match, cache_of. rewrite activate_lookup.
  case_decide; simpl; [by left|by rewrite lookup_empty].
Qed.

Lemma handleTileRequest_keeps_or_ok (version request : string) (b : Browser) :
  keeps_or_ok b (ServiceWorker.handleTileRequest version request b).2.
Proof.
  unfold ServiceWorker.handleTileRequest.
  assert (Hopen : keeps_or_ok b (caches_open (ServiceWorker.TILE_CACHE version) b)).
  { apply keeps_or_ok_same. intros. apply cache_match_open. }
  destruct (cache_match _ request _); [done|].
  destruct (onLine _); [|done].
  rewrite fetch_unfold. cbn [network fetched caches_open with_caches].
  destruct (network b (length (fetched b)) request) as [r|]; [|done].
  cbn [snd]. destruct (ok r) eqn:Hok; [by apply keeps_or_ok_put|done].
Qed.

Lemma handleApiRequest_keeps_or_ok (version request : string) (b : Browser) :
  keeps_or_ok b (ServiceWorker.handleApiRequest version request b).2.
Proof.
  unfold ServiceWorker.handleApiRequest. destruct (onLine b).
  - rewrite fetch_unfold.
    destruct (network b (length (fetched b)) request) as [r|];
      [|by apply keeps_or_ok_same].
    cbn [snd]. destruct (ok r) eqn:Hok; [|by apply keeps_or_ok_same].
    apply keeps_or_ok_put; [done|]. apply keeps_or_ok_same. intros.
    by rewrite cache_match_open.
  - assert (Hopen : keeps_or_ok b (caches_open (ServiceWorker.DYNAMIC_CACHE version) b)).
    { apply keeps_or_ok_same. intros. apply cache_match_open. }
    by destruct (cache_match _ request _).
Qed.

Lemma cacheESATile_keeps_or_ok (version url : string) (b : Browser) :
  keeps_or_ok b (ServiceWorker.cacheESATile version b url).
Proof.
  rewrite cacheESATile_fetch.
  destruct (network b (length (fetched b)) url) as [r|]; [destruct (ok r) eqn:Hok|];
    [apply keeps_or_ok_put; [done|]|..]; by apply keeps_or_ok_same.
Qed.

Lemma run_event_keeps_or_ok (version : string) (this : TileCache.t) (b : Browser)
    (e : StoreEvent) :
  keeps_or_ok b (run_event version this b e).
Proof.
  destruct e; cbn [run_event].
  - apply cacheTile_keeps_or_ok.
  - apply cacheTiles_keeps_or_ok.
  - apply keeps_or_ok_same. intros. apply checkCacheSize_match.
  - apply clearCache_keeps_or_ok.
  - apply activate_keeps_or_ok.
  - apply handleTileRequest_keeps_or_ok.
  - apply handleApiRequest_keeps_or_ok.
  - apply cacheESATile_keeps_or_ok.
  - by apply keeps_or_ok_same.
Qed.

Lemma only_ok_entries (b : Browser) :
  map_Forall (λ _ c, map_Forall (λ _ r, ok r = true) c) (caches b) → only_ok b.
Proof.
  intros H name url r. unfold cache_match, cache_of.
  destruct (caches b !! name) as [c|] eqn:Hc; simpl; [|by rewrite lookup_empty].
  intros Hr. exact (H name c Hc url r Hr).
Qed.

(** X15. No writer stores an answer that was not ok: if every entry of every
    store holds an ok response, this is still so after any sequence of the
    page's [cacheTile], [cacheTiles], [checkCacheSize] and [clearCache], of
    the worker's activation, tile and geocoding handlers and pre-cache
    fetches, and of the browser going on and off line.  A 404 or 500 answer
    is therefore never served from a store later. *)
Theorem stores_hold_only_ok_responses (version : string) (this : TileCache.t)
    (events : list StoreEvent) (b : Browser) :
  only_ok b → only_ok (foldl (run_event version this) b events).
Proof.
  revert b. induction events as [|e events IH]; intros b Hb; [done|].
  cbn [foldl]. apply IH. intros name url r Hr.
  destruct (run_event_keeps_or_ok version this b e name url r Hr) as [H|H]; [|done].
  by apply (Hb name url r).
Qed.

Lemma stores_hold_only_ok_witness :
  only_ok (Sample.unreachable true) ∧
  only_ok (foldl (run_event "v1" Sample.tileCache) (Sample.unreachable true)
             [PageCacheTiles Sample.three_urls false; WorkerApiRequest Sample.nominatim;
              NavigatorOnLine false; WorkerTileRequest (TileRequest 12 2191 1523)]).
Proof.
  assert (H : only_ok (Sample.unreachable true)).
  { apply only_ok_entries. apply map_Forall_singleton, map_Forall_singleton. reflexivity. }
  split; [exact H|].
  exact (stores_hold_only_ok_responses "v1" Sample.tileCache _ _ H).
Defined.

(** ** Addresses *)

Lemma concat_filled (separator first : string) (rest : list string) :
  first ≠ "" → String.concat separator (first :: rest) ≠ "".
Proof.
  intros Hne. destruct first as [|c first]; [done|].
  destruct rest; simpl; discriminate.
Qed.

Lemma truthy_string (v : Json.t) :
  string_or_absent (Some v) → Json.truthy v = true → filled v.
Proof.
  destruct v as [| | |s| |]; try done. intros _ H. exists s. split; [done|].
  intros ->. discriminate.
Qed.

Lemma push_filled (part : option Json.t) (parts : list Json.t) :
  string_or_absent part → Forall filled parts → Forall filled (LocationDetails.push part parts).
Proof.
  intros Hpart Hparts. destruct part as [v|]; [|done]. simpl.
  destruct (Json.truthy v) eqn:Hv; [|done].
  apply Forall_app. split; [done|]. constructor; [|constructor]. by apply truthy_string.
Qed.

Lemma or_string (a c : option Json.t) :
  string_or_absent a → string_or_absent c → string_or_absent (Json.or a c).
Proof. intros Ha Hc. unfold Json.or. by destruct (Json.defined_truthy a). Qed.

Lemma texts_filled Number_toString (parts : list Json.t) :
  Forall filled parts →
  ∃ strings, Json.texts Number_toString parts = Some strings ∧
             length strings = length parts ∧ Forall (λ s, s ≠ "") strings.
Proof.
  induction 1 as [|part parts (s & -> & Hs) _ (strings & IH & Hlen & Hall)].
  - by exists [].
  - exists (s :: strings). simpl. rewrite IH. split; [done|]. split; [by rewrite Hlen|].
    by constructor.
Qed.

Lemma push_nothing (part : option Json.t) (parts : list Json.t) :
  Json.defined_truthy part = false → LocationDetails.push part parts = parts.
Proof. destruct part as [v|]; [|done]. simpl. by intros ->. Qed.

(** X16. The address line is never blank for an answer of string parts:
    when the parts of the address that [formatAddress] reads are strings
    or absent, it returns a text that is not empty; it returns
    [Indirizzo sconosciuto] for an answer that is falsy or has no usable
    [address], and [Unknown address] when none of the parts is a string
    that is not empty. *)
Theorem formatAddress_is_never_blank Number_toString (data : Json.t) :
  (∀ addr, Json.get "address" data = Some addr →
     Forall (λ key, string_or_absent (Json.get key addr)) address_keys) →
  (∃ text, LocationDetails.formatAddress Number_toString data = Some text ∧ text ≠ "") ∧
  (Json.truthy data = false ∨ Json.defined_truthy (Json.get "address" data) = false →
     LocationDetails.formatAddress Number_toString data = Some "Indirizzo sconosciuto") ∧
  (∀ addr, Json.truthy data = true → Json.get "address" data = Some addr →
     Json.truthy addr = true →
     Forall (λ key, Json.defined_truthy (Json.get key addr) = false) address_keys →
     LocationDetails.formatAddress Number_toString data = Some "Unknown address").
Proof.
  intros Hstrings. unfold LocationDetails.formatAddress. split; [|split].
  - destruct (negb (Json.truthy data) || negb (Json.defined_truthy (Json.get "address" data)))
      eqn:Hdata; [by eexists|].
    destruct (Json.get "address" data) as [addr|] eqn:Haddr;
      [|by rewrite orb_true_r in Hdata].
    specialize (Hstrings addr eq_refl). unfold address_keys in Hstrings.
    repeat match goal with H : Forall _ (_ :: _) |- _ => apply Forall_cons in H as [? H] end.
    cbv zeta.
    set (parts := LocationDetails.push (Json.get "country" addr) _).
    assert (Hparts : Forall filled parts).
    { unfold parts.
      repeat (apply push_filled; [first [done|by repeat apply or_string]|]). constructor. }
    clearbody parts. destruct (texts_filled Number_toString parts Hparts)
      as (strings & Htexts & Hlen & Hall).
    destruct parts as [|part parts]; [by eexists|].
    cbn [length Nat.ltb Nat.leb]. unfold Json.join. rewrite Htexts.
    destruct strings as [|first strings]; [done|]. apply Forall_cons in Hall as [Hfirst _].
    eexists. split; [reflexivity|]. by apply concat_filled.
  - intros [->| ->]; [done|]. by rewrite orb_true_r.
  - intros addr -> Haddr Htruthy Hnone. rewrite Haddr. cbn [Json.defined_truthy].
    rewrite Htruthy. cbn [negb orb]. unfold address_keys in Hnone.
    repeat match goal with H : Forall _ (_ :: _) |- _ => apply Forall_cons in H as [? H] end.
    rewrite !push_nothing; try done.
    unfold Json.or. by repeat match goal with H : Json.defined_truthy _ = false |- _ =>
                                rewrite H; clear H end.
Qed.

Lemma formatAddress_witness :
  (∀ addr, Json.get "address" frascati_answer = Some addr →
     Forall (λ key, string_or_absent (Json.get key addr)) address_keys) ∧
  LocationDetails.formatAddress Engine2.Number_toString frascati_answer
    = Some "Via Galileo Galilei, Frascati, Italia" ∧
  ∃ text, LocationDetails.formatAddress Engine2.Number_toString frascati_answer = Some text ∧
          text ≠ "".
Proof.
  assert (H : ∀ addr, Json.get "address" frascati_answer = Some addr →
     Forall (λ key, string_or_absent (Json.get key addr)) address_keys).
  { intros addr [= <-]. repeat constructor. }
  split; [exact H|]. split; [reflexivity|].
  exact (proj1 (formatAddress_is_never_blank Engine2.Number_toString frascati_answer H)).
Defined.

(** Without strings the line can be blank: an empty array is truthy and
    its text is empty. *)
Example formatAddress_of_an_empty_array :
  LocationDetails.formatAddress Engine2.Number_toString
    (Json.Obj [("address", Json.Obj [("road", Json.Arr [])])]) = Some "".
Proof. reflexivity. Qed.

(** ** The address cache in [localStorage] *)

Lemma assoc_replace (key key' : string) (value : Json.t) (fields : list (string * Json.t)) :
  Json.assoc key' (Json.replace key value fields) =
  if decide (key' = key) then Some value else Json.assoc key' fields.
Proof.
  induction fields as [|[k v] fields IH]; simpl.
  - destruct (String.eqb_spec key key') as [->|Hne]; [by rewrite decide_True|].
    by rewrite decide_False by congruence.
  - destruct (String.eqb_spec k key) as [->|Hk]; simpl.
    + destruct (String.eqb_spec key key') as [->|Hne]; [by rewrite decide_True|].
      by rewrite decide_False by congruence.
    + rewrite IH. destruct (String.eqb_spec k key') as [->|Hne]; [|done].
      by rewrite decide_False.
Qed.

Lemma saveToLocalStorage_keeps parse stringify (key value : string)
    (w : LocationDetails.World) :
  LocationDetails.window (LocationDetails.saveToLocalStorage parse stringify key value w)
    = LocationDetails.window w ∧
  LocationDetails.addressEl (LocationDetails.saveToLocalStorage parse stringify key value w)
    = LocationDetails.addressEl w.
Proof.
  unfold LocationDetails.saveToLocalStorage.
  destruct (parse _) as [v|]; [|done].
  destruct (Json.assign _ _ v); [|done].
  by destruct (LocationDetails.accepts w _ _).
Qed.

Lemma stored_text_saved parse stringify (key value : string) (fields : list (string * Json.t))
    (w : LocationDetails.World) :
  parse (LocationDetails.stored_text w) = Some (Json.Obj fields) →
  LocationDetails.accepts w "geocode-cache"
    (stringify (Json.Obj (Json.replace key (Json.Str value) fields))) = true →
  stringify (Json.Obj (Json.replace key (Json.Str value) fields)) ≠ "" →
  LocationDetails.stored_text (LocationDetails.saveToLocalStorage parse stringify key value w)
  = stringify (Json.Obj (Json.replace key (Json.Str value) fields)).
Proof.
  intros Hparse Hacc Hne. unfold LocationDetails.saveToLocalStorage.
  rewrite Hparse. cbn [Json.assign]. rewrite Hacc.
  unfold LocationDetails.stored_text. cbn [LocationDetails.localStorage
    LocationDetails.with_localStorage]. rewrite lookup_insert_eq.
  by destruct (String.eqb_spec (stringify (Json.Obj (Json.replace key (Json.Str value) fields))) "").
Qed.

(** X17. Round trip through [localStorage], for cache keys: when the stored
    text is that of an object, the store accepts the new text and
    [JSON.parse] reads back what [JSON.stringify] wrote, then after
    [saveToLocalStorage(key, value)] with a value that is not empty
    [loadFromLocalStorage(key)] returns the value, and every other cache
    key loads what it loaded before. *)
Theorem saved_address_is_loaded parse stringify (key value : string)
    (fields : list (string * Json.t)) (w : LocationDetails.World) :
  cache_key key →
  parse (LocationDetails.stored_text w) = Some (Json.Obj fields) →
  LocationDetails.accepts w "geocode-cache"
    (stringify (Json.Obj (Json.replace key (Json.Str value) fields))) = true →
  stringify (Json.Obj (Json.replace key (Json.Str value) fields)) ≠ "" →
  parse (stringify (Json.Obj (Json.replace key (Json.Str value) fields)))
    = Some (Json.Obj (Json.replace key (Json.Str value) fields)) →
  value ≠ "" →
  let saved := LocationDetails.saveToLocalStorage parse stringify key value w in
  LocationDetails.loadFromLocalStorage parse key saved = (Some (Json.Str value), saved) ∧
  ∀ key', cache_key key' → key' ≠ key →
    (LocationDetails.loadFromLocalStorage parse key' saved).1
    = (LocationDetails.loadFromLocalStorage parse key' w).1.
Proof.
  intros _ Hparse Hacc Hne Hback Hvalue saved.
  assert (Htext := stored_text_saved parse stringify key value fields w Hparse Hacc Hne).
  fold saved in Htext. unfold LocationDetails.loadFromLocalStorage.
  rewrite Htext, Hback, Hparse. cbn [Json.get]. split.
  - rewrite assoc_replace, decide_True by done. cbn [Json.defined_truthy Json.truthy].
    by destruct (String.eqb_spec value "").
  - intros key' _ Hne'. by rewrite assoc_replace, decide_False.
Qed.

Lemma saved_address_witness :
  cache_key "41.8273,12.6734" ∧
  Engine2.JSON_parse (LocationDetails.stored_text (new_world Sample.flaky true))
    = Some (Json.Obj []) ∧
  (LocationDetails.loadFromLocalStorage Engine2.JSON_parse "41.8273,12.6734"
     (LocationDetails.saveToLocalStorage Engine2.JSON_parse Engine2.JSON_stringify
        "41.8273,12.6734" "Via Galileo Galilei, Frascati, Italia"
        (new_world Sample.flaky true))).1
  = Some (Json.Str "Via Galileo Galilei, Frascati, Italia").
Proof.
  assert (H1 : Engine2.JSON_parse (LocationDetails.stored_text (new_world Sample.flaky true))
               = Some (Json.Obj [])) by reflexivity.
  assert (H0 : cache_key "41.8273,12.6734") by (by exists "41.8273", "12.6734").
  split; [exact H0|]. split; [exact H1|].
  refine (f_equal fst (proj1 (saved_address_is_loaded Engine2.JSON_parse Engine2.JSON_stringify
            "41.8273,12.6734" "Via Galileo Galilei, Frascati, Italia" []
            (new_world Sample.flaky true) H0 H1 eq_refl _ eq_refl _))); discriminate.
Defined.

Lemma saveToLocalStorage_unusable parse stringify (key value : string)
    (w : LocationDetails.World) :
  unusable (parse (LocationDetails.stored_text w)) →
  LocationDetails.localStorage (LocationDetails.saveToLocalStorage parse stringify key value w)
  = LocationDetails.localStorage w.
Proof.
  unfold LocationDetails.saveToLocalStorage.
  by destruct (parse _) as [[| | | | |]|].
Qed.

(** X18. A stored text that is unusable is never repaired: when the text
    under [geocode-cache] does not parse, or parses to [null] or to a
    primitive value, every [saveToLocalStorage] fails (it only logs), so
    after any number of saves [localStorage] is as it was and
    [loadFromLocalStorage] returns [null] for every cache key. *)
Theorem unusable_cache_is_never_repaired parse stringify (saves : list (string * string))
    (w : LocationDetails.World) :
  unusable (parse (LocationDetails.stored_text w)) →
  let after := foldl (λ w save, LocationDetails.saveToLocalStorage parse stringify
                                  save.1 save.2 w) w saves in
  LocationDetails.localStorage after = LocationDetails.localStorage w ∧
  ∀ key, cache_key key → (LocationDetails.loadFromLocalStorage parse key after).1 = None.
Proof.
  intros Hbad after.
  assert (Hsame : LocationDetails.localStorage after = LocationDetails.localStorage w).
  { unfold after. clear after. revert w Hbad.
    induction saves as [|[key value] saves IH]; intros w Hbad; [done|].
    cbn [foldl fst snd].
    assert (Hstep := saveToLocalStorage_unusable parse stringify key value w Hbad).
    rewrite IH; [done|]. unfold LocationDetails.stored_text. by rewrite Hstep. }
  split; [done|]. intros key _. unfold LocationDetails.loadFromLocalStorage.
  unfold LocationDetails.stored_text in *. rewrite Hsame.
  by destruct (parse _) as [[| | | | |]|].
Qed.

Lemma unusable_cache_witness :
  unusable (Engine2.JSON_parse (LocationDetails.stored_text
    (LocationDetails.with_localStorage {[ "geocode-cache" := "{oops" ]}
       (new_world Sample.flaky true)))) ∧
  let after := foldl (λ w save, LocationDetails.saveToLocalStorage Engine2.JSON_parse
                                  Engine2.JSON_stringify save.1 save.2 w)
                 (LocationDetails.with_localStorage {[ "geocode-cache" := "{oops" ]}
                    (new_world Sample.flaky true))
                 [("41.8273,12.6734", "Via Galileo Galilei, Frascati, Italia")] in
  LocationDetails.localStorage after = {[ "geocode-cache" := "{oops" ]} ∧
  ∀ key, cache_key key →
    (LocationDetails.loadFromLocalStorage Engine2.JSON_parse key after).1 = None.
Proof.
  assert (H : unusable (Engine2.JSON_parse (LocationDetails.stored_text
    (LocationDetails.with_localStorage {[ "geocode-cache" := "{oops" ]}
       (new_world Sample.flaky true))))) by exact I.
  split; [exact H|].
  exact (unusable_cache_is_never_repaired Engine2.JSON_parse Engine2.JSON_stringify
           [("41.8273,12.6734", "Via Galileo Galilei, Frascati, Italia")] _ H).
Defined.

(** ** Reverse geocoding *)

Lemma reverseGeocode_fetched toS parse stringify (this : LocationDetails.t) (lat lon : float)
    (w : LocationDetails.World) (r : Response) (data : Json.t) (address : string) :
  LocationDetails.geocodeCache this !! LocationDetails.cacheKey_of toS lat lon = None →
  onLine (LocationDetails.window w) = true →
  network (LocationDetails.window w) (length (fetched (LocationDetails.window w)))
    (LocationDetails.reverse_url toS lat lon) = Resolved r →
  ok r = true →
  parse (body r) = Some data →
  LocationDetails.formatAddress toS data = Some address →
  LocationDetails.reverseGeocode toS parse stringify this lat lon w =
  Some ({| LocationDetails.geocodeCache :=
             <[LocationDetails.cacheKey_of toS lat lon := address]>
               (LocationDetails.geocodeCache this) |},
        LocationDetails.saveToLocalStorage parse stringify
          (LocationDetails.cacheKey_of toS lat lon) address
          (LocationDetails.show address
             (LocationDetails.with_window
                (fetch (LocationDetails.reverse_url toS lat lon) (LocationDetails.window w)).2
                (LocationDetails.with_addressEl
                   {| LocationDetails.content := LocationDetails.Html LocationDetails.spinner_markup;
                      LocationDetails.loading := true |} w)))).
Proof.
  intros Hmiss Hon Hnet Hok Hparse Haddress.
  unfold LocationDetails.reverseGeocode, LocationDetails.reverseGeocode_start.
  rewrite Hmiss, Hon. cbn [negb]. rewrite fetch_unfold.
  cbn [LocationDetails.window LocationDetails.with_addressEl]. rewrite Hnet.
  unfold LocationDetails.reverseGeocode_settle.
  cbn [LocationDetails.settles LocationDetails.cacheKey]. by rewrite Hok, Hparse, Haddress.
Qed.

(** X19. The geocoder is asked once per cache key: after a lookup that was
    answered with an ok response whose body parses and formats to an
    address, the address is shown, and every later lookup on the same
    object for coordinates with the same cache key (the same latitude and
    longitude to four decimals) shows that address again without a fetch
    and without touching [localStorage], online or not. *)
Theorem reverseGeocode_asks_once toS parse stringify (this : LocationDetails.t)
    (lat lon : float) (w : LocationDetails.World) (r : Response) (data : Json.t)
    (address : string) :
  LocationDetails.geocodeCache this !! LocationDetails.cacheKey_of toS lat lon = None →
  onLine (LocationDetails.window w) = true →
  network (LocationDetails.window w) (length (fetched (LocationDetails.window w)))
    (LocationDetails.reverse_url toS lat lon) = Resolved r →
  ok r = true →
  parse (body r) = Some data →
  LocationDetails.formatAddress toS data = Some address →
  ∃ this1 w1,
    LocationDetails.reverseGeocode toS parse stringify this lat lon w = Some (this1, w1) ∧
    LocationDetails.addressEl w1
      = {| LocationDetails.content := LocationDetails.Text address;
           LocationDetails.loading := false |} ∧
    fetched (LocationDetails.window w1)
      = fetched (LocationDetails.window w) ++ [LocationDetails.reverse_url toS lat lon] ∧
    ∀ lat' lon' w2,
      LocationDetails.cacheKey_of toS lat' lon' = LocationDetails.cacheKey_of toS lat lon →
      LocationDetails.reverseGeocode toS parse stringify this1 lat' lon' w2
      = Some (this1, LocationDetails.show address w2).
Proof.
  intros Hmiss Hon Hnet Hok Hparse Haddress. eexists _, _. split.
  - by apply (reverseGeocode_fetched toS parse stringify this lat lon w r data address).
  - match goal with |- context [LocationDetails.saveToLocalStorage ?p ?s ?k ?v ?w0] =>
      destruct (saveToLocalStorage_keeps p s k v w0) as [-> ->] end.
    split; [done|]. split; [done|].
    intros lat' lon' w2 Hkey.
    unfold LocationDetails.reverseGeocode, LocationDetails.reverseGeocode_start.
    cbn [LocationDetails.geocodeCache]. by rewrite Hkey, lookup_insert_eq.
Qed.

Lemma reverseGeocode_asks_once_witness :
  ∃ this1 w1,
    LocationDetails.reverseGeocode Engine2.Number_toString Engine2.JSON_parse
      Engine2.JSON_stringify new_details 41.8273 12.6734
      (new_world (Sample.always (Resolved geocoder_ok)) true) = Some (this1, w1) ∧
    LocationDetails.addressEl w1
      = {| LocationDetails.content :=
             LocationDetails.Text "Via Galileo Galilei, Frascati, Italia";
           LocationDetails.loading := false |} ∧
    fetched (LocationDetails.window w1)
      = fetched (LocationDetails.window (new_world (Sample.always (Resolved geocoder_ok)) true))
        ++ [LocationDetails.reverse_url Engine2.Number_toString 41.8273 12.6734] ∧
    ∀ lat' lon' w2,
      LocationDetails.cacheKey_of Engine2.Number_toString lat' lon'
        = LocationDetails.cacheKey_of Engine2.Number_toString 41.8273 12.6734 →
      LocationDetails.reverseGeocode Engine2.Number_toString Engine2.JSON_parse
        Engine2.JSON_stringify this1 lat' lon' w2
      = Some (this1, LocationDetails.show "Via Galileo Galilei, Frascati, Italia" w2).
Proof.
  apply (reverseGeocode_asks_once Engine2.Number_toString Engine2.JSON_parse
           Engine2.JSON_stringify new_details 41.8273 12.6734
           (new_world (Sample.always (Resolved geocoder_ok)) true) geocoder_ok frascati_answer
           "Via Galileo Galilei, Frascati, Italia").
  - reflexivity.
  - reflexivity.
  - reflexivity.
  - reflexivity.
  - vm_compute. reflexivity.
  - reflexivity.
Defined.

(** X20. What an earlier session saved is shown only when the fetch fails.
    Let a text be saved under the cache key of a place, [localStorage]
    accepting it and [JSON.parse] reading back what [JSON.stringify]
    wrote.  A new [LocationDetails] object (its memory is empty) in a
    browser with that [localStorage] then shows, for the place: [Not
    available offline], without a fetch and without reading the saved
    address, when [navigator.onLine] is false; and the saved address
    followed by [ (cache)] when [navigator.onLine] is true and the fetch
    is rejected. *)
Theorem saved_address_needs_a_failed_fetch toS parse stringify (lat lon : float)
    (address : string) (fields : list (string * Json.t)) (w w2 : LocationDetails.World) :
  let key := LocationDetails.cacheKey_of toS lat lon in
  let text := stringify (Json.Obj (Json.replace key (Json.Str address) fields)) in
  parse (LocationDetails.stored_text w) = Some (Json.Obj fields) →
  LocationDetails.accepts w "geocode-cache" text = true →
  text ≠ "" →
  parse text = Some (Json.Obj (Json.replace key (Json.Str address) fields)) →
  address ≠ "" →
  LocationDetails.localStorage w2
    = LocationDetails.localStorage
        (LocationDetails.saveToLocalStorage parse stringify key address w) →
  (onLine (LocationDetails.window w2) = false →
     LocationDetails.reverseGeocode toS parse stringify new_details lat lon w2
     = Some (new_details, LocationDetails.show "Not available offline" w2)) ∧
  (onLine (LocationDetails.window w2) = true →
   network (LocationDetails.window w2) (length (fetched (LocationDetails.window w2)))
     (LocationDetails.reverse_url toS lat lon) = Rejected →
     ∃ w3, LocationDetails.reverseGeocode toS parse stringify new_details lat lon w2
           = Some (new_details, w3) ∧
           LocationDetails.addressEl w3
           = {| LocationDetails.content := LocationDetails.Text (address +:+ " (cache)");
                LocationDetails.loading := false |}).
Proof.
  intros key text Hparse Hacc Hne Hback Haddress Hstore.
  assert (Htext := stored_text_saved parse stringify key address fields w Hparse Hacc Hne).
  unfold LocationDetails.reverseGeocode, LocationDetails.reverseGeocode_start.
  cbn [LocationDetails.geocodeCache new_details]. rewrite lookup_empty. split.
  - by intros ->.
  - intros -> Hnet. cbn [negb]. rewrite fetch_unfold.
    cbn [LocationDetails.window LocationDetails.with_addressEl]. rewrite Hnet.
    unfold LocationDetails.reverseGeocode_settle, LocationDetails.reverseGeocode_catch.
    cbn [LocationDetails.settles LocationDetails.cacheKey].
    unfold LocationDetails.loadFromLocalStorage.
    assert (Hsame : ∀ w', LocationDetails.localStorage w' = LocationDetails.localStorage w2 →
              LocationDetails.stored_text w' = text).
    { intros w' Hw'. unfold text. rewrite <-Htext. unfold LocationDetails.stored_text.
      by rewrite Hw', Hstore. }
    rewrite Hsame by done. fold text. rewrite Hback. cbn [Json.get].
    fold key. rewrite assoc_replace, decide_True by done.
    cbn [Json.defined_truthy Json.truthy Json.ToString].
    destruct (String.eqb_spec address "") as [|_]; [done|]. cbn [negb option_map].
    by eexists.
Qed.

Lemma saved_address_needs_a_failed_fetch_witness :
  (onLine (LocationDetails.window
     (LocationDetails.saveToLocalStorage Engine2.JSON_parse Engine2.JSON_stringify
        (LocationDetails.cacheKey_of Engine2.Number_toString 41.8273 12.6734)
        "Via Galileo Galilei, Frascati, Italia" (new_world (Sample.always Rejected) true)))
   = true ∧
   ∃ w3, LocationDetails.reverseGeocode Engine2.Number_toString Engine2.JSON_parse
           Engine2.JSON_stringify new_details 41.8273 12.6734
           (LocationDetails.saveToLocalStorage Engine2.JSON_parse Engine2.JSON_stringify
              (LocationDetails.cacheKey_of Engine2.Number_toString 41.8273 12.6734)
              "Via Galileo Galilei, Frascati, Italia" (new_world (Sample.always Rejected) true))
         = Some (new_details, w3) ∧
         LocationDetails.addressEl w3
         = {| LocationDetails.content :=
                LocationDetails.Text "Via Galileo Galilei, Frascati, Italia (cache)";
              LocationDetails.loading := false |}) ∧
  (onLine (LocationDetails.window
     (LocationDetails.saveToLocalStorage Engine2.JSON_parse Engine2.JSON_stringify
        (LocationDetails.cacheKey_of Engine2.Number_toString 41.8273 12.6734)
        "Via Galileo Galilei, Frascati, Italia" (new_world (Sample.always Rejected) false)))
   = false ∧
   LocationDetails.reverseGeocode Engine2.Number_toString Engine2.JSON_parse
     Engine2.JSON_stringify new_details 41.8273 12.6734
     (LocationDetails.saveToLocalStorage Engine2.JSON_parse Engine2.JSON_stringify
        (LocationDetails.cacheKey_of Engine2.Number_toString 41.8273 12.6734)
        "Via Galileo Galilei, Frascati, Italia" (new_world (Sample.always Rejected) false))
   = Some (new_details,
           LocationDetails.show "Not available offline"
             (LocationDetails.saveToLocalStorage Engine2.JSON_parse Engine2.JSON_stringify
                (LocationDetails.cacheKey_of Engine2.Number_toString 41.8273 12.6734)
                "Via Galileo Galilei, Frascati, Italia"
                (new_world (Sample.always Rejected) false)))).
Proof.
  split.
  - split; [reflexivity|].
    refine (proj2 (saved_address_needs_a_failed_fetch Engine2.Number_toString
              Engine2.JSON_parse Engine2.JSON_stringify 41.8273 12.6734
              "Via Galileo Galilei, Frascati, Italia" []
              (new_world (Sample.always Rejected) true) _
              eq_refl eq_refl _ _ _ eq_refl) eq_refl eq_refl).
    + vm_compute. discriminate.
    + vm_compute. reflexivity.
    + discriminate.
  - split; [reflexivity|].
    refine (proj1 (saved_address_needs_a_failed_fetch Engine2.Number_toString
              Engine2.JSON_parse Engine2.JSON_stringify 41.8273 12.6734
              "Via Galileo Galilei, Frascati, Italia" []
              (new_world (Sample.always Rejected) false) _
              eq_refl eq_refl _ _ _ eq_refl) eq_refl).
    + vm_compute. discriminate.
    + vm_compute. reflexivity.
    + discriminate.
Defined.

(** ** Navigation *)

Lemma updateLocationDetails_alerts toS (m : Navigation.t)
    (esaFacility : option Navigation.ESAFacility) (p : Navigation.Page) :
  Navigation.alerts (Navigation.updateLocationDetails toS m esaFacility p)
    = Navigation.alerts p ∧
  Navigation.console (Navigation.updateLocationDetails toS m esaFacility p)
    = Navigation.console p.
Proof.
  unfold Navigation.updateLocationDetails.
  destruct (Navigation.currentLocation m) as [[lat lon]|]; [|done].
  cbn [Navigation.locationDetails Navigation.with_document].
  destruct (Navigation.locationDetails p) as [details|]; [|done].
  by destruct (LocationDetails.reverseGeocode_start _ _ _ _ _).
Qed.

(** X21. When the form moves the map.  [handleGoToLocation] answers
    coordinates that are not numbers or are out of range with an alert and
    nothing else.  Coordinates in range of which one is 0 pass the form
    but not [goToLocation]: there is no alert, the console gets [Invalid
    coordinates], and neither the map nor the panel changes, so a place on
    the equator or on the prime meridian cannot be reached.  All other
    coordinates become the current location, and the map flies there, to
    zoom 16 or 18. *)
Theorem handleGoToLocation_moves_the_map Math Trig toS (lat lon : float)
    (m : Navigation.t) (p : Navigation.Page) :
  let out := Navigation.handleGoToLocation Math Trig toS lat lon m p in
  (accepted lat lon = false → out.1 = m ∧ ∃ message, out.2 = Navigation.alert message p) ∧
  (accepted lat lon = true → Number.falsy lat || Number.falsy lon = true →
     out = (m, Navigation.console_line Navigation.ErrorInvalidCoordinates p)) ∧
  (accepted lat lon = true → Number.falsy lat || Number.falsy lon = false →
     Navigation.currentLocation out.1 = Some (lat, lon) ∧
     (∃ z, Navigation.flight (Navigation.map out.1) = Some (lat, lon, z) ∧ (z = 16 ∨ z = 18)) ∧
     Navigation.alerts out.2 = Navigation.alerts p).
Proof.
  intros out. unfold out, Navigation.handleGoToLocation, accepted.
  destruct (is_nan lat || is_nan lon).
  { split; [by eauto|]. by split. }
  destruct ((lat <? -90)%float || (90 <? lat)%float).
  { split; [by eauto|]. by split. }
  destruct ((lon <? -180)%float || (180 <? lon)%float).
  { split; [by eauto|]. by split. }
  split; [done|]. unfold Navigation.goToLocation. split.
  - by intros _ ->.
  - intros _ ->.
    destruct (Navigation.getNearbyESA Math Trig lat lon) as [f|]; cbn [fst snd].
    + split; [done|]. split; [by eauto|].
      cbn [Navigation.alerts Navigation.console_line Navigation.with_document].
      apply updateLocationDetails_alerts.
    + split; [done|]. split; [by eauto|].
      cbn [Navigation.alerts Navigation.console_line Navigation.with_document].
      apply updateLocationDetails_alerts.
Qed.

Lemma handleGoToLocation_witness :
  (accepted 95 12.6734 = false ∧
   (Navigation.handleGoToLocation Engine.Math Engine2.Trig Engine2.Number_toString 95 12.6734
      (Navigation.init Sample.frascati) (new_page (new_world Sample.flaky true))).1
   = Navigation.init Sample.frascati) ∧
  (accepted 0 12.6734 = true ∧ Number.falsy 0 || Number.falsy 12.6734 = true ∧
   Navigation.handleGoToLocation Engine.Math Engine2.Trig Engine2.Number_toString 0 12.6734
     (Navigation.init Sample.frascati) (new_page (new_world Sample.flaky true))
   = (Navigation.init Sample.frascati,
      Navigation.console_line Navigation.ErrorInvalidCoordinates
        (new_page (new_world Sample.flaky true)))) ∧
  (accepted 41.8273 12.6734 = true ∧ Number.falsy 41.8273 || Number.falsy 12.6734 = false ∧
   Navigation.currentLocation
     (Navigation.handleGoToLocation Engine.Math Engine2.Trig Engine2.Number_toString
        41.8273 12.6734 (Navigation.init Sample.frascati)
        (new_page (new_world Sample.flaky true))).1
   = Some (41.8273%float, 12.6734%float)).
Proof.
  pose proof (handleGoToLocation_moves_the_map Engine.Math Engine2.Trig
                Engine2.Number_toString 95 12.6734 (Navigation.init Sample.frascati)
                (new_page (new_world Sample.flaky true))) as (H1 & _ & _).
  pose proof (handleGoToLocation_moves_the_map Engine.Math Engine2.Trig
                Engine2.Number_toString 0 12.6734 (Navigation.init Sample.frascati)
                (new_page (new_world Sample.flaky true))) as (_ & H2 & _).
  pose proof (handleGoToLocation_moves_the_map Engine.Math Engine2.Trig
                Engine2.Number_toString 41.8273 12.6734 (Navigation.init Sample.frascati)
                (new_page (new_world Sample.flaky true))) as (_ & _ & H3).
  split; [split; [reflexivity|exact (proj1 (H1 eq_refl))]|].
  split; [split; [reflexivity|split; [reflexivity|exact (H2 eq_refl eq_refl)]]|].
  split; [reflexivity|split; [reflexivity|exact (proj1 (H3 eq_refl eq_refl))]].
Defined.

(** The equator passes the form and stops at [goToLocation]. *)
Example handleGoToLocation_on_the_equator Math Trig toS (m : Navigation.t)
    (p : Navigation.Page) :
  accepted 0 12.6734 = true ∧
  Navigation.handleGoToLocation Math Trig toS 0 12.6734 m p
  = (m, Navigation.console_line Navigation.ErrorInvalidCoordinates p).
Proof. split; reflexivity. Qed.



(** ** The facilities *)

Lemma finite_cases (t : float) :
  finite t → (∃ s, Prim2SF t = S754_zero s) ∨ (∃ s m e, Prim2SF t = S754_finite s m e).
Proof.
  unfold finite. rewrite ltb_spec, abs_spec.
  destruct (Prim2SF t) as [s|s| |s m e]; simpl; try done; eauto.
Qed.

Lemma finite_times_zero (t : float) : finite t → (0 * 0 + t * 0 * 0)%float = 0%float.
Proof.
  intros Hfin. apply Prim2SF_inj. rewrite add_spec, !mul_spec.
  destruct (finite_cases t Hfin) as [[s ->]|(s & m & e & ->)]; by destruct s.
Qed.

Lemma find_is_Some {A} (f : A → bool) (l : list A) (a : A) :
  a ∈ l → f a = true → is_Some (List.find f l).
Proof.
  intros Hin Hf. destruct (List.find f l) eqn:Hfind; [done|].
  assert (Hin' : In a l) by (by apply list_elem_of_In).
  pose proof (List.find_none f l Hfind a Hin'). congruence.
Qed.

Lemma calculateDistance_at_a_facility Math Trig (facility : Navigation.ESAFacility) :
  Navigation.Math_sin Trig 0 = 0%float →
  Navigation.Math_atan2 Trig 0 1 = 0%float →
  Forall (λ f, finite (Math_cos Math (Navigation.deg2rad (Navigation.lat f)) *
                       Math_cos Math (Navigation.deg2rad (Navigation.lat f))))
    Navigation.getESAFacilities →
  facility ∈ Navigation.getESAFacilities →
  Navigation.calculateDistance Math Trig (Navigation.lat facility) (Navigation.lon facility)
    (Navigation.lat facility) (Navigation.lon facility) = 0%float.
Proof.
  intros Hsin Hatan Hcos Hin. rewrite Forall_forall in Hcos. specialize (Hcos _ Hin).
  unfold Navigation.calculateDistance.
  assert (Hlat : (Navigation.deg2rad (Navigation.lat facility - Navigation.lat facility) / 2
                  = 0)%float).
  { unfold Navigation.getESAFacilities in Hin.
    repeat (apply elem_of_cons in Hin as [->|Hin]; [vm_compute; reflexivity|]).
    by apply elem_of_nil in Hin. }
  assert (Hlon : (Navigation.deg2rad (Navigation.lon facility - Navigation.lon facility) / 2
                  = 0)%float).
  { unfold Navigation.getESAFacilities in Hin.
    repeat (apply elem_of_cons in Hin as [->|Hin]; [vm_compute; reflexivity|]).
    by apply elem_of_nil in Hin. }
  cbv zeta. rewrite Hlat, Hlon, Hsin.
  rewrite (finite_times_zero _ Hcos).
  change (sqrt 0) with 0%float. change (sqrt (1 - 0)) with 1%float. rewrite Hatan.
  reflexivity.
Qed.

Lemma updateLocationDetails_esa_info toS (m : Navigation.t)
    (esaFacility : option Navigation.ESAFacility) (p : Navigation.Page) (lat lon : float) :
  Navigation.currentLocation m = Some (lat, lon) →
  Navigation.esa_info_hidden
    (Navigation.document (Navigation.updateLocationDetails toS m esaFacility p))
  = match esaFacility with Some _ => false | None => true end.
Proof.
  intros Hm. unfold Navigation.updateLocationDetails. rewrite Hm.
  cbn [Navigation.locationDetails Navigation.with_document].
  destruct (Navigation.locationDetails p) as [details|]; [|done].
  by destruct (LocationDetails.reverseGeocode_start _ _ _ _ _).
Qed.

(** X23. A listed facility is recognised at its own coordinates.  On an
    engine whose [Math.sin(0)] and [Math.atan2(0, 1)] are 0, as ECMAScript
    says, and whose cosines at the latitudes of the facilities have a
    finite product, [goToLocation] at the latitude and longitude of any of
    the six facilities finds a facility within 2 km: whatever zoom the
    caller asks for, the map flies to zoom 18, and the details panel and
    the ESA block are shown. *)
Theorem goToLocation_recognises_the_facilities Math Trig toS
    (facility : Navigation.ESAFacility) (zoom : Z) (m : Navigation.t) (p : Navigation.Page) :
  Navigation.Math_sin Trig 0 = 0%float →
  Navigation.Math_atan2 Trig 0 1 = 0%float →
  Forall (λ f, finite (Math_cos Math (Navigation.deg2rad (Navigation.lat f)) *
                       Math_cos Math (Navigation.deg2rad (Navigation.lat f))))
    Navigation.getESAFacilities →
  facility ∈ Navigation.getESAFacilities →
  let out := Navigation.goToLocation Math Trig toS (Navigation.lat facility)
               (Navigation.lon facility) zoom m p in
  is_Some (Navigation.currentESAFacility out.1) ∧
  Navigation.flight (Navigation.map out.1)
    = Some (Navigation.lat facility, Navigation.lon facility, 18) ∧
  Navigation.details_panel_hidden (Navigation.document out.2) = false ∧
  Navigation.esa_info_hidden (Navigation.document out.2) = false.
Proof.
  intros Hsin Hatan Hcos Hin out.
  assert (Hnear : is_Some (Navigation.getNearbyESA Math Trig (Navigation.lat facility)
                             (Navigation.lon facility))).
  { apply (find_is_Some _ _ facility Hin).
    by rewrite (calculateDistance_at_a_facility Math Trig facility Hsin Hatan Hcos Hin). }
  assert (Htruthy : Number.falsy (Navigation.lat facility)
                    || Number.falsy (Navigation.lon facility) = false).
  { unfold Navigation.getESAFacilities in Hin.
    repeat (apply elem_of_cons in Hin as [->|Hin]; [vm_compute; reflexivity|]).
    by apply elem_of_nil in Hin. }
  unfold out, Navigation.goToLocation. rewrite Htruthy.
  destruct Hnear as [near Hnear]. rewrite Hnear.
  unfold Navigation.add_marker. cbv beta iota zeta. cbn [fst snd].
  split; [done|]. split; [done|]. split; [done|].
  cbn [Navigation.document Navigation.console_line Navigation.with_document
       Navigation.set_details_panel_hidden Navigation.esa_info_hidden].
  by rewrite (updateLocationDetails_esa_info toS _ _ _ (Navigation.lat facility)
                (Navigation.lon facility)).
Qed.

Lemma goToLocation_recognises_witness :
  let facility := {| Navigation.name := "ESOC"; Navigation.lat := 49.8719;
                     Navigation.lon := 8.6228; Navigation.radius := 2;
                     Navigation.desc := "European Space Operations Centre";
                     Navigation.location := "Darmstadt, Germany";
                     Navigation.established := "1967";
                     Navigation.function := "Mission control for ESA satellites. Operates spacecraft, plans missions, and maintains the ground station network.";
                     Navigation.staff := "~800 employees" |}%float in
  let out := Navigation.goToLocation Engine.Math Engine2.Trig Engine2.Number_toString
               (Navigation.lat facility) (Navigation.lon facility) 12
               (Navigation.init Sample.frascati)
               (new_page (new_world (Sample.always Rejected) false)) in
  is_Some (Navigation.currentESAFacility out.1) ∧
  Navigation.flight (Navigation.map out.1)
    = Some (Navigation.lat facility, Navigation.lon facility, 18) ∧
  Navigation.details_panel_hidden (Navigation.document out.2) = false ∧
  Navigation.esa_info_hidden (Navigation.document out.2) = false.
Proof.
  refine (goToLocation_recognises_the_facilities Engine.Math Engine2.Trig
            Engine2.Number_toString _ 12 (Navigation.init Sample.frascati)
            (new_page (new_world (Sample.always Rejected) false)) _ _ _ _).
  - vm_compute. reflexivity.
  - vm_compute. reflexivity.
  - repeat constructor; vm_compute; reflexivity.
  - do 2 right. left.
Defined.

(** ** Automatic caching *)



(** ** Other requests *)

(** X25. Only GET requests use the static store.  For a request that is no
    GET, [handleStaticRequest] neither reads nor writes a store: online it
    resolves with the network's answer, offline with the 404 response
    [Offline], and no entry of any store changes.  For a GET that the
    static store holds, it resolves with the stored response and makes no
    fetch. *)
Theorem handleStaticRequest_stores_only_GET (version : string)
    (request : StaticRequests.Request) (b : Browser) :
  let out := StaticRequests.handleStaticRequest version request b in
  (StaticRequests.method request ≠ "GET" →
     (∀ name url, cache_match name url (StaticRequests.browser out) = cache_match name url b) ∧
     (onLine b = true → ∀ r,
        network b (length (fetched b)) (StaticRequests.url request) = Resolved r →
        StaticRequests.response out = r) ∧
     (onLine b = false →
        StaticRequests.response out
        = ServiceWorker.text_response "Resource not available offline" 404 "Offline" ∧
        fetched (StaticRequests.browser out) = fetched b)) ∧
  (StaticRequests.method request = "GET" → ∀ r,
     cache_match (ServiceWorker.STATIC_CACHE version) (StaticRequests.url request) b = Some r →
     StaticRequests.response out = r ∧
     fetched (StaticRequests.browser out) = fetched b).
Proof.
  intros out. unfold out, StaticRequests.handleStaticRequest,
    StaticRequests.cache_match_request. split.
  - intros Hmethod.
    destruct (String.eqb_spec (StaticRequests.method request) "GET") as [|_]; [done|].
    cbn [onLine caches_open with_caches]. split; [|split].
    + intros name url. destruct (onLine b).
      * rewrite fetch_unfold. destruct (network _ _ _) as [r|]; cbn [StaticRequests.browser].
        -- by rewrite andb_false_r, cache_match_fetch, cache_match_open.
        -- by rewrite cache_match_fetch, cache_match_open.
      * cbn [StaticRequests.browser]. apply cache_match_open.
    + intros -> r Hnet. rewrite fetch_unfold.
      cbn [network fetched caches_open with_caches]. by rewrite Hnet.
    + by intros ->.
  - intros -> r Hhit. cbn [String.eqb Ascii.eqb Bool.eqb]. by rewrite cache_match_open, Hhit.
Qed.

Lemma handleStaticRequest_witness :
  ("POST" ≠ "GET" ∧
   onLine (Sample.browser Sample.flaky false) = false ∧
   StaticRequests.response
     (StaticRequests.handleStaticRequest "v1"
        {| StaticRequests.url := "/index.html"; StaticRequests.method := "POST" |}
        (Sample.browser Sample.flaky false))
   = ServiceWorker.text_response "Resource not available offline" 404 "Offline") ∧
  (cache_match (ServiceWorker.STATIC_CACHE "v1") "/index.html"
     (cache_put (ServiceWorker.STATIC_CACHE "v1") "/index.html" Sample.tile_png
        (Sample.browser Sample.flaky false)) = Some Sample.tile_png ∧
   StaticRequests.response
     (StaticRequests.handleStaticRequest "v1"
        {| StaticRequests.url := "/index.html"; StaticRequests.method := "GET" |}
        (cache_put (ServiceWorker.STATIC_CACHE "v1") "/index.html" Sample.tile_png
           (Sample.browser Sample.flaky false)))
   = Sample.tile_png).
Proof.
  split.
  - split; [discriminate|]. split; [reflexivity|].
    refine (proj1 (proj2 (proj2 (proj1 (handleStaticRequest_stores_only_GET "v1"
              {| StaticRequests.url := "/index.html"; StaticRequests.method := "POST" |}
              (Sample.browser Sample.flaky false)) _)) eq_refl)).
    discriminate.
  - assert (H : cache_match (ServiceWorker.STATIC_CACHE "v1") "/index.html"
                  (cache_put (ServiceWorker.STATIC_CACHE "v1") "/index.html" Sample.tile_png
                     (Sample.browser Sample.flaky false)) = Some Sample.tile_png)
      by (vm_compute; reflexivity).
    split; [exact H|].
    exact (proj1 (proj2 (handleStaticRequest_stores_only_GET "v1"
             {| StaticRequests.url := "/index.html"; StaticRequests.method := "GET" |}
             (cache_put (ServiceWorker.STATIC_CACHE "v1") "/index.html" Sample.tile_png
                (Sample.browser Sample.flaky false))) eq_refl Sample.tile_png H)).
Defined.

(** ** A download, end to end *)

(** X26. A download attempts every tile of the box once: when the
    enumeration returns a list, [downloadArea] returns with the length of
    the list, having made one fetch per URL of the list in the order of the
    list and nothing else on the network, reported (1, n) to (n, n) when a
    callback was given, and left the flag cleared. *)
Theorem downloadArea_attempts_every_tile Math (this : TileCache.t) bounds
    (minZoom maxZoom : Z) (onProgress : bool) (b : Browser) (urls : list string) :
  TileCache.generateTileUrls Math bounds minZoom maxZoom = Normal urls →
  ∃ b', TileCache.downloadArea Math this bounds minZoom maxZoom onProgress b
        = Normal (length urls,
                  if onProgress then (λ i, (i, length urls)) <$> seq 1 (length urls) else [],
                  TileCache.set_isDownloading false this, b') ∧
        fetched b' = fetched b ++ urls.
Proof.
  intros Hurls. unfold TileCache.downloadArea. rewrite Hurls.
  cbn [mbind completion_bind bind].
  rewrite (surjective_pairing (TileCache.cacheTiles _ _ _ _)).
  rewrite (surjective_pairing (TileCache.cacheTiles _ _ _ _).1).
  eexists. split.
  - rewrite cacheTiles_returns_length. do 2 f_equal. f_equal.
    unfold TileCache.cacheTiles. cbn [fst snd].
    rewrite cacheTiles_iterations_progress. by destruct onProgress.
  - cbn [fetched console_write]. unfold TileCache.cacheTiles. cbn [snd].
    unfold TileCache.updateCacheInfo. cbn [snd].
    change (fetched (set_textContent ?t (caches_open ?n ?b'))) with (fetched b').
    by rewrite (proj1 (cacheTiles_iterations_fetched _ _ _ _ _)).
Qed.

Lemma downloadArea_attempts_witness :
  TileCache.generateTileUrls Engine.Math Sample.frascati 12 12 = Normal Sample.frascati_12 ∧
  ∃ b', TileCache.downloadArea Engine.Math Sample.tileCache Sample.frascati 12 12 true
          (Sample.browser Sample.flaky true)
        = Normal (length Sample.frascati_12,
                  (λ i, (i, length Sample.frascati_12)) <$> seq 1 (length Sample.frascati_12),
                  TileCache.set_isDownloading false Sample.tileCache, b') ∧
        fetched b' = fetched (Sample.browser Sample.flaky true) ++ Sample.frascati_12.
Proof.
  assert (H : TileCache.generateTileUrls Engine.Math Sample.frascati 12 12
              = Normal Sample.frascati_12) by (vm_compute; reflexivity).
  split; [exact H|].
  exact (downloadArea_attempts_every_tile Engine.Math Sample.tileCache Sample.frascati 12 12
           true (Sample.browser Sample.flaky true) Sample.frascati_12 H).
Defined.

(** ** The page's store and the worker's *)




